(** * processing_pipeline: PII redaction pipeline

    A shallow embedding of the core of the repository
    (coordinate_converter.py, pipeline.py, annotation_builder.py,
    annotation_db_manager.py, config_encryption.py) together with the
    properties its specification states about it and further
    properties of the code.

    Conventions of the embedding:
    - a Python [str] is a [string]; the character classes used by the
      source ([str.upper], [str.lower], [str.isspace], [\s]) are modelled
      on ASCII code points, every other character is caseless and not a
      space;
    - a Python [int] is a [Z]; a Python [float] obtained by true division
      of integers is an exact rational [Q];
    - a call that can raise returns a [result]; [None] is [option];
    - the datastore, the clock and the logger are explicit state. *)

From Stdlib Require Import ZArith QArith Qminmax String Ascii List Bool Lia.
From Stdlib Require Import Sorted Permutation.
Import ListNotations.

Open Scope string_scope.

(** ** Exceptions and results *)

Inductive exn : Type :=
| TypeError
| ValueError
| OverflowError
| DecodeError
| DatabaseError.

Inductive result (A : Type) : Type :=
| Ok (a : A)
| Raise (e : exn).

Arguments Ok {A} a.
Arguments Raise {A} e.

(** ** The string operations of Python used by the source *)

Module PyStr.

Definition code (c : ascii) : nat := nat_of_ascii c.

Definition is_upper (c : ascii) : bool :=
  (65 <=? code c)%nat && (code c <=? 90)%nat.

Definition is_lower (c : ascii) : bool :=
  (97 <=? code c)%nat && (code c <=? 122)%nat.

Definition is_digit (c : ascii) : bool :=
  (48 <=? code c)%nat && (code c <=? 57)%nat.

(** [str.isspace] on one ASCII character: TAB, LF, VT, FF, CR, the four
    separators FS, GS, RS, US, and the space. This is also the class
    [\s] of a [str] pattern. *)
Definition isspace (c : ascii) : bool :=
  ((9 <=? code c)%nat && (code c <=? 13)%nat)
  || ((28 <=? code c)%nat && (code c <=? 32)%nat).

Definition to_upper (c : ascii) : ascii :=
  if is_lower c then ascii_of_nat (code c - 32) else c.

Definition to_lower (c : ascii) : ascii :=
  if is_upper c then ascii_of_nat (code c + 32) else c.

Fixpoint map (f : ascii -> ascii) (s : string) : string :=
  match s with
  | EmptyString => EmptyString
  | String c s' => String (f c) (map f s')
  end.

(** [s.upper()] and [s.lower()]. *)
Definition upper (s : string) : string := map to_upper s.
Definition lower (s : string) : string := map to_lower s.

(** [s.replace(old, new)] for one-character [old] and [new]. *)
Definition replace (old new : ascii) (s : string) : string :=
  map (fun c => if Ascii.eqb c old then new else c) s.

(** Membership of a character in the argument of [s.strip(chars)]. *)
Fixpoint mem (c : ascii) (chars : string) : bool :=
  match chars with
  | EmptyString => false
  | String d chars' => Ascii.eqb c d || mem c chars'
  end.

Fixpoint lstrip (p : ascii -> bool) (s : string) : string :=
  match s with
  | EmptyString => EmptyString
  | String c s' => if p c then lstrip p s' else s
  end.

Fixpoint rstrip (p : ascii -> bool) (s : string) : string :=
  match s with
  | EmptyString => EmptyString
  | String c s' =>
      match rstrip p s' with
      | EmptyString => if p c then EmptyString else String c EmptyString
      | r => String c r
      end
  end.

(** [s.strip()] removes leading and trailing whitespace,
    [s.strip(chars)] leading and trailing characters of [chars]. *)
Definition strip_by (p : ascii -> bool) (s : string) : string :=
  rstrip p (lstrip p s).

Definition strip (s : string) : string := strip_by isspace s.

Definition strip_chars (chars : string) (s : string) : string :=
  strip_by (fun c => mem c chars) s.

(** [re.sub(r'\s+', ' ', s)]: every maximal run of whitespace becomes
    one space. [in_run] tells that the previous character was part of
    a run already replaced. *)
Fixpoint sub_ws_from (in_run : bool) (s : string) : string :=
  match s with
  | EmptyString => EmptyString
  | String c s' =>
      if isspace c
      then (if in_run then sub_ws_from true s'
            else String " " (sub_ws_from true s'))
      else String c (sub_ws_from false s')
  end.

Definition re_sub_ws (s : string) : string := sub_ws_from false s.

(** Truth value of a [str]: the empty string is false. *)
Definition truthy (s : string) : bool :=
  match s with EmptyString => false | _ => true end.

Fixpoint chars (s : string) : list ascii :=
  match s with
  | EmptyString => []
  | String c s' => c :: chars s'
  end.



(** Every character of [s] satisfies [p]. *)
Fixpoint all (p : ascii -> bool) (s : string) : bool :=
  match s with
  | EmptyString => true
  | String c s' => p c && all p s'
  end.






End PyStr.

(** ** annotation_builder.py *)

Module AnnotationBuilder.

(** The fields of the Thrift struct [Annotation] that the builder sets.
    Enumeration members are integers, as in the generated Python. *)
Record Annotation : Type := {
  eType : Z;
  dXPos : Q;
  dYPos : Q;
  dWidth : Q;
  dHeight : Q;
  sFillColour : string;
  sLineColour : string;
  dFillOpacity : Q;
  dLineOpacity : Q;
  sReasonCategory : string;
  sFoundValue : string;
  sCreatedBy : string;
  sTimeCreated : string;
  sModifiedBy : string;
  sModifiedTime : string;
  eSource : Z;
  iPageLevelID : Z;
  iOrder : Z;
  iConfidence : Z
}.

Record AnnotationData : Type := {
  aAnnots : list Annotation;
  iPageLevelIDCount : Z;
  lPageNumber : Z
}.

(** One entry of [pii_detections], a dict read with [.get]. *)
Record detection : Type := {
  d_type : option string;
  d_value : option string;
  d_normalized_coords : option (list Q);
  d_confidence : option Z
}.

(** A detection whose [normalized_coords] is a 4-tuple. *)
Definition has_coords (pii : detection) : Prop :=
  exists l t w h, d_normalized_coords pii = Some [l; t; w; h].

(** [dict.get(key, default)] on an optional entry. *)
Definition get {A : Type} (entry : option A) (default : A) : A :=
  match entry with Some v => v | None => default end.

Definition ENTITY_TYPE_MAP : list (string * string) :=
  [ ("SSN", "SSN");
    ("SOCIAL_SECURITY_NUMBER", "SSN");
    ("PHONE", "PHONE");
    ("PHONE_NUMBER", "PHONE");
    ("EMAIL", "EMAIL");
    ("EMAIL_ADDRESS", "EMAIL");
    ("NAME", "NAME");
    ("PERSON", "NAME");
    ("ADDRESS", "ADDRESS");
    ("LOCATION", "ADDRESS");
    ("DATE_OF_BIRTH", "DOB");
    ("DOB", "DOB");
    ("CREDIT_CARD", "CREDIT_CARD");
    ("BANK_ACCOUNT", "BANK_ACCOUNT");
    ("DRIVERS_LICENSE", "DRIVERS_LICENSE");
    ("PASSPORT", "PASSPORT") ].

Fixpoint dict_get (m : list (string * string)) (k default : string) : string :=
  match m with
  | [] => default
  | (k', v) :: m' => if String.eqb k k' then v else dict_get m' k default
  end.

Definition normalize_entity_type (entity_type : string) : string :=
  let entity_type_upper := PyStr.replace " " "_" (PyStr.upper entity_type) in
  dict_get ENTITY_TYPE_MAP entity_type_upper entity_type_upper.

Section Builder.

(** [self.creator_name]. *)
Variable creator_name : string.
(** The members [enAnnotationType.annotRedaction] and
    [enAnnotationSource.massActionCreated] of the generated module
    [Annotations.ttypes]. *)
Variables annotRedaction massActionCreated : Z.
(** The transportable form and the writer and reader that the Thrift
    JSON protocol and the generated struct provide; the reader
    raises on a payload it cannot decode. *)
Variable json : Type.
Variable thrift_write : AnnotationData -> json.
Variable thrift_read : json -> result AnnotationData.

(** [left, top, width, height = normalized_coords]. *)
Definition unpack4 (normalized_coords : option (list Q))
  : result (Q * Q * Q * Q) :=
  match normalized_coords with
  | None => Raise TypeError
  | Some [left_; top; width; height] => Ok (left_, top, width, height)
  | Some _ => Raise ValueError
  end.

(** [timestamp] is [datetime.utcnow().isoformat()] as read by this
    call; [order = None] and [mask_value = true] are the defaults. *)
Definition create_pii_annotation
    (timestamp : string)
    (entity_type entity_value : string)
    (normalized_coords : option (list Q))
    (confidence page_level_id : Z)
    (order : option Z)
    (mask_value : bool) : result Annotation :=
  match unpack4 normalized_coords with
  | Raise e => Raise e
  | Ok (left_, top, width, height) =>
      let normalized_type := normalize_entity_type entity_type in
      let found_value :=
        if mask_value then "***" ++ normalized_type ++ "***"
        else entity_value in
      let order := match order with None => page_level_id | Some o => o end in
      Ok {| eType := annotRedaction;
            dXPos := left_;
            dYPos := top;
            dWidth := width;
            dHeight := height;
            sFillColour := "#000000";
            sLineColour := "#000000";
            dFillOpacity := 1;
            dLineOpacity := 1;
            sReasonCategory := normalized_type;
            sFoundValue := found_value;
            sCreatedBy := creator_name;
            sTimeCreated := timestamp;
            sModifiedBy := creator_name;
            sModifiedTime := timestamp;
            eSource := massActionCreated;
            iPageLevelID := page_level_id;
            iOrder := order;
            iConfidence := confidence |}
  end.

Definition create_annotation_data
    (annotations : list Annotation) (page_number : Z) : AnnotationData :=
  {| aAnnots := annotations;
     iPageLevelIDCount := Z.of_nat (List.length annotations);
     lPageNumber := page_number |}.

Definition serialize_to_json (annot_data : AnnotationData) : json :=
  thrift_write annot_data.

Definition deserialize_from_json (json_str : json) : result AnnotationData :=
  thrift_read json_str.

(** The loop [for i, pii in enumerate(pii_detections, start=1)];
    [utcnow i] is the clock as read while entry [i] is built. *)
Fixpoint build_loop (utcnow : Z -> string) (i : Z)
    (pii_detections : list detection) (annotations : list Annotation)
  : result (list Annotation) :=
  match pii_detections with
  | [] => Ok annotations
  | pii :: rest =>
      match create_pii_annotation (utcnow i)
              (get (d_type pii) "UNKNOWN")
              (get (d_value pii) "")
              (d_normalized_coords pii)
              (get (d_confidence pii) 0%Z)
              i (Some i) true with
      | Raise e => Raise e
      | Ok annotation =>
          build_loop utcnow (i + 1)%Z rest (annotations ++ [annotation])
      end
  end.

Definition build_from_pii_detections (utcnow : Z -> string)
    (pii_detections : list detection) (page_number : Z)
  : result (AnnotationData * json) :=
  match build_loop utcnow 1%Z pii_detections [] with
  | Raise e => Raise e
  | Ok annotations =>
      let annot_data := create_annotation_data annotations page_number in
      let json_str := serialize_to_json annot_data in
      Ok (annot_data, json_str)
  end.

End Builder.

End AnnotationBuilder.

(** The detection of the specification's masking example. *)
Definition ssn_detection : AnnotationBuilder.detection :=
  {| AnnotationBuilder.d_type := Some "SSN";
     AnnotationBuilder.d_value := Some "123-45-6789";
     AnnotationBuilder.d_normalized_coords :=
       Some [15 # 100; 25 # 100; 10 # 100; 2 # 100];
     AnnotationBuilder.d_confidence := Some 98%Z |}.

(** ** The encoded form of an annotation page *)

Module ThriftModel.

Import AnnotationBuilder.

(** Modelled from the spec: the generated module [Annotations.ttypes]
    (the [write] and [read] methods of the structs [Annotation] and
    [AnnotationData]) is not among the sources. The specification
    describes the payload as a field-numbered structured encoding in
    which readers find fields by their numeric tag, may meet fields
    they do not know, and fail on a payload that lacks a field or holds
    a value of another type. The encoded form is modelled as the tree
    of tagged, typed values that the text spells out. *)
#[local] Unset Elimination Schemes.
Inductive wire : Type :=
| WI32 (z : Z)
| WI64 (z : Z)
| WDbl (q : Q)
| WStr (s : string)
| WRec (fields : list (Z * wire))
| WLst (items : list wire).
#[local] Set Elimination Schemes.

(** The fields of an annotation. *)
Inductive annotation_field : Type :=
| F_eType | F_dXPos | F_dYPos | F_dWidth | F_dHeight
| F_sFillColour | F_sLineColour | F_dFillOpacity | F_dLineOpacity
| F_sReasonCategory | F_sFoundValue | F_sCreatedBy | F_sTimeCreated
| F_sModifiedBy | F_sModifiedTime | F_eSource | F_iPageLevelID
| F_iOrder | F_iConfidence.

Definition index (f : annotation_field) : nat :=
  match f with
  | F_eType => 0 | F_dXPos => 1 | F_dYPos => 2 | F_dWidth => 3
  | F_dHeight => 4 | F_sFillColour => 5 | F_sLineColour => 6
  | F_dFillOpacity => 7 | F_dLineOpacity => 8 | F_sReasonCategory => 9
  | F_sFoundValue => 10 | F_sCreatedBy => 11 | F_sTimeCreated => 12
  | F_sModifiedBy => 13 | F_sModifiedTime => 14 | F_eSource => 15
  | F_iPageLevelID => 16 | F_iOrder => 17 | F_iConfidence => 18
  end.

Definition field_eqb (f g : annotation_field) : bool :=
  Nat.eqb (index f) (index g).

(** The field numbers that the comments of [create_pii_annotation]
    give. *)
Definition documented_tag (f : annotation_field) : option Z :=
  match f with
  | F_iOrder => Some 12%Z
  | F_sCreatedBy => Some 17%Z
  | F_sTimeCreated => Some 18%Z
  | F_sModifiedBy => Some 19%Z
  | F_sModifiedTime => Some 20%Z
  | F_iPageLevelID => Some 21%Z
  | F_sReasonCategory => Some 50%Z
  | F_sFoundValue => Some 51%Z
  | F_iConfidence => Some 53%Z
  | F_eSource => Some 54%Z
  | _ => None
  end.

(** The field numbers of [AnnotationData], from the comments of
    [create_annotation_data]. *)
Definition TAG_aAnnots : Z := 1.
Definition TAG_iPageLevelIDCount : Z := 2.
Definition TAG_lPageNumber : Z := 5.

(** The field with a given tag, if the struct holds one. *)
Fixpoint field (t : Z) (fields : list (Z * wire)) : option wire :=
  match fields with
  | [] => None
  | (t', v) :: rest => if (t =? t')%Z then Some v else field t rest
  end.

Definition get_i32 (t : Z) (fields : list (Z * wire)) : option Z :=
  match field t fields with Some (WI32 z) => Some z | _ => None end.

Definition get_i64 (t : Z) (fields : list (Z * wire)) : option Z :=
  match field t fields with Some (WI64 z) => Some z | _ => None end.

Definition get_dbl (t : Z) (fields : list (Z * wire)) : option Q :=
  match field t fields with Some (WDbl q) => Some q | _ => None end.

Definition get_str (t : Z) (fields : list (Z * wire)) : option string :=
  match field t fields with Some (WStr s) => Some s | _ => None end.

Definition get_lst (t : Z) (fields : list (Z * wire)) : option (list wire) :=
  match field t fields with Some (WLst l) => Some l | _ => None end.

Notation "x <- c ;; k" :=
  (match c with Some x => k | None => None end)
  (at level 60, c at next level, right associativity).

Section Schema.

(** The field numbers of [Annotation] in the schema. *)
Variable tag : annotation_field -> Z.

(** Modelled from the spec: [Annotation.write] of the generated module,
    every field under its number. *)
Definition write_annotation (a : Annotation) : wire :=
  WRec [ (tag F_eType, WI32 (eType a));
         (tag F_dXPos, WDbl (dXPos a));
         (tag F_dYPos, WDbl (dYPos a));
         (tag F_dWidth, WDbl (dWidth a));
         (tag F_dHeight, WDbl (dHeight a));
         (tag F_sFillColour, WStr (sFillColour a));
         (tag F_sLineColour, WStr (sLineColour a));
         (tag F_dFillOpacity, WDbl (dFillOpacity a));
         (tag F_dLineOpacity, WDbl (dLineOpacity a));
         (tag F_sReasonCategory, WStr (sReasonCategory a));
         (tag F_sFoundValue, WStr (sFoundValue a));
         (tag F_sCreatedBy, WStr (sCreatedBy a));
         (tag F_sTimeCreated, WStr (sTimeCreated a));
         (tag F_sModifiedBy, WStr (sModifiedBy a));
         (tag F_sModifiedTime, WStr (sModifiedTime a));
         (tag F_eSource, WI32 (eSource a));
         (tag F_iPageLevelID, WI32 (iPageLevelID a));
         (tag F_iOrder, WI32 (iOrder a));
         (tag F_iConfidence, WI32 (iConfidence a)) ].

(** Modelled from the spec: [Annotation.read] of the generated module.
    Each field is looked up by its number; a missing field or a value of
    another type makes the payload unreadable. *)
Definition read_annotation (w : wire) : option Annotation :=
  match w with
  | WRec fs =>
      v_eType <- get_i32 (tag F_eType) fs ;;
      v_dXPos <- get_dbl (tag F_dXPos) fs ;;
      v_dYPos <- get_dbl (tag F_dYPos) fs ;;
      v_dWidth <- get_dbl (tag F_dWidth) fs ;;
      v_dHeight <- get_dbl (tag F_dHeight) fs ;;
      v_sFillColour <- get_str (tag F_sFillColour) fs ;;
      v_sLineColour <- get_str (tag F_sLineColour) fs ;;
      v_dFillOpacity <- get_dbl (tag F_dFillOpacity) fs ;;
      v_dLineOpacity <- get_dbl (tag F_dLineOpacity) fs ;;
      v_sReasonCategory <- get_str (tag F_sReasonCategory) fs ;;
      v_sFoundValue <- get_str (tag F_sFoundValue) fs ;;
      v_sCreatedBy <- get_str (tag F_sCreatedBy) fs ;;
      v_sTimeCreated <- get_str (tag F_sTimeCreated) fs ;;
      v_sModifiedBy <- get_str (tag F_sModifiedBy) fs ;;
      v_sModifiedTime <- get_str (tag F_sModifiedTime) fs ;;
      v_eSource <- get_i32 (tag F_eSource) fs ;;
      v_iPageLevelID <- get_i32 (tag F_iPageLevelID) fs ;;
      v_iOrder <- get_i32 (tag F_iOrder) fs ;;
      v_iConfidence <- get_i32 (tag F_iConfidence) fs ;;
      Some {| eType := v_eType; dXPos := v_dXPos; dYPos := v_dYPos;
              dWidth := v_dWidth; dHeight := v_dHeight;
              sFillColour := v_sFillColour; sLineColour := v_sLineColour;
              dFillOpacity := v_dFillOpacity; dLineOpacity := v_dLineOpacity;
              sReasonCategory := v_sReasonCategory;
              sFoundValue := v_sFoundValue; sCreatedBy := v_sCreatedBy;
              sTimeCreated := v_sTimeCreated; sModifiedBy := v_sModifiedBy;
              sModifiedTime := v_sModifiedTime; eSource := v_eSource;
              iPageLevelID := v_iPageLevelID; iOrder := v_iOrder;
              iConfidence := v_iConfidence |}
  | _ => None
  end.

Fixpoint read_annotations (items : list wire) : option (list Annotation) :=
  match items with
  | [] => Some []
  | w :: rest =>
      a <- read_annotation w ;;
      l <- read_annotations rest ;;
      Some (a :: l)
  end.

(** Modelled from the spec: [annot_data.write(protocol)] of the
    generated module. *)
Definition thrift_write (annot_data : AnnotationData) : wire :=
  WRec [ (TAG_aAnnots, WLst (List.map write_annotation (aAnnots annot_data)));
         (TAG_iPageLevelIDCount, WI32 (iPageLevelIDCount annot_data));
         (TAG_lPageNumber, WI64 (lPageNumber annot_data)) ].

(** Modelled from the spec: the field lookup of [AnnotationData.read]
    of the generated module. *)
Definition read_annotation_data (w : wire) : option AnnotationData :=
  match w with
  | WRec fs =>
      items <- get_lst TAG_aAnnots fs ;;
      annots <- read_annotations items ;;
      count <- get_i32 TAG_iPageLevelIDCount fs ;;
      page <- get_i64 TAG_lPageNumber fs ;;
      Some {| aAnnots := annots; iPageLevelIDCount := count;
              lPageNumber := page |}
  | _ => None
  end.

(** Modelled from the spec: [annot_data.read(protocol)] of the generated
    module; a payload that cannot be read is a decode error. *)
Definition thrift_read (w : wire) : result AnnotationData :=
  match read_annotation_data w with
  | Some annot_data => Ok annot_data
  | None => Raise DecodeError
  end.

(** No two fields share a number. *)
Definition distinct_tags : Prop :=
  forall f g, tag f = tag g -> f = g.

End Schema.

(** A numbering that carries the documented field numbers and gives the
    numbers left free below 12 to the fields whose number the sources
    do not tell. *)
Definition example_tag (f : annotation_field) : Z :=
  match documented_tag f with
  | Some t => t
  | None => Z.of_nat (index f) + 2
  end.

(** A page with one annotation, as the builder makes it. *)
Definition example_page : AnnotationData :=
  {| aAnnots :=
       [ {| eType := 2; dXPos := 15 # 100; dYPos := 25 # 100;
            dWidth := 10 # 100; dHeight := 2 # 100;
            sFillColour := "#000000"; sLineColour := "#000000";
            dFillOpacity := 1; dLineOpacity := 1;
            sReasonCategory := "SSN"; sFoundValue := "***SSN***";
            sCreatedBy := "pii_pipeline";
            sTimeCreated := "2026-01-01T00:00:00";
            sModifiedBy := "pii_pipeline";
            sModifiedTime := "2026-01-01T00:00:00";
            eSource := 3; iPageLevelID := 1; iOrder := 1;
            iConfidence := 98 |} ];
     iPageLevelIDCount := 1;
     lPageNumber := 0 |}.

End ThriftModel.

(** ** coordinate_converter.py *)

Module CoordinateConverter.

(** True division [a / b] of two integers. *)
Definition true_div (a b : Z) : Q := inject_Z a / inject_Z b.

(** [max(0.0, min(1.0, x))]. *)
Definition clamp01 (x : Q) : Q := Qmax 0 (Qmin 1 x).

Definition pixel_bbox_to_normalized
    (bbox_pixels : list Z) (page_width page_height : Z)
  : result (Q * Q * Q * Q) :=
  match bbox_pixels with
  | [x1; y1; x2; y2] =>
      if ((page_width <=? 0) || (page_height <=? 0))%Z then Raise ValueError
      else
        let '(x1, x2) := if (x2 <? x1)%Z then (x2, x1) else (x1, x2) in
        let '(y1, y2) := if (y2 <? y1)%Z then (y2, y1) else (y1, y2) in
        let left_ := true_div x1 page_width in
        let top := true_div y1 page_height in
        let width := true_div (x2 - x1) page_width in
        let height := true_div (y2 - y1) page_height in
        Ok (clamp01 left_, clamp01 top, clamp01 width, clamp01 height)
  | _ => Raise ValueError
  end.

Definition Qlt_bool (x y : Q) : bool := negb (Qle_bool y x).

Definition validate_normalized_coords (left_ top width height : Q) : bool :=
  if negb (Qle_bool 0 left_ && Qle_bool left_ 1
           && Qle_bool 0 top && Qle_bool top 1) then false
  else if negb (Qle_bool 0 width && Qle_bool width 1
                && Qle_bool 0 height && Qle_bool height 1) then false
  else if Qlt_bool 1 (left_ + width) then false
  else if Qlt_bool 1 (top + height) then false
  else if Qle_bool width 0 || Qle_bool height 0 then false
  else true.

(** The invariant of a Normalized Rect. *)
Definition normalized_rect_invariant (r : Q * Q * Q * Q) : Prop :=
  let '(l, t, w, h) := r in
  (0 <= l <= 1 /\ 0 <= t <= 1 /\ 0 <= w <= 1 /\ 0 <= h <= 1)
  /\ l + w <= 1 /\ t + h <= 1 /\ 0 < w /\ 0 < h.



(** [validate_normalized_coords( *normalized )] on a returned tuple. *)
Definition validate_rect (r : Q * Q * Q * Q) : bool :=
  let '(l, t, w, h) := r in validate_normalized_coords l t w h.



End CoordinateConverter.

(** ** pipeline.py: the span aligner *)

Module Pipeline.

(** The part of the OCR result read by the aligner: [text_word] and
    [text_word_boxes], one list per line; a missing key reads as the
    empty list. A box is a list of pixel coordinates. *)
Record ocr_dict : Type := {
  text_word : list (list string);
  text_word_boxes : list (list (list Z))
}.

Record token : Type := {
  line_idx : nat;
  token_idx : nat;
  text : string;
  box : list Z
}.

(** [for token_idx in range(min(len(line_tokens), len(line_boxes)))]. *)
Fixpoint flatten_line (line_idx token_idx : nat)
    (line_tokens : list string) (line_boxes : list (list Z)) : list token :=
  match line_tokens, line_boxes with
  | t :: ts, b :: bs =>
      {| line_idx := line_idx; token_idx := token_idx; text := t; box := b |}
      :: flatten_line line_idx (S token_idx) ts bs
  | _, _ => []
  end.

(** [for line_idx, (line_tokens, line_boxes) in
     enumerate(zip(text_lines, box_lines))]. *)
Fixpoint flatten_lines (line_idx : nat)
    (text_lines : list (list string)) (box_lines : list (list (list Z)))
  : list token :=
  match text_lines, box_lines with
  | lt :: tl, lb :: bl =>
      (flatten_line line_idx 0 lt lb ++ flatten_lines (S line_idx) tl bl)%list
  | _, _ => []
  end.

Definition punctuation : string := ",.:;-".

(** The local function [normalize] of [find_target_bboxes];
    [match_case] is the argument of the enclosing call. *)
Definition normalize (match_case : bool) (text : string) : string :=
  let text := PyStr.re_sub_ws text in
  let text := PyStr.strip text in
  let text := if negb match_case then PyStr.lower text else text in
  let text := PyStr.strip_chars punctuation text in
  text.

(** A number that starts as [float('inf')] or [float('-inf')] and is
    replaced by integers. *)
Inductive ext : Type :=
| NegInf
| Fin (z : Z)
| PosInf.

(** [min(m, x)] and [max(m, x)] for an integer [x]. *)
Definition ext_min (m : ext) (x : Z) : ext :=
  match m with
  | PosInf => Fin x
  | Fin z => Fin (Z.min z x)
  | NegInf => NegInf
  end.

Definition ext_max (m : ext) (x : Z) : ext :=
  match m with
  | NegInf => Fin x
  | Fin z => Fin (Z.max z x)
  | PosInf => PosInf
  end.

(** [int(m)]: an infinity cannot be converted. *)
Definition to_int (m : ext) : result Z :=
  match m with
  | Fin z => Ok z
  | _ => Raise OverflowError
  end.

(** The loop [for k in range(i, j + 1)] over the tokens of the window;
    a box that does not have four coordinates is passed over. *)
Fixpoint merge_loop (acc : ext * ext * ext * ext) (window : list token)
  : ext * ext * ext * ext :=
  match window with
  | [] => acc
  | tok :: rest =>
      let '(min_x, min_y, max_x, max_y) := acc in
      match box tok with
      | [x1; y1; x2; y2] =>
          merge_loop (ext_min min_x x1, ext_min min_y y1,
                      ext_max max_x x2, ext_max max_y y2) rest
      | _ => merge_loop acc rest
      end
  end.

Definition merged_box (window : list token) : result (list Z) :=
  let '(min_x, min_y, max_x, max_y) :=
    merge_loop (PosInf, PosInf, NegInf, NegInf) window in
  match to_int min_x, to_int min_y, to_int max_x, to_int max_y with
  | Ok a, Ok b, Ok c, Ok d => Ok [a; b; c; d]
  | Raise e, _, _, _ => Raise e
  | _, Raise e, _, _ => Raise e
  | _, _, Raise e, _ => Raise e
  | _, _, _, Raise e => Raise e
  end.

(** The inner loop [for j in range(i, n_tokens)]: [window] holds the
    tokens [i .. j-1] already appended to [current_text], [rest] the
    tokens from [j] on. The result is the window of the first match of
    this start index, if the loop reaches one. *)
Fixpoint grow (match_case : bool) (normalized_target : string)
    (current_text : string) (window rest : list token) : option (list token) :=
  match rest with
  | [] => None
  | tok :: rest' =>
      let current_text := current_text ++ text tok in
      let window := (window ++ [tok])%list in
      let normalized_window := normalize match_case current_text in
      if String.eqb normalized_window normalized_target then Some window
      else if (String.length normalized_target + 10
               <? String.length normalized_window)%nat
           then None
           else grow match_case normalized_target current_text window rest'
  end.

(** What the call returns: [None], one box, or a list of boxes. *)
Inductive value : Type :=
| PyNone
| PyBox (b : list Z)
| PyList (bs : list (list Z)).

(** [return [] if return_all else None]. *)
Definition empty_result (return_all : bool) : value :=
  if return_all then PyList [] else PyNone.

(** The outer loop [for i in range(n_tokens)]: [tokens] are the tokens
    from index [i] on. *)
Fixpoint scan (match_case return_all : bool) (normalized_target : string)
    (tokens : list token) (found_boxes : list (list Z)) : result value :=
  match tokens with
  | [] => Ok (if return_all then PyList found_boxes else PyNone)
  | tok :: rest =>
      if negb (PyStr.truthy (normalize match_case (text tok)))
      then scan match_case return_all normalized_target rest found_boxes
      else
        match grow match_case normalized_target "" [] tokens with
        | Some window =>
            match merged_box window with
            | Raise e => Raise e
            | Ok merged =>
                if return_all
                then scan match_case return_all normalized_target rest
                       (found_boxes ++ [merged])%list
                else Ok (PyBox merged)
            end
        | None => scan match_case return_all normalized_target rest found_boxes
        end
  end.

Definition is_empty {A : Type} (l : list A) : bool :=
  match l with [] => true | _ => false end.

Definition find_target_bboxes (target : string) (ocr : ocr_dict)
    (match_case return_all : bool) : result value :=
  let text_lines := text_word ocr in
  let box_lines := text_word_boxes ocr in
  if is_empty text_lines || is_empty box_lines
  then Ok (empty_result return_all)
  else
    let flattened_tokens := flatten_lines 0 text_lines box_lines in
    if is_empty flattened_tokens then Ok (empty_result return_all)
    else
      let normalized_target := normalize match_case target in
      if negb (PyStr.truthy normalized_target)
      then Ok (empty_result return_all)
      else scan match_case return_all normalized_target flattened_tokens [].

(** *** Vocabulary of the statements *)

(** The flattened token sequence of an OCR result. *)
Definition tokens_of (ocr : ocr_dict) : list token :=
  flatten_lines 0 (text_word ocr) (text_word_boxes ocr).

(** The raw text of a window: the token texts one after the other. *)
Fixpoint window_text (window : list token) : string :=
  match window with
  | [] => ""
  | tok :: rest => text tok ++ window_text rest
  end.

(** The tokens with indices [i .. j]. *)
Definition slice (tokens : list token) (i j : nat) : list token :=
  firstn (S j - i) (skipn i tokens).

(** The window [i .. j] matches the target. *)
Definition matches (match_case : bool) (target : string)
    (tokens : list token) (i j : nat) : Prop :=
  (i <= j < List.length tokens)%nat
  /\ normalize match_case (window_text (slice tokens i j))
     = normalize match_case target.

(** [b] is the union bounding rectangle of the boxes of [window]: it
    covers each of them and each of its sides touches one of them. *)
Definition union_rect (b : list Z) (window : list token) : Prop :=
  exists a1 b1 a2 b2, b = [a1; b1; a2; b2]
    /\ (forall tok x1 y1 x2 y2, In tok window -> box tok = [x1; y1; x2; y2] ->
          (a1 <= x1 /\ b1 <= y1 /\ x2 <= a2 /\ y2 <= b2)%Z)
    /\ (exists tok x1 y1 x2 y2, In tok window /\ box tok = [x1; y1; x2; y2] /\ a1 = x1)
    /\ (exists tok x1 y1 x2 y2, In tok window /\ box tok = [x1; y1; x2; y2] /\ b1 = y1)
    /\ (exists tok x1 y1 x2 y2, In tok window /\ box tok = [x1; y1; x2; y2] /\ a2 = x2)
    /\ (exists tok x1 y1 x2 y2, In tok window /\ box tok = [x1; y1; x2; y2] /\ b2 = y2).

(** Some token of the window has a box of four coordinates. *)
Definition has_box (window : list token) : Prop :=
  exists tok x1 y1 x2 y2, In tok window /\ box tok = [x1; y1; x2; y2].

(** The window [i .. j] is the first match in scan order: the target
    is not empty once normalized, the token at [i] is not passed over,
    no window with a smaller start index matches, and from [i] no
    shorter window matches or overruns the target by more than 10
    characters. *)
Definition first_match (match_case : bool) (target : string)
    (tokens : list token) (i j : nat) : Prop :=
  matches match_case target tokens i j
  /\ normalize match_case target <> ""
  /\ (forall tok, nth_error tokens i = Some tok ->
        normalize match_case (text tok) <> "")
  /\ (forall i' j', (i' < i)%nat -> ~ matches match_case target tokens i' j')
  /\ (forall j', (i <= j' < j)%nat ->
        ~ matches match_case target tokens i j'
        /\ (String.length (normalize match_case (window_text (slice tokens i j')))
            <= String.length (normalize match_case target) + 10)%nat).

(** The four-coordinate boxes of a window, in order. *)
Fixpoint boxes4 (window : list token) : list (Z * Z * Z * Z) :=
  match window with
  | [] => []
  | tok :: rest =>
      match box tok with
      | [x1; y1; x2; y2] => (x1, y1, x2, y2) :: boxes4 rest
      | _ => boxes4 rest
      end
  end.

(** The four sides of such a box. *)
Definition bx1 (q : Z * Z * Z * Z) : Z := let '(x1, _, _, _) := q in x1.
Definition by1 (q : Z * Z * Z * Z) : Z := let '(_, y1, _, _) := q in y1.
Definition bx2 (q : Z * Z * Z * Z) : Z := let '(_, _, x2, _) := q in x2.
Definition by2 (q : Z * Z * Z * Z) : Z := let '(_, _, _, y2) := q in y2.

(** A token stream given as one line of words with their boxes. *)
Definition one_line (words : list string) (boxes : list (list Z)) : ocr_dict :=
  {| text_word := [words]; text_word_boxes := [boxes] |}.

(** [b] is the union bounding rectangle of a window of [tokens] whose
    normalized text is [normalized_target]. *)
Definition window_box (match_case : bool) (normalized_target : string)
    (tokens : list token) (b : list Z) : Prop :=
  exists i j,
    (i <= j < List.length tokens)%nat
    /\ normalize match_case (window_text (slice tokens i j)) = normalized_target
    /\ union_rect b (slice tokens i j).

(** *** The detection loop of [process_image] *)

(** One entry of the classifier's list for an entity type, a dict read
    with [.get]. *)
Record entity : Type := {
  entity_value : option string;
  confidence_score : option Z
}.

(** One entry of [pii_detections] as [process_image] appends it. *)
Record pii_detection : Type := {
  p_type : string;
  p_value : string;
  p_bbox_pixels : list Z;
  p_normalized_coords : Q * Q * Q * Q;
  p_confidence : Z
}.

Definition or_default {A : Type} (entry : option A) (default : A) : A :=
  match entry with Some v => v | None => default end.

(** The body of the inner loop for one entity; [None] when nothing is
    appended. The aligner is called with its default arguments, so it
    returns [None] or one box, never a list. *)
Definition process_entity (ocr : ocr_dict) (page_width page_height : Z)
    (entity_name : string) (e : entity) : result (option pii_detection) :=
  let entity_value := or_default (entity_value e) "" in
  if negb (PyStr.truthy entity_value) then Ok None
  else
    match find_target_bboxes entity_value ocr false false with
    | Raise ex => Raise ex
    | Ok (PyBox ((_ :: _) as bbox_pixels)) =>
        match CoordinateConverter.pixel_bbox_to_normalized bbox_pixels
                page_width page_height with
        | Raise ex => Raise ex
        | Ok normalized_coords =>
            if CoordinateConverter.validate_rect normalized_coords
            then Ok (Some {| p_type := entity_name;
                             p_value := entity_value;
                             p_bbox_pixels := bbox_pixels;
                             p_normalized_coords := normalized_coords;
                             p_confidence :=
                               or_default (confidence_score e) 50%Z |})
            else Ok None
        end
    | Ok _ => Ok None
    end.

(** [for entity in entities]. *)
Fixpoint process_entities (ocr : ocr_dict) (page_width page_height : Z)
    (entity_name : string) (entities : list entity)
    (pii_detections : list pii_detection) : result (list pii_detection) :=
  match entities with
  | [] => Ok pii_detections
  | e :: rest =>
      match process_entity ocr page_width page_height entity_name e with
      | Raise ex => Raise ex
      | Ok None =>
          process_entities ocr page_width page_height entity_name rest
            pii_detections
      | Ok (Some d) =>
          process_entities ocr page_width page_height entity_name rest
            (pii_detections ++ [d])%list
      end
  end.

(** [for entity_name, entities in classified_entities.items()], the
    dict being given as the list of its items. *)
Fixpoint process_classified (ocr : ocr_dict) (page_width page_height : Z)
    (classified_entities : list (string * list entity))
    (pii_detections : list pii_detection) : result (list pii_detection) :=
  match classified_entities with
  | [] => Ok pii_detections
  | (entity_name, entities) :: rest =>
      match process_entities ocr page_width page_height entity_name entities
              pii_detections with
      | Raise ex => Raise ex
      | Ok pii_detections =>
          process_classified ocr page_width page_height rest pii_detections
      end
  end.

(** The detections that [process_image] returns, given what the OCR
    engine and the classifier returned for the page. *)
Definition process_image_detections (ocr : ocr_dict)
    (classified_entities : list (string * list entity))
    (page_width page_height : Z) : result (list pii_detection) :=
  process_classified ocr page_width page_height classified_entities [].

(** The entry as the builder reads it with [.get]. *)
Definition as_builder_input (d : pii_detection) : AnnotationBuilder.detection :=
  let '(l, t, w, h) := p_normalized_coords d in
  {| AnnotationBuilder.d_type := Some (p_type d);
     AnnotationBuilder.d_value := Some (p_value d);
     AnnotationBuilder.d_normalized_coords := Some [l; t; w; h];
     AnnotationBuilder.d_confidence := Some (p_confidence d) |}.

(** What one pass of the loop body of [process_image] appends for the
    entity [e] listed under [entity_name]. *)
Definition made_from (ocr : ocr_dict) (page_width page_height : Z)
    (entity_name : string) (e : entity) (d : pii_detection) : Prop :=
  p_type d = entity_name
  /\ p_value d <> ""
  /\ entity_value e = Some (p_value d)
  /\ p_confidence d = or_default (confidence_score e) 50%Z
  /\ find_target_bboxes (p_value d) ocr false false = Ok (PyBox (p_bbox_pixels d))
  /\ CoordinateConverter.pixel_bbox_to_normalized (p_bbox_pixels d)
       page_width page_height = Ok (p_normalized_coords d)
  /\ CoordinateConverter.normalized_rect_invariant (p_normalized_coords d).

(** What holds of a detection made on a page from a classifier result. *)
Definition detection_ok (ocr : ocr_dict)
    (classified_entities : list (string * list entity))
    (page_width page_height : Z) (d : pii_detection) : Prop :=
  p_value d <> ""
  /\ (exists entities e,
        In (p_type d, entities) classified_entities /\ In e entities
        /\ entity_value e = Some (p_value d)
        /\ p_confidence d = or_default (confidence_score e) 50%Z)
  /\ find_target_bboxes (p_value d) ocr false false = Ok (PyBox (p_bbox_pixels d))
  /\ CoordinateConverter.pixel_bbox_to_normalized (p_bbox_pixels d)
       page_width page_height = Ok (p_normalized_coords d)
  /\ CoordinateConverter.normalized_rect_invariant (p_normalized_coords d).

End Pipeline.

(** ** annotation_db_manager.py: the annotation store *)

Module AnnotationDBManager.

Section Store.

(** The Thrift struct, its JSON text, and the writer and reader of the
    Thrift JSON protocol; the reader raises on a payload it cannot
    decode. *)
Variables AnnotationData json : Type.
Variable annotation_data_to_json : AnnotationData -> json.
Variable json_to_annotation_data : json -> result AnnotationData.

(** A row of the annotations table and a row of the history table. *)
Record row : Type := {
  ID : Z;
  OBJECT_ID : Z;
  FIELD_ID : Z;
  SET_ID : Z;
  LOOKUP_INFO1 : string;
  LOOKUP_INFO2 : string;
  UPDATED : Z;
  ANNOT_DATA : json
}.

Record history_row : Type := {
  HISTID : Z;
  H_SET_ID : Z;
  H_OBJECT_ID : Z;
  H_FIELD_ID : Z;
  H_LOOKUP_INFO1 : string;
  H_LOOKUP_INFO2 : string;
  USERID : Z;
  USERNAME : string;
  H_ANNOT_DATA : json;
  MODIFIED : Z
}.

(** The two tables with their identity counters. *)
Record database : Type := {
  annotations : list row;
  annotation_history : list history_row;
  identity : Z;
  history_identity : Z
}.

Inductive level : Type := DEBUG | INFO | WARNING | ERROR.

(** The messages the manager logs. *)
Inductive message : Type :=
| ConnectionEstablished
| ConnectionClosed
| DatabaseErrorMessage (e : exn)
| InsertedRecord (id : Z)
| NoUpdatesSpecified
| UpdatedRecord (id : Z)
| RecordNotFound (id : Z)
| RetrievedRecord (id : Z)
| QueryReturned (n : nat)
| HistoryFailedAfterInsert (id : Z) (e : exn)
| HistoryFailedAfterUpdate (id : Z) (e : exn)
| CannotSaveToHistory (id : Z)
| SavedToHistory (id hist_id : Z)
| UpsertFoundExisting (id : Z)
| UpsertInsertingNew.

(** What a call runs in: the database, the UTC clock, the list telling
    for each coming connection whether the datastore fails on it (the
    empty list: no failure), and the log written so far. *)
Record world : Type := {
  db : database;
  clock : Z;
  faults : list bool;
  log : list (level * message)
}.

(** The configuration read by [__init__]. *)
Record manager : Type := {
  table_name : string;
  history_table_name : option string
}.

(** Truth value of [self.history_table_name]. *)
Definition history_configured (self : manager) : bool :=
  match history_table_name self with
  | Some name => PyStr.truthy name
  | None => false
  end.

(** *** Calls that read and write the world and may raise *)

Definition M (A : Type) : Type := world -> result A * world.

Definition ret {A : Type} (a : A) : M A := fun w => (Ok a, w).

Definition bind {A B : Type} (c : M A) (k : A -> M B) : M B :=
  fun w =>
    match c w with
    | (Ok a, w') => k a w'
    | (Raise e, w') => (Raise e, w')
    end.

Definition raise {A : Type} (e : exn) : M A := fun w => (Raise e, w).

(** [try: c except Exception as e: handler e]. *)
Definition try_except {A : Type} (c : M A) (handler : exn -> M A) : M A :=
  fun w =>
    match c w with
    | (Ok a, w') => (Ok a, w')
    | (Raise e, w') => handler e w'
    end.

Definition lift {A : Type} (r : result A) : M A := fun w => (r, w).

Definition set_db (d : database) (w : world) : world :=
  {| db := d; clock := clock w; faults := faults w; log := log w |}.

Definition set_faults (fs : list bool) (w : world) : world :=
  {| db := db w; clock := clock w; faults := fs; log := log w |}.

Definition add_log (l : level) (m : message) (w : world) : world :=
  {| db := db w; clock := clock w; faults := faults w;
     log := (log w ++ [(l, m)])%list |}.

Definition logger (l : level) (m : message) : M unit :=
  fun w => (Ok tt, add_log l m w).

(** [datetime.now(timezone.utc)]: the clock is read and moves on. *)
Definition now : M Z :=
  fun w => (Ok (clock w),
            {| db := db w; clock := (clock w + 1)%Z; faults := faults w;
               log := log w |}).

Definition get_db : M database := fun w => (Ok (db w), w).

Definition put_db (d : database) : M unit := fun w => (Ok tt, set_db d w).

(** [with self.get_connection() as conn: body]. A failing datastore
    raises before the body has any effect. Otherwise the body runs; its
    writes are committed when it ends normally and rolled back when it
    raises, in which case the error is logged and raised again. *)
Definition get_connection {A : Type} (body : M A) : M A :=
  fun w =>
    match faults w with
    | true :: fs =>
        (Raise DatabaseError,
         add_log ERROR (DatabaseErrorMessage DatabaseError) (set_faults fs w))
    | _ =>
        let w0 := add_log DEBUG ConnectionEstablished
                    (set_faults (tl (faults w)) w) in
        match body w0 with
        | (Ok a, w1) => (Ok a, add_log DEBUG ConnectionClosed w1)
        | (Raise e, w1) =>
            (Raise e,
             add_log DEBUG ConnectionClosed
               (add_log ERROR (DatabaseErrorMessage e) (set_db (db w0) w1)))
        end
    end.

(** *** The SQL statements *)

(** [INSERT INTO table (...) VALUES (...)] then [SELECT @@IDENTITY]. *)
Definition sql_insert (object_id field_id set_id : Z)
    (lookup_info1 lookup_info2 : string) (updated : Z) (json_data : json)
  : M Z :=
  fun w =>
    let d := db w in
    let r := {| ID := identity d; OBJECT_ID := object_id; FIELD_ID := field_id;
                SET_ID := set_id; LOOKUP_INFO1 := lookup_info1;
                LOOKUP_INFO2 := lookup_info2; UPDATED := updated;
                ANNOT_DATA := json_data |} in
    (Ok (identity d),
     set_db {| annotations := (annotations d ++ [r])%list;
               annotation_history := annotation_history d;
               identity := (identity d + 1)%Z;
               history_identity := history_identity d |} w).

(** One entry of the [SET] clause with its parameter. *)
Inductive assignment : Type :=
| SetAnnotData (json_data : json)
| SetObjectId (v : Z)
| SetFieldId (v : Z)
| SetSetId (v : Z)
| SetLookupInfo1 (v : string)
| SetLookupInfo2 (v : string)
| SetUpdated (v : Z).

Definition assign (r : row) (a : assignment) : row :=
  match a with
  | SetAnnotData j =>
      {| ID := ID r; OBJECT_ID := OBJECT_ID r; FIELD_ID := FIELD_ID r;
         SET_ID := SET_ID r; LOOKUP_INFO1 := LOOKUP_INFO1 r;
         LOOKUP_INFO2 := LOOKUP_INFO2 r; UPDATED := UPDATED r; ANNOT_DATA := j |}
  | SetObjectId v =>
      {| ID := ID r; OBJECT_ID := v; FIELD_ID := FIELD_ID r;
         SET_ID := SET_ID r; LOOKUP_INFO1 := LOOKUP_INFO1 r;
         LOOKUP_INFO2 := LOOKUP_INFO2 r; UPDATED := UPDATED r;
         ANNOT_DATA := ANNOT_DATA r |}
  | SetFieldId v =>
      {| ID := ID r; OBJECT_ID := OBJECT_ID r; FIELD_ID := v;
         SET_ID := SET_ID r; LOOKUP_INFO1 := LOOKUP_INFO1 r;
         LOOKUP_INFO2 := LOOKUP_INFO2 r; UPDATED := UPDATED r;
         ANNOT_DATA := ANNOT_DATA r |}
  | SetSetId v =>
      {| ID := ID r; OBJECT_ID := OBJECT_ID r; FIELD_ID := FIELD_ID r;
         SET_ID := v; LOOKUP_INFO1 := LOOKUP_INFO1 r;
         LOOKUP_INFO2 := LOOKUP_INFO2 r; UPDATED := UPDATED r;
         ANNOT_DATA := ANNOT_DATA r |}
  | SetLookupInfo1 v =>
      {| ID := ID r; OBJECT_ID := OBJECT_ID r; FIELD_ID := FIELD_ID r;
         SET_ID := SET_ID r; LOOKUP_INFO1 := v;
         LOOKUP_INFO2 := LOOKUP_INFO2 r; UPDATED := UPDATED r;
         ANNOT_DATA := ANNOT_DATA r |}
  | SetLookupInfo2 v =>
      {| ID := ID r; OBJECT_ID := OBJECT_ID r; FIELD_ID := FIELD_ID r;
         SET_ID := SET_ID r; LOOKUP_INFO1 := LOOKUP_INFO1 r;
         LOOKUP_INFO2 := v; UPDATED := UPDATED r;
         ANNOT_DATA := ANNOT_DATA r |}
  | SetUpdated v =>
      {| ID := ID r; OBJECT_ID := OBJECT_ID r; FIELD_ID := FIELD_ID r;
         SET_ID := SET_ID r; LOOKUP_INFO1 := LOOKUP_INFO1 r;
         LOOKUP_INFO2 := LOOKUP_INFO2 r; UPDATED := v;
         ANNOT_DATA := ANNOT_DATA r |}
  end.

(** [UPDATE table SET updates WHERE ID = record_id]; the result is
    [cursor.rowcount]. *)
Definition sql_update (updates : list assignment) (record_id : Z) : M Z :=
  fun w =>
    let d := db w in
    let hit r := (ID r =? record_id)%Z in
    (Ok (Z.of_nat (List.length (filter hit (annotations d)))),
     set_db {| annotations :=
                 List.map (fun r => if hit r then fold_left assign updates r
                                    else r) (annotations d);
               annotation_history := annotation_history d;
               identity := identity d;
               history_identity := history_identity d |} w).

(** [SELECT ... WHERE ID = record_id] then [fetchone()]. *)
Definition sql_select_by_id (record_id : Z) : M (option row) :=
  fun w => (Ok (find (fun r => (ID r =? record_id)%Z) (annotations (db w))), w).

(** One [column = ?] condition of a [WHERE] clause, if given. *)
Definition cond_Z (filter : option Z) (v : Z) : bool :=
  match filter with Some x => (v =? x)%Z | None => true end.

Definition cond_str (filter : option string) (v : string) : bool :=
  match filter with Some x => String.eqb v x | None => true end.

Definition where_clauses (object_id field_id set_id : option Z)
    (lookup_info1 lookup_info2 : option string) (r : row) : bool :=
  cond_Z object_id (OBJECT_ID r) && cond_Z field_id (FIELD_ID r)
  && cond_Z set_id (SET_ID r) && cond_str lookup_info1 (LOOKUP_INFO1 r)
  && cond_str lookup_info2 (LOOKUP_INFO2 r).

(** [ORDER BY ID DESC]. *)
Fixpoint insert_desc (r : row) (l : list row) : list row :=
  match l with
  | [] => [r]
  | x :: l' => if (ID x <=? ID r)%Z then r :: l else x :: insert_desc r l'
  end.

Definition order_by_id_desc (l : list row) : list row :=
  fold_right insert_desc [] l.

(** [OFFSET 0 ROWS FETCH NEXT limit ROWS ONLY], when a limit is given. *)
Definition fetch_next (limit : option nat) (l : list row) : list row :=
  match limit with Some n => firstn n l | None => l end.

Definition sql_select (object_id field_id set_id : option Z)
    (lookup_info1 lookup_info2 : option string) (limit : option nat)
  : M (list row) :=
  fun w =>
    (Ok (fetch_next limit
           (order_by_id_desc
              (filter (where_clauses object_id field_id set_id
                         lookup_info1 lookup_info2)
                 (annotations (db w))))), w).

(** [INSERT INTO history_table (...) VALUES (...)] then
    [SELECT @@IDENTITY]. *)
Definition sql_insert_history (set_id object_id field_id : Z)
    (lookup_info1 lookup_info2 : string) (userid : Z) (username : string)
    (annot_data : json) (modified : Z) : M Z :=
  fun w =>
    let d := db w in
    let h := {| HISTID := history_identity d; H_SET_ID := set_id;
                H_OBJECT_ID := object_id; H_FIELD_ID := field_id;
                H_LOOKUP_INFO1 := lookup_info1; H_LOOKUP_INFO2 := lookup_info2;
                USERID := userid; USERNAME := username;
                H_ANNOT_DATA := annot_data; MODIFIED := modified |} in
    (Ok (history_identity d),
     set_db {| annotations := annotations d;
               annotation_history := (annotation_history d ++ [h])%list;
               identity := identity d;
               history_identity := (history_identity d + 1)%Z |} w).

(** *** The methods *)

(** The dict built from a fetched row: its columns, and the decoded
    [Annot_data]. *)
Record record : Type := {
  columns : row;
  Annot_data : AnnotationData
}.

Definition decode_row (r : row) : M record :=
  bind (lift (json_to_annotation_data (ANNOT_DATA r)))
    (fun decoded => ret {| columns := r; Annot_data := decoded |}).

Definition read (self : manager) (record_id : Z) : M (option record) :=
  get_connection
    (bind (sql_select_by_id record_id) (fun fetched =>
       match fetched with
       | None =>
           bind (logger WARNING (RecordNotFound record_id)) (fun _ => ret None)
       | Some r =>
           bind (decode_row r) (fun result =>
           bind (logger INFO (RetrievedRecord record_id)) (fun _ =>
           ret (Some result)))
       end)).

Fixpoint decode_rows (rows : list row) : M (list record) :=
  match rows with
  | [] => ret []
  | r :: rest =>
      bind (decode_row r) (fun x =>
      bind (decode_rows rest) (fun xs => ret (x :: xs)))
  end.

Definition query (self : manager) (object_id field_id set_id : option Z)
    (lookup_info1 lookup_info2 : option string) (limit : option nat)
  : M (list record) :=
  get_connection
    (bind (sql_select object_id field_id set_id lookup_info1 lookup_info2 limit)
       (fun rows =>
     bind (decode_rows rows) (fun results =>
     bind (logger INFO (QueryReturned (List.length results))) (fun _ =>
     ret results)))).

Definition save_to_history (self : manager) (record_id : Z) : M (option Z) :=
  if negb (history_configured self) then raise ValueError
  else
    bind (read self record_id) (fun source_record =>
    match source_record with
    | None =>
        bind (logger WARNING (CannotSaveToHistory record_id)) (fun _ => ret None)
    | Some src =>
        bind now (fun utc_now =>
        get_connection
          (bind (sql_insert_history
                   (SET_ID (columns src)) (OBJECT_ID (columns src))
                   (FIELD_ID (columns src)) (LOOKUP_INFO1 (columns src))
                   (LOOKUP_INFO2 (columns src)) 0 "System"
                   (ANNOT_DATA (columns src)) utc_now) (fun hist_id =>
           bind (logger INFO (SavedToHistory record_id hist_id)) (fun _ =>
           ret (Some hist_id)))))
    end).

Definition insert (self : manager) (annot_data : AnnotationData)
    (object_id field_id set_id : Z) (lookup_info1 lookup_info2 : string)
  : M Z :=
  let json_data := annotation_data_to_json annot_data in
  bind now (fun utc_now =>
  bind (get_connection
          (bind (sql_insert object_id field_id set_id lookup_info1
                   lookup_info2 utc_now json_data) (fun inserted_id =>
           bind (logger INFO (InsertedRecord inserted_id)) (fun _ =>
           ret inserted_id)))) (fun inserted_id =>
  bind (if history_configured self
        then try_except
               (bind (save_to_history self inserted_id) (fun _ => ret tt))
               (fun e => logger WARNING (HistoryFailedAfterInsert inserted_id e))
        else ret tt) (fun _ =>
  ret inserted_id))).

(** The lists [updates] and [params] before the timestamp is added. *)
Definition option_list {A : Type} (o : option A) : list A :=
  match o with Some a => [a] | None => [] end.

Definition update_clauses (annot_data : option AnnotationData)
    (object_id field_id set_id : option Z)
    (lookup_info1 lookup_info2 : option string) : list assignment :=
  (option_list (option_map (fun a => SetAnnotData (annotation_data_to_json a))
                  annot_data)
   ++ option_list (option_map SetObjectId object_id)
   ++ option_list (option_map SetFieldId field_id)
   ++ option_list (option_map SetSetId set_id)
   ++ option_list (option_map SetLookupInfo1 lookup_info1)
   ++ option_list (option_map SetLookupInfo2 lookup_info2))%list.

Definition update (self : manager) (record_id : Z)
    (annot_data : option AnnotationData)
    (object_id field_id set_id : option Z)
    (lookup_info1 lookup_info2 : option string) : M bool :=
  let updates := update_clauses annot_data object_id field_id set_id
                   lookup_info1 lookup_info2 in
  match updates with
  | [] => bind (logger WARNING NoUpdatesSpecified) (fun _ => ret false)
  | _ =>
      bind now (fun utc_now =>
      let updates := (updates ++ [SetUpdated utc_now])%list in
      bind (get_connection (sql_update updates record_id)) (fun rows_affected =>
      if (0 <? rows_affected)%Z then
        bind (logger INFO (UpdatedRecord record_id)) (fun _ =>
        bind (if history_configured self
              then try_except
                     (bind (save_to_history self record_id) (fun _ => ret tt))
                     (fun e => logger WARNING (HistoryFailedAfterUpdate record_id e))
              else ret tt) (fun _ =>
        ret true))
      else
        bind (logger WARNING (RecordNotFound record_id)) (fun _ => ret false)))
  end.

Definition upsert (self : manager) (annot_data : AnnotationData)
    (object_id field_id set_id : Z) (lookup_info1 lookup_info2 : string)
  : M (Z * bool) :=
  bind (query self (Some object_id) (Some field_id) (Some set_id)
          (Some lookup_info1) (Some lookup_info2) (Some 1%nat))
    (fun existing_records =>
  match existing_records with
  | first :: _ =>
      let record_id := ID (columns first) in
      bind (logger INFO (UpsertFoundExisting record_id)) (fun _ =>
      bind (update self record_id (Some annot_data) None None None None None)
        (fun _ =>
      ret (record_id, false)))
  | [] =>
      bind (logger INFO UpsertInsertingNew) (fun _ =>
      bind (insert self annot_data object_id field_id set_id lookup_info1
              lookup_info2) (fun record_id =>
      ret (record_id, true)))
  end).

(** *** Vocabulary of the statements *)

(** The row that an update of [r] at time [t] leaves: each given field
    replaced, the others as they were, the timestamp refreshed. *)
Definition updated_row (annot_data : option AnnotationData)
    (object_id field_id set_id : option Z)
    (lookup_info1 lookup_info2 : option string) (t : Z) (r : row) : row :=
  {| ID := ID r;
     OBJECT_ID := match object_id with Some v => v | None => OBJECT_ID r end;
     FIELD_ID := match field_id with Some v => v | None => FIELD_ID r end;
     SET_ID := match set_id with Some v => v | None => SET_ID r end;
     LOOKUP_INFO1 :=
       match lookup_info1 with Some v => v | None => LOOKUP_INFO1 r end;
     LOOKUP_INFO2 :=
       match lookup_info2 with Some v => v | None => LOOKUP_INFO2 r end;
     UPDATED := t;
     ANNOT_DATA :=
       match annot_data with
       | Some a => annotation_data_to_json a
       | None => ANNOT_DATA r
       end |}.

(** The table after the rows with identifier [record_id] were updated. *)
Definition updated_table (annot_data : option AnnotationData)
    (object_id field_id set_id : option Z)
    (lookup_info1 lookup_info2 : option string) (t : Z) (record_id : Z)
    (rows : list row) : list row :=
  List.map (fun r => if (ID r =? record_id)%Z
                     then updated_row annot_data object_id field_id set_id
                            lookup_info1 lookup_info2 t r
                     else r) rows.

(** Some field is given to [update]. *)
Definition some_field (annot_data : option AnnotationData)
    (object_id field_id set_id : option Z)
    (lookup_info1 lookup_info2 : option string) : Prop :=
  annot_data <> None \/ object_id <> None \/ field_id <> None
  \/ set_id <> None \/ lookup_info1 <> None \/ lookup_info2 <> None.

(** A record with identifier [record_id] exists. *)
Definition exists_record (record_id : Z) (d : database) : Prop :=
  exists r, In r (annotations d) /\ ID r = record_id.

(** The history row copied from [r] at time [t] under identifier [h]. *)
Definition history_copy (h : Z) (r : row) (t : Z) : history_row :=
  {| HISTID := h; H_SET_ID := SET_ID r; H_OBJECT_ID := OBJECT_ID r;
     H_FIELD_ID := FIELD_ID r; H_LOOKUP_INFO1 := LOOKUP_INFO1 r;
     H_LOOKUP_INFO2 := LOOKUP_INFO2 r; USERID := 0; USERNAME := "System";
     H_ANNOT_DATA := ANNOT_DATA r; MODIFIED := t |}.

(** A warning that tells of a history copy that was not made for
    [record_id]. *)
Definition history_warning (record_id : Z) (m : message) : Prop :=
  (exists e, m = HistoryFailedAfterInsert record_id e)
  \/ (exists e, m = HistoryFailedAfterUpdate record_id e)
  \/ m = CannotSaveToHistory record_id.

(** How the history table stands after a write to [record_id] made in
    [w] and ended in [w']: one copy was appended, or the table is as it
    was and either no history table is configured or a warning was
    logged. *)
Definition history_appended_or_logged (self : manager) (record_id : Z)
    (w w' : world) : Prop :=
  (exists h, annotation_history (db w')
             = (annotation_history (db w) ++ [h])%list)
  \/ (annotation_history (db w') = annotation_history (db w)
      /\ (history_configured self = false
          \/ exists m, history_warning record_id m
                       /\ In (WARNING, m) (log w'))).

(** The row written by [insert] in [w]. *)
Definition inserted_row (annot_data : AnnotationData)
    (object_id field_id set_id : Z) (lookup_info1 lookup_info2 : string)
    (w : world) : row :=
  {| ID := identity (db w); OBJECT_ID := object_id; FIELD_ID := field_id;
     SET_ID := set_id; LOOKUP_INFO1 := lookup_info1;
     LOOKUP_INFO2 := lookup_info2; UPDATED := clock w;
     ANNOT_DATA := annotation_data_to_json annot_data |}.

(** The current records stored under a lookup key. *)
Definition current_records (object_id field_id set_id : Z)
    (lookup_info1 lookup_info2 : string) (d : database) : list row :=
  filter (where_clauses (Some object_id) (Some field_id) (Some set_id)
            (Some lookup_info1) (Some lookup_info2)) (annotations d).

(** Every stored identifier is older than the identity counter. *)
Definition identity_fresh (d : database) : Prop :=
  Forall (fun r => (ID r < identity d)%Z) (annotations d).

(** The payload of a stored row can be decoded. *)
Definition decodable (r : row) : Prop :=
  exists a, json_to_annotation_data (ANNOT_DATA r) = Ok a.

(** *** The delete methods *)

(** [DELETE FROM table WHERE cond]; the result is [cursor.rowcount]. *)
Definition sql_delete (cond : row -> bool) : M Z :=
  fun w =>
    let d := db w in
    (Ok (Z.of_nat (List.length (filter cond (annotations d)))),
     set_db {| annotations := filter (fun r => negb (cond r)) (annotations d);
               annotation_history := annotation_history d;
               identity := identity d;
               history_identity := history_identity d |} w).

Section Delete.

(** The three lines that the delete methods log: the record deleted,
    the record not found for deletion, the number of records deleted. *)
Variables DeletedRecord RecordNotFoundForDeletion : Z -> message.
Variable DeletedRecords : Z -> message.

Definition delete (self : manager) (record_id : Z) : M bool :=
  get_connection
    (bind (sql_delete (fun r => (ID r =? record_id)%Z)) (fun rows_affected =>
     if (0 <? rows_affected)%Z
     then bind (logger INFO (DeletedRecord record_id)) (fun _ => ret true)
     else bind (logger WARNING (RecordNotFoundForDeletion record_id))
            (fun _ => ret false))).

Definition delete_by_filters (self : manager)
    (object_id field_id set_id : option Z) : M Z :=
  match object_id, field_id, set_id with
  | None, None, None => raise ValueError
  | _, _, _ =>
      get_connection
        (bind (sql_delete (where_clauses object_id field_id set_id None None))
           (fun rows_affected =>
         bind (logger INFO (DeletedRecords rows_affected)) (fun _ =>
         ret rows_affected)))
  end.

(** *** Sequences of calls *)

(** A call of one of the methods, with its arguments. *)
Inductive call : Type :=
| Insert (annot_data : AnnotationData) (object_id field_id set_id : Z)
    (lookup_info1 lookup_info2 : string)
| Update (record_id : Z) (annot_data : option AnnotationData)
    (object_id field_id set_id : option Z)
    (lookup_info1 lookup_info2 : option string)
| Read (record_id : Z)
| Query (object_id field_id set_id : option Z)
    (lookup_info1 lookup_info2 : option string) (limit : option nat)
| Delete (record_id : Z)
| DeleteByFilters (object_id field_id set_id : option Z)
| SaveToHistory (record_id : Z)
| Upsert (annot_data : AnnotationData) (object_id field_id set_id : Z)
    (lookup_info1 lookup_info2 : string).

(** The world that a call leaves, whether it returned or raised. *)
Definition after {A : Type} (c : M A) (w : world) : world := snd (c w).

Definition perform (self : manager) (c : call) (w : world) : world :=
  match c with
  | Insert a o f s l1 l2 => after (insert self a o f s l1 l2) w
  | Update id a o f s l1 l2 => after (update self id a o f s l1 l2) w
  | Read id => after (read self id) w
  | Query o f s l1 l2 limit => after (query self o f s l1 l2 limit) w
  | Delete id => after (delete self id) w
  | DeleteByFilters o f s => after (delete_by_filters self o f s) w
  | SaveToHistory id => after (save_to_history self id) w
  | Upsert a o f s l1 l2 => after (upsert self a o f s l1 l2) w
  end.

(** The calls made one after the other, the caller going on after a
    call that raised. *)
Definition perform_all (self : manager) (calls : list call) (w : world)
  : world :=
  fold_left (fun w c => perform self c w) calls w.

(** The history table of [d'] is that of [d] with rows added at its end. *)
Definition history_extends (d d' : database) : Prop :=
  exists added,
    annotation_history d' = (annotation_history d ++ added)%list.

(** No two records share an identifier, and the identity counter is
    ahead of them all. *)
Definition unique_ids (d : database) : Prop :=
  NoDup (List.map ID (annotations d)) /\ identity_fresh d.

End Delete.

End Store.

Arguments ID {json}.
Arguments OBJECT_ID {json}.
Arguments FIELD_ID {json}.
Arguments SET_ID {json}.
Arguments LOOKUP_INFO1 {json}.
Arguments LOOKUP_INFO2 {json}.
Arguments UPDATED {json}.
Arguments ANNOT_DATA {json}.
Arguments HISTID {json}.
Arguments H_ANNOT_DATA {json}.
Arguments MODIFIED {json}.
Arguments annotations {json}.
Arguments annotation_history {json}.
Arguments identity {json}.
Arguments history_identity {json}.
Arguments db {json}.
Arguments clock {json}.
Arguments faults {json}.
Arguments log {json}.
Arguments columns {AnnotationData json}.
Arguments Annot_data {AnnotationData json}.
Arguments ret {json A}.
Arguments bind {json A B}.
Arguments raise {json A}.
Arguments try_except {json A}.
Arguments lift {json A}.
Arguments set_db {json}.
Arguments set_faults {json}.
Arguments add_log {json}.
Arguments logger {json}.
Arguments now {json}.
Arguments get_connection {json A}.
Arguments sql_update {json}.
Arguments sql_select_by_id {json}.
Arguments assign {json}.
Arguments SetUpdated {json}.
Arguments where_clauses {json}.
Arguments order_by_id_desc {json}.
Arguments fetch_next {json}.
Arguments some_field {AnnotationData}.
Arguments exists_record {json}.
Arguments history_copy {json}.
Arguments history_appended_or_logged {json}.
Arguments current_records {json}.
Arguments identity_fresh {json}.
Arguments sql_delete {json}.
Arguments history_extends {json}.
Arguments unique_ids {json}.
Arguments after {json A}.
Arguments Insert {AnnotationData}.
Arguments Update {AnnotationData}.
Arguments Read {AnnotationData}.
Arguments Query {AnnotationData}.
Arguments Delete {AnnotationData}.
Arguments DeleteByFilters {AnnotationData}.
Arguments SaveToHistory {AnnotationData}.
Arguments Upsert {AnnotationData}.
Arguments sql_select {json}.
Arguments sql_insert_history {json}.
Arguments sql_insert {json}.
Arguments get_db {json}.
Arguments put_db {json}.

End AnnotationDBManager.

(** A store whose payloads are plain strings, for concrete runs: a
    manager with a history table, an empty datastore, and a datastore
    that holds one record. *)
Module StoreExample.

Import AnnotationDBManager.

Definition payload_write (a : string) : string := a.

Definition payload_read (j : string) : result string := Ok j.

Definition manager_with_history : manager :=
  {| table_name := "ANNOTS_5"; history_table_name := Some "ANNOTS_HISTORY" |}.

Definition empty_database : database string :=
  {| annotations := []; annotation_history := [];
     identity := 1; history_identity := 1 |}.

Definition stored_row : row string :=
  {| ID := 1; OBJECT_ID := 16709; FIELD_ID := 382; SET_ID := -1;
     LOOKUP_INFO1 := "invoice.pdf:abc123"; LOOKUP_INFO2 := "0";
     UPDATED := 5; ANNOT_DATA := "page-0-v1" |}.

Definition one_record_database : database string :=
  {| annotations := [stored_row]; annotation_history := [];
     identity := 2; history_identity := 1 |}.

(** A world at time [10] with the given datastore and failure list. *)
Definition world_of (d : database string) (fs : list bool) : world string :=
  {| db := d; clock := 10; faults := fs; log := [] |}.

(** For the runs of the delete methods, their three log lines are
    rendered by lines of the same level and argument. *)
Definition deleted_record (id : Z) : message := UpdatedRecord id.

Definition record_not_found_for_deletion (id : Z) : message :=
  RecordNotFound id.

Definition deleted_records (n : Z) : message := QueryReturned (Z.to_nat n).

End StoreExample.

(** ** config_encryption.py and the configuration loader *)

(** What [yaml.safe_load] returns: scalars, lists, and mappings, here
    with string keys and without floats and shared nodes. A mapping is
    a Python [dict], kept as the list of its entries in their order. *)
Module Yaml.

#[local] Unset Elimination Schemes.

Inductive yaml : Type :=
| YNull
| YBool (b : bool)
| YInt (n : Z)
| YStr (s : string)
| YList (items : list yaml)
| YDict (entries : list (string * yaml)).

#[local] Set Elimination Schemes.

Definition dict : Type := list (string * yaml).

(** Truth value of a loaded value. *)
Definition truthy (v : yaml) : bool :=
  match v with
  | YNull => false
  | YBool b => b
  | YInt n => negb (n =? 0)%Z
  | YStr s => PyStr.truthy s
  | YList items => match items with [] => false | _ => true end
  | YDict entries => match entries with [] => false | _ => true end
  end.

(** [d.get(key)]. *)
Fixpoint get (key : string) (d : dict) : option yaml :=
  match d with
  | [] => None
  | (k, v) :: rest => if String.eqb k key then Some v else get key rest
  end.

(** [key in d]. *)
Definition contains (key : string) (d : dict) : bool :=
  match get key d with Some _ => true | None => false end.

(** [d[key] = v]: the entry is replaced where it stands, or added at
    the end. *)
Fixpoint set (key : string) (v : yaml) (d : dict) : dict :=
  match d with
  | [] => [(key, v)]
  | (k, v') :: rest =>
      if String.eqb k key then (key, v) :: rest
      else (k, v') :: set key v rest
  end.

(** [del d[key]], for a key that is present. *)
Definition del (key : string) (d : dict) : dict :=
  filter (fun entry => negb (String.eqb (fst entry) key)) d.

End Yaml.

Module ConfigEncryption.

Import Yaml.

Section Fernet.

(** The token that [fernet.encrypt] returns for the encoded plaintext,
    as a string. *)
Variable fernet_encrypt : string -> string.

(** [encrypt_password]; [None] when it raises: [ValueError] for a
    plaintext that is not truthy, and the error of calling [encode] on
    a value that is not a string. *)
Definition encrypt_password (plaintext : yaml) : option string :=
  if negb (truthy plaintext) then None
  else
    match plaintext with
    | YStr s => Some (fernet_encrypt s)
    | _ => None
    end.

End Fernet.

End ConfigEncryption.

(** [AnnotationDBManager._load_config], from the value that
    [yaml.safe_load] returned. *)
Module ConfigLoader.

Import Yaml ConfigEncryption.

(** What happened to the configuration file. *)
Inductive file_effect : Type :=
| Untouched
| Saved (config : yaml)
| SaveFailed.

Section Loader.

Variable fernet_encrypt : string -> string.

(** The body of the [try] block; [None] when anything is raised in it.
    [write_ok] tells whether writing the file back succeeds. The
    mapping [db_config] is the one held by [config], so what is changed
    in it is changed in [config]. *)
Definition load_body (config : yaml) (write_ok : bool)
  : option (yaml * file_effect) :=
  match config with
  | YDict top =>
      match (match get "database" top with
             | Some v => v
             | None => YDict []
             end) with
      | YDict db_config =>
          match (match get "auth_method" db_config with
                 | Some v => v
                 | None => YStr "sql"
                 end) with
          | YStr auth_method =>
              if String.eqb (PyStr.lower auth_method) "sql" then
                let has_plaintext := contains "password" db_config in
                let has_encrypted := contains "default_hash_id" db_config in
                if has_plaintext && negb has_encrypted then
                  match get "password" db_config with
                  | Some plaintext_pwd =>
                      match encrypt_password fernet_encrypt plaintext_pwd with
                      | Some encrypted_pwd =>
                          let db_config :=
                            del "password"
                              (set "default_hash_id" (YStr encrypted_pwd)
                                 db_config) in
                          let config :=
                            YDict (set "database" (YDict db_config) top) in
                          Some (config,
                                if write_ok then Saved config else SaveFailed)
                      | None => None
                      end
                  | None => None
                  end
                else if has_plaintext && has_encrypted then
                  Some (YDict (set "database"
                                 (YDict (del "password" db_config)) top),
                        Untouched)
                else if negb has_plaintext && negb has_encrypted then None
                else Some (config, Untouched)
              else Some (config, Untouched)
          | _ => None
          end
      | _ => None
      end
  | _ => None
  end.

(** [except Exception as e: raise ValueError(...)]. *)
Definition _load_config (config : yaml) (write_ok : bool)
  : result (yaml * file_effect) :=
  match load_body config write_ok with
  | Some loaded => Ok loaded
  | None => Raise ValueError
  end.

End Loader.

(** The [database] section of a configuration, when it is a mapping. *)
Definition database_section (config : yaml) : option dict :=
  match config with
  | YDict top =>
      match get "database" top with
      | Some (YDict db_config) => Some db_config
      | _ => None
      end
  | _ => None
  end.

(** The section asks for SQL Server authentication, which is the
    default. *)
Definition sql_auth (db_config : dict) : bool :=
  match get "auth_method" db_config with
  | Some (YStr auth_method) => String.eqb (PyStr.lower auth_method) "sql"
  | Some _ => false
  | None => true
  end.

(** A configuration file with a plaintext password. *)
Definition plaintext_config : yaml :=
  YDict [("database",
          YDict [("server", YStr "localhost"); ("username", YStr "sa");
                 ("password", YStr "secret")]);
         ("logging", YDict [("enabled", YBool true)])].

(** A stand-in for the cipher in concrete runs. *)
Definition example_encrypt (s : string) : string := "gAAAAAB" ++ s.

End ConfigLoader.

(** * Properties *)

Local Open Scope list_scope.

(** ** Annotation builder *)

Section BuilderFacts.

Import AnnotationBuilder.

Variable creator_name : string.
Variables annotRedaction massActionCreated : Z.
Variable json : Type.
Variable thrift_write : AnnotationData -> json.

Let create := create_pii_annotation creator_name annotRedaction massActionCreated.
Let build := build_from_pii_detections creator_name annotRedaction
               massActionCreated json thrift_write.

Lemma create_returns timestamp ty value l t w h confidence id order mask :
  exists a,
    create timestamp ty value (Some [l; t; w; h]) confidence id order mask = Ok a
    /\ sReasonCategory a = normalize_entity_type ty
    /\ sFoundValue a =
         (if mask then ("***" ++ normalize_entity_type ty ++ "***")%string else value)
    /\ iPageLevelID a = id.
Proof.
  unfold create, create_pii_annotation; simpl.
  eexists; split; [reflexivity|]. simpl. repeat split.
Qed.

Lemma create_inv timestamp ty value coords confidence id order mask a :
  create timestamp ty value coords confidence id order mask = Ok a ->
  sReasonCategory a = normalize_entity_type ty
  /\ sFoundValue a =
       (if mask then ("***" ++ normalize_entity_type ty ++ "***")%string else value).
Proof.
  unfold create, create_pii_annotation.
  destruct (unpack4 coords) as [[[[l t] w] h]|e]; [|discriminate].
  intros H; inversion H; subst; simpl. split; reflexivity.
Qed.

(** The loop appends one annotation per detection, in order, and entry
    [k] is built with [page_level_id = i + k]. *)
Lemma build_loop_spec utcnow :
  forall dets i acc,
    Forall has_coords dets ->
    exists anns,
      build_loop creator_name annotRedaction massActionCreated utcnow i dets acc
        = Ok (acc ++ anns)
      /\ List.length anns = List.length dets
      /\ forall k pii, nth_error dets k = Some pii ->
           exists a, nth_error anns k = Some a
             /\ create (utcnow (i + Z.of_nat k)%Z)
                  (get (d_type pii) "UNKNOWN") (get (d_value pii) "")
                  (d_normalized_coords pii) (get (d_confidence pii) 0%Z)
                  (i + Z.of_nat k)%Z (Some (i + Z.of_nat k)%Z) true = Ok a.
Proof.
  induction dets as [|pii rest IH]; intros i acc Hall.
  - exists []. simpl. rewrite app_nil_r. repeat split.
    intros [|k] pii H; discriminate.
  - inversion Hall as [|? ? Hpii Hrest]; subst.
    destruct Hpii as (l & t & w & h & Hc).
    destruct (create_returns (utcnow i) (get (d_type pii) "UNKNOWN")
                (get (d_value pii) "") l t w h (get (d_confidence pii) 0%Z)
                i (Some i) true) as (a & Ha & _).
    destruct (IH (i + 1)%Z (acc ++ [a]) Hrest) as (anns & Hloop & Hlen & Hnth).
    exists (a :: anns). simpl. rewrite Hc. fold create. rewrite Ha.
    rewrite Hloop, <- app_assoc. simpl. split; [reflexivity|].
    split; [congruence|].
    intros [|k] pii' Hk; simpl in Hk.
    + inversion Hk; subst pii'. exists a. split; [reflexivity|].
      rewrite Hc, Z.add_0_r. exact Ha.
    + destruct (Hnth k pii' Hk) as (a' & Hn & Hcr).
      exists a'. split; [exact Hn|].
      replace (i + Z.of_nat (S k))%Z with (i + 1 + Z.of_nat k)%Z by lia.
      exact Hcr.
Qed.

Lemma build_loop_inv utcnow :
  forall dets i acc anns,
    build_loop creator_name annotRedaction massActionCreated utcnow i dets acc
      = Ok anns ->
    exists new, anns = acc ++ new
      /\ Forall (fun a => sFoundValue a = ("***" ++ sReasonCategory a ++ "***")%string) new.
Proof.
  induction dets as [|pii rest IH]; intros i acc anns H; simpl in H.
  - inversion H; subst. exists []. rewrite app_nil_r. split; auto.
  - fold create in H.
    destruct (create (utcnow i) (get (d_type pii) "UNKNOWN")
                (get (d_value pii) "") (d_normalized_coords pii)
                (get (d_confidence pii) 0%Z) i (Some i) true) as [a|e] eqn:Ha;
      [|discriminate].
    destruct (IH _ _ _ H) as (new & -> & Hnew).
    exists (a :: new). rewrite <- app_assoc. split; [reflexivity|].
    constructor; [|exact Hnew].
    destruct (create_inv _ _ _ _ _ _ _ _ _ Ha) as [Hr Hf].
    rewrite Hf, Hr. reflexivity.
Qed.

(** C1. Whatever the detections of a page are (each carrying its four
    normalized coordinates), [build_from_pii_detections] returns, and
    every detection of type "SSN" becomes an annotation, at the same
    position, whose found value is "***SSN***" and holds no digit. The
    literal value is stored by [create_pii_annotation] exactly when
    the masking flag is passed as false. *)
Theorem build_masks_ssn :
  forall utcnow pii_detections page_number,
    Forall has_coords pii_detections ->
    (exists annot_data,
       build utcnow pii_detections page_number
         = Ok (annot_data, thrift_write annot_data)
       /\ forall i pii, nth_error pii_detections i = Some pii ->
            d_type pii = Some "SSN" ->
            exists a, nth_error (aAnnots annot_data) i = Some a
              /\ sFoundValue a = "***SSN***"
              /\ forall c, In c (PyStr.chars (sFoundValue a)) ->
                   PyStr.is_digit c = false)
    /\ (forall timestamp value l t w h confidence id order mask,
          exists a,
            create timestamp "SSN" value (Some [l; t; w; h]) confidence id
              order mask = Ok a
            /\ sFoundValue a = if mask then "***SSN***" else value).
Proof.
  intros utcnow dets page Hall. split.
  - destruct (build_loop_spec utcnow dets 1%Z [] Hall) as (anns & Hloop & _ & Hnth).
    exists (create_annotation_data anns page).
    unfold build, build_from_pii_detections. rewrite Hloop. simpl.
    split; [reflexivity|].
    intros i pii Hi Hty.
    destruct (Hnth i pii Hi) as (a & Ha & Hcr).
    exists a. split; [exact Ha|].
    destruct (create_inv _ _ _ _ _ _ _ _ _ Hcr) as [_ Hf].
    rewrite Hty in Hf. simpl in Hf.
    assert (Hv : sFoundValue a = "***SSN***") by (rewrite Hf; reflexivity).
    split; [exact Hv|].
    rewrite Hv. simpl. intros c Hc.
    repeat (destruct Hc as [<-|Hc]; [reflexivity|]). destruct Hc.
  - intros. destruct (create_returns timestamp "SSN" value l t w h confidence
                        id order mask) as (a & Ha & _ & Hf & _).
    exists a. split; [exact Ha|]. rewrite Hf. destruct mask; reflexivity.
Qed.

(** C10. With masking enabled the placeholder is built from the
    normalized entity type: the found value of the annotation is
    "***" + reason_category + "***", for one annotation and for every
    annotation of a built page; "Person" gives "***NAME***" and the
    unknown type "my type" gives "***MY_TYPE***". *)
Theorem masked_value_uses_normalized_type :
  (forall timestamp ty value l t w h confidence id order,
     exists a,
       create timestamp ty value (Some [l; t; w; h]) confidence id order true
         = Ok a
       /\ sReasonCategory a = normalize_entity_type ty
       /\ sFoundValue a = ("***" ++ sReasonCategory a ++ "***")%string)
  /\ (forall utcnow pii_detections page_number annot_data json_str,
        build utcnow pii_detections page_number = Ok (annot_data, json_str) ->
        Forall (fun a => sFoundValue a = ("***" ++ sReasonCategory a ++ "***")%string)
          (aAnnots annot_data))
  /\ ("***" ++ normalize_entity_type "Person" ++ "***")%string = "***NAME***"
  /\ ("***" ++ normalize_entity_type "my type" ++ "***")%string = "***MY_TYPE***".
Proof.
  split; [|split; [|split; reflexivity]].
  - intros. destruct (create_returns timestamp ty value l t w h confidence
                        id order true) as (a & Ha & Hr & Hf & _).
    exists a. split; [exact Ha|]. split; [exact Hr|]. rewrite Hf, Hr. reflexivity.
  - intros utcnow dets page annot_data json_str H.
    unfold build, build_from_pii_detections in H.
    destruct (build_loop _ _ _ _ _ _ _) as [anns|e] eqn:Hloop; [|discriminate].
    inversion H; subst. simpl.
    destruct (build_loop_inv _ _ _ _ _ Hloop) as (new & -> & Hnew). exact Hnew.
Qed.

End BuilderFacts.

Lemma build_masks_ssn_witness :
  Forall AnnotationBuilder.has_coords [ssn_detection]
  /\ exists annot_data a,
       AnnotationBuilder.build_from_pii_detections "pii_pipeline" 2 3 string
         (fun _ => "payload") (fun _ => "2026-01-01T00:00:00")
         [ssn_detection] 0
       = Ok (annot_data, "payload")
       /\ nth_error (AnnotationBuilder.aAnnots annot_data) 0 = Some a
       /\ AnnotationBuilder.sFoundValue a = "***SSN***".
Proof.
  assert (H : Forall AnnotationBuilder.has_coords [ssn_detection]).
  { constructor; [|constructor]. eexists _, _, _, _. reflexivity. }
  split; [exact H|].
  destruct (build_masks_ssn "pii_pipeline" 2 3 string (fun _ => "payload")
              (fun _ => "2026-01-01T00:00:00") [ssn_detection] 0 H)
    as [(annot_data & Hbuild & Hssn) _].
  destruct (Hssn 0%nat ssn_detection eq_refl eq_refl) as (a & Ha & Hv & _).
  exists annot_data, a. repeat split; assumption.
Defined.

Lemma masked_value_uses_normalized_type_witness :
  exists annot_data json_str,
    AnnotationBuilder.build_from_pii_detections "pii_pipeline" 2 3 string
      (fun _ => "payload") (fun _ => "2026-01-01T00:00:00") [ssn_detection] 0
    = Ok (annot_data, json_str)
    /\ Forall (fun a => AnnotationBuilder.sFoundValue a
                        = ("***" ++ AnnotationBuilder.sReasonCategory a ++ "***")%string)
         (AnnotationBuilder.aAnnots annot_data).
Proof.
  eexists _, _. split; [reflexivity|].
  exact (proj1 (proj2 (masked_value_uses_normalized_type "pii_pipeline" 2 3
                         string (fun _ => "payload")))
           (fun _ => "2026-01-01T00:00:00") [ssn_detection] 0%Z _ _ eq_refl).
Defined.

(** ** Encoded form *)

Section CodecFacts.

Import AnnotationBuilder ThriftModel.

Variable tag : annotation_field -> Z.
Hypothesis tag_distinct : distinct_tags tag.

Lemma index_injective f g : index f = index g -> f = g.
Proof. destruct f, g; intros H; try reflexivity; discriminate H. Qed.

Lemma tag_eqb f g : (tag f =? tag g)%Z = field_eqb f g.
Proof.
  unfold field_eqb.
  destruct (Z.eqb_spec (tag f) (tag g)) as [E|N];
    destruct (Nat.eqb_spec (index f) (index g)) as [E'|N']; try reflexivity.
  - exfalso. apply N'. rewrite (tag_distinct f g E). reflexivity.
  - exfalso. apply N. rewrite (index_injective f g E'). reflexivity.
Qed.

Lemma read_write_annotation a :
  read_annotation tag (write_annotation tag a) = Some a.
Proof.
  unfold read_annotation, write_annotation, get_i32, get_dbl, get_str.
  cbn [field]. rewrite !tag_eqb. cbn. destruct a; reflexivity.
Qed.

Lemma read_write_annotations l :
  read_annotations tag (List.map (write_annotation tag) l) = Some l.
Proof.
  induction l as [|a l IH]; [reflexivity|].
  cbn [List.map read_annotations]. rewrite read_write_annotation, IH.
  reflexivity.
Qed.

Lemma read_write_annotation_data x :
  thrift_read tag (thrift_write tag x) = Ok x.
Proof.
  unfold thrift_read, thrift_write, read_annotation_data, get_lst, get_i32,
    get_i64.
  cbn [field TAG_aAnnots TAG_iPageLevelIDCount TAG_lPageNumber Z.eqb Pos.eqb].
  rewrite read_write_annotations. destruct x; reflexivity.
Qed.

(** C3. In a schema whose field numbers are pairwise distinct,
    decoding the encoded form of an annotation page returns that page:
    the same page number, the same count, the same annotations in the
    same order with the same value in every field. *)
Theorem decode_encode_roundtrip :
  forall x : AnnotationData,
    deserialize_from_json wire (thrift_read tag)
      (serialize_to_json wire (thrift_write tag) x) = Ok x
    /\ exists y,
         deserialize_from_json wire (thrift_read tag)
           (serialize_to_json wire (thrift_write tag) x) = Ok y
         /\ lPageNumber y = lPageNumber x
         /\ iPageLevelIDCount y = iPageLevelIDCount x
         /\ List.length (aAnnots y) = List.length (aAnnots x)
         /\ aAnnots y = aAnnots x.
Proof.
  intros x.
  assert (H : deserialize_from_json wire (thrift_read tag)
                (serialize_to_json wire (thrift_write tag) x) = Ok x).
  { unfold deserialize_from_json, serialize_to_json.
    apply read_write_annotation_data. }
  split; [exact H|]. exists x. split; [exact H|]. repeat split.
Qed.

End CodecFacts.

Lemma example_tag_distinct : ThriftModel.distinct_tags ThriftModel.example_tag.
Proof. intros f g H. destruct f, g; try reflexivity; discriminate H. Qed.

Lemma decode_encode_roundtrip_witness :
  ThriftModel.distinct_tags ThriftModel.example_tag
  /\ AnnotationBuilder.deserialize_from_json ThriftModel.wire
       (ThriftModel.thrift_read ThriftModel.example_tag)
       (AnnotationBuilder.serialize_to_json ThriftModel.wire
          (ThriftModel.thrift_write ThriftModel.example_tag)
          ThriftModel.example_page)
     = Ok ThriftModel.example_page.
Proof.
  split; [exact example_tag_distinct|].
  exact (proj1 (decode_encode_roundtrip ThriftModel.example_tag
                  example_tag_distinct ThriftModel.example_page)).
Defined.

(** ** Coordinate normalizer *)

Section ConverterFacts.

Import CoordinateConverter.








Lemma validate_of_invariant l t w h :
  normalized_rect_invariant (l, t, w, h) ->
  validate_normalized_coords l t w h = true.
Proof.
  intros [([Hl0 Hl1] & [Ht0 Ht1] & [Hw0 Hw1] & [Hh0 Hh1]) (Hlw & Hth & Hw & Hh)].
  unfold validate_normalized_coords, Qlt_bool.
  rewrite <- Qle_bool_iff in Hl0, Hl1, Ht0, Ht1, Hw0, Hw1, Hh0, Hh1, Hlw, Hth.
  rewrite Hl0, Hl1, Ht0, Ht1, Hw0, Hw1, Hh0, Hh1, Hlw, Hth. simpl.
  destruct (Qle_bool w 0) eqn:E1.
  { apply Qle_bool_iff in E1. exfalso. apply (Qlt_not_le _ _ Hw E1). }
  destruct (Qle_bool h 0) eqn:E2.
  { apply Qle_bool_iff in E2. exfalso. apply (Qlt_not_le _ _ Hh E2). }
  reflexivity.
Qed.




End ConverterFacts.

(** ** Span aligner *)

Section StringFacts.

Import PyStr.

Lemma append_nil_r (s : string) : (s ++ "")%string = s.
Proof. induction s as [|c s IH]; simpl; [|rewrite IH]; reflexivity. Qed.

Lemma append_assoc (a b c : string) :
  ((a ++ b) ++ c)%string = (a ++ (b ++ c))%string.
Proof. induction a as [|x a IH]; simpl; [|rewrite IH]; reflexivity. Qed.


Lemma rstrip_keep p c s :
  p c = false -> rstrip p (String c s) = String c (rstrip p s).
Proof. intros Hc. simpl. destruct (rstrip p s); [rewrite Hc|]; reflexivity. Qed.











End StringFacts.

Section NormalizeFacts.

Import PyStr Pipeline.



Lemma punctuation_plain c :
  mem c punctuation = true -> isspace c = false /\ to_lower c = c.
Proof.
  destruct c as [[] [] [] [] [] [] [] []]; simpl; intros H;
    try discriminate H; split; reflexivity.
Qed.

Lemma only_whitespace_lstrip s :
  all isspace s = true ->
  forall in_run, lstrip isspace (sub_ws_from in_run s) = "".
Proof.
  induction s as [|c s IH]; simpl; intros H in_run; [reflexivity|].
  apply andb_prop in H as [Hc Hs]. rewrite Hc.
  destruct in_run; simpl; apply IH; exact Hs.
Qed.

Lemma only_punctuation_fixed s :
  all (fun c => mem c punctuation) s = true ->
  (forall in_run, sub_ws_from in_run s = s)
  /\ lstrip isspace s = s /\ rstrip isspace s = s /\ lower s = s
  /\ lstrip (fun c => mem c punctuation) s = "".
Proof.
  induction s as [|c s IH]; intros H; [repeat split|].
  cbn [all] in H. apply andb_prop in H as [Hc Hs].
  destruct (punctuation_plain c Hc) as [Hsp Hlow].
  destruct (IH Hs) as (H1 & H2 & H3 & H4 & H5).
  repeat split.
  - intros in_run. cbn [sub_ws_from]. rewrite Hsp, H1. reflexivity.
  - cbn [lstrip]. rewrite Hsp. reflexivity.
  - rewrite rstrip_keep by exact Hsp. rewrite H3. reflexivity.
  - unfold lower in *. cbn [map]. rewrite Hlow, H4. reflexivity.
  - cbn [lstrip]. rewrite Hc. exact H5.
Qed.

Lemma normalize_only_punctuation match_case s :
  all (fun c => mem c punctuation) s = true -> normalize match_case s = "".
Proof.
  intros H. destruct (only_punctuation_fixed s H) as (H1 & H2 & H3 & H4 & H5).
  unfold normalize, re_sub_ws, strip, strip_chars, strip_by.
  rewrite H1, H2, H3.
  destruct match_case; cbn [negb]; [|rewrite H4]; rewrite H5; reflexivity.
Qed.

Lemma normalize_only_whitespace match_case s :
  all isspace s = true -> normalize match_case s = "".
Proof.
  intros H. unfold normalize, re_sub_ws, strip, strip_by.
  rewrite (only_whitespace_lstrip s H false).
  destruct match_case; reflexivity.
Qed.

End NormalizeFacts.

Section ScanFacts.

Import PyStr Pipeline.

Variable match_case : bool.
Variable nt : string.

Let norm := normalize match_case.

Lemma grow_cons cur win tok rest :
  grow match_case nt cur win (tok :: rest)
  = if String.eqb (norm (cur ++ text tok)%string) nt then Some (win ++ [tok])
    else if (String.length nt + 10 <? String.length (norm (cur ++ text tok)%string))%nat
         then None
         else grow match_case nt (cur ++ text tok)%string (win ++ [tok]) rest.
Proof. reflexivity. Qed.

(** The inner loop finds nothing when no window from this start index
    matches. *)
Lemma grow_none :
  forall rest cur win,
    (forall k, (k < List.length rest)%nat ->
       norm (cur ++ window_text (firstn (S k) rest))%string <> nt) ->
    grow match_case nt cur win rest = None.
Proof.
  induction rest as [|tok rest IH]; intros cur win H; [reflexivity|].
  rewrite grow_cons.
  assert (H0 : norm (cur ++ text tok)%string <> nt).
  { specialize (H 0%nat). cbn [firstn window_text] in H.
    rewrite append_nil_r in H. apply H. simpl. lia. }
  apply String.eqb_neq in H0. rewrite H0.
  destruct (_ <? _)%nat; [reflexivity|].
  apply IH. intros k Hk. rewrite append_assoc.
  apply (H (S k)). simpl. lia.
Qed.

(** The inner loop returns the window ending at the first match that it
    reaches without overrunning. *)
Lemma grow_some :
  forall rest cur win k,
    (k < List.length rest)%nat ->
    (forall k', (k' < k)%nat ->
       norm (cur ++ window_text (firstn (S k') rest))%string <> nt
       /\ (String.length (norm (cur ++ window_text (firstn (S k') rest))%string)
           <= String.length nt + 10)%nat) ->
    norm (cur ++ window_text (firstn (S k) rest))%string = nt ->
    grow match_case nt cur win rest = Some (win ++ firstn (S k) rest).
Proof.
  induction rest as [|tok rest IH]; intros cur win k Hk Hbefore Hat;
    [simpl in Hk; lia|].
  rewrite grow_cons. destruct k as [|k].
  - cbn [firstn window_text] in Hat. rewrite append_nil_r in Hat.
    rewrite Hat, String.eqb_refl. reflexivity.
  - destruct (Hbefore 0%nat) as [Hne Hlen]; [lia|].
    cbn [firstn window_text] in Hne, Hlen. rewrite append_nil_r in Hne, Hlen.
    apply String.eqb_neq in Hne. rewrite Hne.
    destruct (Nat.ltb_spec (String.length nt + 10)
                (String.length (norm (cur ++ text tok)%string))) as [Hgt|_];
      [lia|].
    rewrite (IH (cur ++ text tok)%string (win ++ [tok]) k).
    + rewrite <- app_assoc. reflexivity.
    + simpl in Hk. lia.
    + intros k' Hk'. rewrite append_assoc. apply (Hbefore (S k')). lia.
    + rewrite append_assoc. exact Hat.
Qed.

Lemma slice_cons tok (tokens : list token) i j :
  slice (tok :: tokens) (S i) (S j) = slice tokens i j.
Proof. reflexivity. Qed.

Lemma slice_skipn (tokens : list token) i k :
  slice tokens i (i + k) = firstn (S k) (skipn i tokens).
Proof. unfold slice. replace (S (i + k) - i)%nat with (S k) by lia. reflexivity. Qed.

(** A start index from which no window matches contributes nothing. *)
Lemma scan_skip return_all tok rest found :
  (forall k, (k < List.length (tok :: rest))%nat ->
     norm (window_text (slice (tok :: rest) 0 k)) <> nt) ->
  scan match_case return_all nt (tok :: rest) found
  = scan match_case return_all nt rest found.
Proof.
  intros H. cbn [scan].
  destruct (negb (truthy (normalize match_case (text tok)))); [reflexivity|].
  rewrite grow_none; [reflexivity|].
  intros k Hk. apply (H k Hk).
Qed.

Lemma scan_drop return_all :
  forall i tokens found,
    (forall i' j', (i' < i)%nat -> (i' <= j' < List.length tokens)%nat ->
       norm (window_text (slice tokens i' j')) <> nt) ->
    scan match_case return_all nt tokens found
    = scan match_case return_all nt (skipn i tokens) found.
Proof.
  induction i as [|i IH]; intros tokens found H; [reflexivity|].
  destruct tokens as [|tok rest]; [reflexivity|].
  rewrite scan_skip.
  - cbn [skipn]. apply IH. intros i' j' Hi Hj.
    rewrite <- (slice_cons tok). apply H; simpl; lia.
  - intros k Hk. apply H; lia.
Qed.

Lemma scan_nothing return_all tokens found :
  (forall i j, (i <= j < List.length tokens)%nat ->
     norm (window_text (slice tokens i j)) <> nt) ->
  scan match_case return_all nt tokens found
  = Ok (if return_all then PyList found else PyNone).
Proof.
  intros H. rewrite (scan_drop return_all (List.length tokens)).
  - rewrite skipn_all. reflexivity.
  - intros i' j' _ Hj. apply H. exact Hj.
Qed.

End ScanFacts.

Section MergeFacts.

Import Pipeline.

Lemma fold_min_fin :
  forall l a, exists m,
    fold_left ext_min l (Fin a) = Fin m
    /\ (m <= a)%Z /\ (forall x, In x l -> (m <= x)%Z) /\ (m = a \/ In m l).
Proof.
  induction l as [|x l IH]; intros a.
  - exists a. simpl. repeat split; [lia | intros x [] | left; reflexivity].
  - destruct (IH (Z.min a x)) as (m & Hf & Hle & Hall & Hin).
    exists m. cbn [fold_left ext_min]. split; [exact Hf|].
    split; [lia|]. split.
    + intros y [<-|Hy]; [lia | apply Hall; exact Hy].
    + destruct Hin as [->|Hin]; [|right; right; exact Hin].
      destruct (Z.min_spec a x) as [[_ ->]|[_ ->]];
        [left; reflexivity | right; left; reflexivity].
Qed.

Lemma fold_max_fin :
  forall l a, exists m,
    fold_left ext_max l (Fin a) = Fin m
    /\ (a <= m)%Z /\ (forall x, In x l -> (x <= m)%Z) /\ (m = a \/ In m l).
Proof.
  induction l as [|x l IH]; intros a.
  - exists a. simpl. repeat split; [lia | intros x [] | left; reflexivity].
  - destruct (IH (Z.max a x)) as (m & Hf & Hle & Hall & Hin).
    exists m. cbn [fold_left ext_max]. split; [exact Hf|].
    split; [lia|]. split.
    + intros y [<-|Hy]; [lia | apply Hall; exact Hy].
    + destruct Hin as [->|Hin]; [|right; right; exact Hin].
      destruct (Z.max_spec a x) as [[_ ->]|[_ ->]];
        [right; left; reflexivity | left; reflexivity].
Qed.

Lemma fold_min_inf l :
  l <> [] ->
  exists m, fold_left ext_min l PosInf = Fin m
    /\ (forall x, In x l -> (m <= x)%Z) /\ In m l.
Proof.
  destruct l as [|x l]; [congruence|]. intros _.
  destruct (fold_min_fin l x) as (m & Hf & Hle & Hall & Hin).
  exists m. split; [exact Hf|]. split.
  - intros y [<-|Hy]; [exact Hle | apply Hall; exact Hy].
  - destruct Hin as [->|Hin]; [left; reflexivity | right; exact Hin].
Qed.

Lemma fold_max_inf l :
  l <> [] ->
  exists m, fold_left ext_max l NegInf = Fin m
    /\ (forall x, In x l -> (x <= m)%Z) /\ In m l.
Proof.
  destruct l as [|x l]; [congruence|]. intros _.
  destruct (fold_max_fin l x) as (m & Hf & Hle & Hall & Hin).
  exists m. split; [exact Hf|]. split.
  - intros y [<-|Hy]; [exact Hle | apply Hall; exact Hy].
  - destruct Hin as [->|Hin]; [left; reflexivity | right; exact Hin].
Qed.

(** The loop folds the four sides separately over the boxes that have
    four coordinates. *)
Lemma merge_loop_folds :
  forall window min_x min_y max_x max_y,
    merge_loop (min_x, min_y, max_x, max_y) window
    = (fold_left ext_min (List.map bx1 (boxes4 window)) min_x,
       fold_left ext_min (List.map by1 (boxes4 window)) min_y,
       fold_left ext_max (List.map bx2 (boxes4 window)) max_x,
       fold_left ext_max (List.map by2 (boxes4 window)) max_y).
Proof.
  induction window as [|tok rest IH]; intros; [reflexivity|].
  cbn [merge_loop boxes4].
  destruct (box tok) as [|x1 [|y1 [|x2 [|y2 [|z l]]]]]; apply IH.
Qed.

Lemma in_boxes4 window q :
  In q (boxes4 window) <->
  exists tok, In tok window
    /\ box tok = [bx1 q; by1 q; bx2 q; by2 q].
Proof.
  induction window as [|tok rest IH]; cbn [boxes4].
  - split; [intros [] | intros (tok & [] & _)].
  - assert (Hrest : In q (boxes4 rest) ->
                    exists t, In t (tok :: rest)
                      /\ box t = [bx1 q; by1 q; bx2 q; by2 q]).
    { intros H. apply IH in H as (t & Ht & Hb). exists t.
      split; [right; exact Ht | exact Hb]. }
    split.
    + intros H.
      destruct (box tok) as [|x1 [|y1 [|x2 [|y2 [|z l]]]]] eqn:Hbox;
        try (apply Hrest; exact H).
      destruct H as [<-|H]; [|apply Hrest; exact H].
      exists tok. split; [left; reflexivity | exact Hbox].
    + intros (t & [<-|Ht] & Hb).
      * rewrite Hb. left. destruct q as [[[a b] c] d]. reflexivity.
      * assert (H : In q (boxes4 rest))
          by (apply IH; exists t; split; assumption).
        destruct (box tok) as [|x1 [|y1 [|x2 [|y2 [|z l]]]]];
          try exact H.
        right. exact H.
Qed.

(** When some token of the window has a four-coordinate box, the
    merged box is returned and it is the union bounding rectangle. *)
Lemma merged_box_union window :
  has_box window ->
  exists b, merged_box window = Ok b /\ union_rect b window.
Proof.
  intros (tok0 & x1 & y1 & x2 & y2 & Hin0 & Hbox0).
  assert (Hne : boxes4 window <> []).
  { assert (H : In (x1, y1, x2, y2) (boxes4 window)).
    { apply in_boxes4. exists tok0. split; [exact Hin0 | exact Hbox0]. }
    intros E. rewrite E in H. destruct H. }
  assert (Hmap : forall f : Z * Z * Z * Z -> Z,
             List.map f (boxes4 window) <> []).
  { intros f E. apply map_eq_nil in E. contradiction. }
  destruct (fold_min_inf _ (Hmap bx1)) as (a1 & F1 & L1 & I1).
  destruct (fold_min_inf _ (Hmap by1)) as (b1 & F2 & L2 & I2).
  destruct (fold_max_inf _ (Hmap bx2)) as (a2 & F3 & L3 & I3).
  destruct (fold_max_inf _ (Hmap by2)) as (b2 & F4 & L4 & I4).
  exists [a1; b1; a2; b2]. split.
  - unfold merged_box. rewrite merge_loop_folds, F1, F2, F3, F4. reflexivity.
  - exists a1, b1, a2, b2. split; [reflexivity|]. split.
    + intros tok u1 v1 u2 v2 Hin Hbox.
      assert (H : In (u1, v1, u2, v2) (boxes4 window)).
      { apply in_boxes4. exists tok. split; [exact Hin | exact Hbox]. }
      repeat split.
      * apply L1. apply (in_map bx1) in H. exact H.
      * apply L2. apply (in_map by1) in H. exact H.
      * apply L3. apply (in_map bx2) in H. exact H.
      * apply L4. apply (in_map by2) in H. exact H.
    + repeat split.
      * apply in_map_iff in I1 as (q & E & Hq).
        apply in_boxes4 in Hq as (tok & Hin & Hbox).
        exists tok, (bx1 q), (by1 q), (bx2 q), (by2 q). auto.
      * apply in_map_iff in I2 as (q & E & Hq).
        apply in_boxes4 in Hq as (tok & Hin & Hbox).
        exists tok, (bx1 q), (by1 q), (bx2 q), (by2 q). auto.
      * apply in_map_iff in I3 as (q & E & Hq).
        apply in_boxes4 in Hq as (tok & Hin & Hbox).
        exists tok, (bx1 q), (by1 q), (bx2 q), (by2 q). auto.
      * apply in_map_iff in I4 as (q & E & Hq).
        apply in_boxes4 in Hq as (tok & Hin & Hbox).
        exists tok, (bx1 q), (by1 q), (bx2 q), (by2 q). auto.
Qed.

End MergeFacts.

Section FindFacts.

Import PyStr Pipeline.

Lemma find_unfold target ocr match_case return_all :
  find_target_bboxes target ocr match_case return_all
  = if is_empty (tokens_of ocr) then Ok (empty_result return_all)
    else if negb (truthy (normalize match_case target))
         then Ok (empty_result return_all)
         else scan match_case return_all (normalize match_case target)
                (tokens_of ocr) [].
Proof.
  unfold find_target_bboxes, tokens_of.
  destruct (text_word ocr) as [|lt tl]; [reflexivity|].
  destruct (text_word_boxes ocr) as [|lb bl]; reflexivity.
Qed.

Lemma truthy_nonempty s : s <> "" -> truthy s = true.
Proof. destruct s; [congruence | reflexivity]. Qed.

Lemma skipn_nth (tokens : list token) :
  forall i, (i < List.length tokens)%nat ->
    exists tok, nth_error tokens i = Some tok
      /\ skipn i tokens = tok :: skipn (S i) tokens.
Proof.
  induction tokens as [|t rest IH]; intros i Hi; [simpl in Hi; lia|].
  destruct i as [|i].
  - exists t. split; reflexivity.
  - destruct (IH i) as (tok & Hn & Hs); [simpl in Hi; lia|].
    exists tok. split; [exact Hn | exact Hs].
Qed.

Lemma find_empty_target target ocr match_case return_all :
  normalize match_case target = "" ->
  find_target_bboxes target ocr match_case return_all
  = Ok (empty_result return_all).
Proof.
  intros H. rewrite find_unfold, H.
  destruct (is_empty (tokens_of ocr)); reflexivity.
Qed.

Lemma find_no_match target ocr match_case return_all :
  (forall i j, ~ matches match_case target (tokens_of ocr) i j) ->
  find_target_bboxes target ocr match_case return_all
  = Ok (empty_result return_all).
Proof.
  intros H. rewrite find_unfold.
  destruct (is_empty (tokens_of ocr)); [reflexivity|].
  destruct (negb (truthy (normalize match_case target))); [reflexivity|].
  rewrite scan_nothing.
  - destruct return_all; reflexivity.
  - intros i j Hij E. apply (H i j). split; assumption.
Qed.

Lemma find_first_match target ocr match_case i j :
  first_match match_case target (tokens_of ocr) i j ->
  has_box (slice (tokens_of ocr) i j) ->
  exists b,
    find_target_bboxes target ocr match_case false = Ok (PyBox b)
    /\ union_rect b (slice (tokens_of ocr) i j).
Proof.
  intros Hfm Hbox. rewrite find_unfold.
  remember (tokens_of ocr) as tokens eqn:Et. clear Et.
  destruct Hfm as ([[Hij Hj] Hm] & Hnt & Hfirst & Hbefore & Hshorter).
  set (nt := normalize match_case target) in *.
  destruct (merged_box_union _ Hbox) as (b & Hb & Hu).
  exists b. split; [|exact Hu].
  assert (Hne : is_empty tokens = false)
    by (destruct tokens; [simpl in Hj; lia | reflexivity]).
  rewrite Hne, (truthy_nonempty nt Hnt). cbn [negb].
  rewrite (scan_drop match_case nt false i).
  2:{ intros i' j' Hi' Hj' E. apply (Hbefore i' j' Hi').
      split; assumption. }
  assert (Hg : grow match_case nt "" [] (skipn i tokens)
               = Some (slice tokens i j)).
  { rewrite (grow_some match_case nt (skipn i tokens) "" [] (j - i)).
    - unfold slice. replace (S j - i)%nat with (S (j - i)) by lia. reflexivity.
    - rewrite length_skipn. lia.
    - intros k' Hk'. cbn [append]. rewrite <- slice_skipn.
      destruct (Hshorter (i + k')%nat) as [Hno Hlen]; [lia|].
      split; [|exact Hlen].
      intros E. apply Hno. split; [lia | exact E].
    - cbn [append]. rewrite <- slice_skipn.
      replace (i + (j - i))%nat with j by lia. exact Hm. }
  destruct (skipn_nth tokens i) as (tok & Hn & Hs); [lia|].
  rewrite Hs in *. cbn [scan].
  rewrite (truthy_nonempty _ (Hfirst tok Hn)). cbn [negb].
  rewrite Hg, Hb. reflexivity.
Qed.

(** C7, as the code has it. When no window of the token stream
    matches the target, the aligner returns the empty result ([None],
    or [[]] with [return_all]) and raises nothing; so does it for a
    target whose normalized form is empty, which is the case of a
    target made only of the stripped punctuation or only of
    whitespace. *)
Theorem find_miss_is_empty :
  forall target ocr match_case return_all,
    ((forall i j, ~ matches match_case target (tokens_of ocr) i j) ->
     find_target_bboxes target ocr match_case return_all
     = Ok (empty_result return_all))
    /\ (normalize match_case target = "" ->
        find_target_bboxes target ocr match_case return_all
        = Ok (empty_result return_all))
    /\ (all (fun c => mem c punctuation) target = true
        \/ all isspace target = true ->
        normalize match_case target = "").
Proof.
  intros target ocr match_case return_all. split; [|split].
  - apply find_no_match.
  - apply find_empty_target.
  - intros [H|H];
      [apply normalize_only_punctuation | apply normalize_only_whitespace];
      exact H.
Qed.

(** A target made of punctuation and whitespace together can keep a
    space once normalized, and is then matched like any other text. *)
Lemma find_mixed_target_matches :
  all (fun c => mem c punctuation || isspace c) ". ." = true
  /\ find_target_bboxes ". ." (one_line [". ."] [[0; 0; 10; 10]%Z]) false false
     = Ok (PyBox [0; 0; 10; 10]%Z)
  /\ find_target_bboxes ". ." (one_line [". ."] [[0; 0; 10; 10]%Z]) false true
     = Ok (PyList [[0; 0; 10; 10]%Z]).
Proof. repeat split. Qed.

Lemma find_miss_is_empty_witness :
  (forall i j,
     ~ matches false "123-45-6789"
         (tokens_of (one_line ["SSN:"; "none"]
                       [[0; 0; 10; 10]%Z; [12; 0; 30; 10]%Z])) i j)
  /\ find_target_bboxes "123-45-6789"
       (one_line ["SSN:"; "none"] [[0; 0; 10; 10]%Z; [12; 0; 30; 10]%Z])
       false false
     = Ok PyNone.
Proof.
  assert (H : forall i j,
             ~ matches false "123-45-6789"
                 (tokens_of (one_line ["SSN:"; "none"]
                               [[0; 0; 10; 10]%Z; [12; 0; 30; 10]%Z])) i j).
  { intros i j [[Hi Hj] E]. simpl in Hj.
    destruct i as [|[|i]]; destruct j as [|[|j]]; try lia;
      vm_compute in E; discriminate E. }
  split; [exact H|].
  apply (proj1 (find_miss_is_empty "123-45-6789"
                  (one_line ["SSN:"; "none"]
                     [[0; 0; 10; 10]%Z; [12; 0; 30; 10]%Z]) false false)).
  exact H.
Defined.

(** C4, as the code has it. The window text is the token texts put
    together with nothing between them. When the window [i .. j] is
    the first match in scan order (and one of its tokens has a
    four-coordinate box), the call with [return_all = false] returns
    the union bounding rectangle of exactly the tokens [i .. j]. For
    the target "John Doe" this is the union of the first two boxes
    when the stream is ["John ", "Doe", "lives", "here"], the first
    token carrying the separating space. *)
Theorem find_returns_window_union :
  (forall target ocr match_case i j,
     first_match match_case target (tokens_of ocr) i j ->
     has_box (slice (tokens_of ocr) i j) ->
     exists b,
       find_target_bboxes target ocr match_case false = Ok (PyBox b)
       /\ union_rect b (slice (tokens_of ocr) i j))
  /\ (forall a1 b1 a2 b2 c1 d1 c2 d2 box_lives box_here,
        find_target_bboxes "John Doe"
          (one_line ["John "; "Doe"; "lives"; "here"]
             [[a1; b1; a2; b2]; [c1; d1; c2; d2]; box_lives; box_here])
          false false
        = Ok (PyBox [Z.min a1 c1; Z.min b1 d1; Z.max a2 c2; Z.max b2 d2])).
Proof.
  split.
  - intros. apply find_first_match; assumption.
  - intros. reflexivity.
Qed.

(** With the words as separate tokens and no space among them, the
    windows read "John", "JohnDoe", ... and none equals "john doe":
    nothing is returned. *)
Lemma find_john_doe_misses :
  find_target_bboxes "John Doe"
    (one_line ["John"; "Doe"; "lives"; "here"]
       [[0; 0; 40; 10]%Z; [50; 0; 80; 10]%Z; [90; 0; 130; 10]%Z;
        [140; 0; 180; 10]%Z])
    false false
  = Ok PyNone.
Proof. reflexivity. Qed.

Lemma find_returns_window_union_witness :
  let ocr := one_line ["lives"; "John"; " "; "Doe"]
               [[0; 0; 40; 10]%Z; [50; 0; 80; 10]%Z; [81; 0; 85; 10]%Z;
                [86; 2; 120; 12]%Z] in
  (first_match false "John Doe" (tokens_of ocr) 1 3
   /\ has_box (slice (tokens_of ocr) 1 3))
  /\ exists b,
       find_target_bboxes "John Doe" ocr false false = Ok (PyBox b)
       /\ union_rect b (slice (tokens_of ocr) 1 3).
Proof.
  intros ocr.
  assert (Hfm : first_match false "John Doe" (tokens_of ocr) 1 3).
  { split; [split; [simpl; lia | reflexivity]|].
    split; [discriminate|].
    split; [intros tok H; inversion H; subst; discriminate|].
    split.
    - intros i' j' Hi [[Hij Hj] E]. simpl in Hj.
      assert (i' = 0)%nat by lia. subst i'.
      destruct j' as [|[|[|[|j']]]]; try lia; vm_compute in E; discriminate E.
    - intros j' Hj. split.
      + intros [_ E].
        destruct j' as [|[|[|j']]]; try lia; vm_compute in E; discriminate E.
      + destruct j' as [|[|[|j']]]; try lia; vm_compute; lia. }
  assert (Hb : has_box (slice (tokens_of ocr) 1 3)).
  { eexists _, _, _, _, _. split; [left; reflexivity | reflexivity]. }
  split; [split; assumption|].
  apply (proj1 find_returns_window_union); assumption.
Defined.

End FindFacts.

(** ** Annotation store *)

Section StoreFacts.

Import AnnotationDBManager.

Variables AnnotationData json : Type.
Variable encode : AnnotationData -> json.
Variable decode : json -> result AnnotationData.

Abbreviation row := (row json).
Abbreviation world := (world json).
Abbreviation database := (database json).
Abbreviation record := (record AnnotationData json).
Abbreviation decodable := (decodable AnnotationData json decode).
Abbreviation decode_rows := (decode_rows AnnotationData json decode).
Abbreviation read := (read AnnotationData json decode).
Abbreviation query := (query AnnotationData json decode).
Abbreviation save_to_history := (save_to_history AnnotationData json decode).
Abbreviation insert := (insert AnnotationData json encode decode).
Abbreviation update := (update AnnotationData json encode decode).
Abbreviation upsert := (upsert AnnotationData json encode decode).
Abbreviation updated_row := (updated_row AnnotationData json encode).
Abbreviation updated_table := (updated_table AnnotationData json encode).
Abbreviation update_clauses := (update_clauses AnnotationData json encode).
Abbreviation inserted_row := (inserted_row AnnotationData json encode).

Lemma assign_clauses annot_data object_id field_id set_id l1 l2 t (r : row) :
  fold_left assign
    (update_clauses annot_data object_id field_id set_id l1 l2
     ++ [SetUpdated t]) r
  = updated_row annot_data object_id field_id set_id l1 l2 t r.
Proof.
  destruct annot_data, object_id, field_id, set_id, l1, l2; reflexivity.
Qed.

Lemma clauses_nonempty annot_data object_id field_id set_id l1 l2 :
  some_field annot_data object_id field_id set_id l1 l2 ->
  update_clauses annot_data object_id field_id set_id l1 l2 <> [].
Proof.
  unfold some_field.
  destruct annot_data, object_id, field_id, set_id, l1, l2; try discriminate.
  intros [H|[H|[H|[H|[H|H]]]]]; congruence.
Qed.

Lemma save_to_history_outcome self id (w : world) :
  history_configured self = true ->
  exists res w',
    save_to_history self id w = (res, w')
    /\ annotations (db w') = annotations (db w)
    /\ identity (db w') = identity (db w)
    /\ match res with
       | Ok (Some _) =>
           exists h, annotation_history (db w')
                     = annotation_history (db w) ++ [h]
       | Ok None =>
           annotation_history (db w')
           = annotation_history (db w)
           /\ In (WARNING, CannotSaveToHistory id) (log w')
       | Raise _ =>
           annotation_history (db w')
           = annotation_history (db w)
       end.
Proof.
  intros Hc. destruct w as [d c f l].
  unfold AnnotationDBManager.save_to_history. rewrite Hc. cbn.
  unfold AnnotationDBManager.read, get_connection, bind, sql_select_by_id,
    decode_row, lift. cbn.
  destruct f as [|[|] f]; cbn;
    try (eexists _, _; split; [reflexivity|]; cbn; repeat split; fail).
  - destruct (find _ _) as [r|]; cbn.
    + destruct (decode _) as [a|e]; cbn.
      * eexists _, _; split; [reflexivity|]; cbn; repeat split.
        eexists; reflexivity.
      * eexists _, _; split; [reflexivity|]; cbn; repeat split.
    + eexists _, _; split; [reflexivity|]; cbn; repeat split.
      rewrite !in_app_iff. cbn. auto.
  - destruct (find _ _) as [r|]; cbn.
    + destruct (decode _) as [a|e]; cbn.
      * destruct f as [|[|] f]; cbn;
          eexists _, _; (split; [reflexivity|]); cbn; repeat split;
          eexists; reflexivity.
      * eexists _, _; split; [reflexivity|]; cbn; repeat split.
    + eexists _, _; split; [reflexivity|]; cbn; repeat split.
      rewrite !in_app_iff. cbn. auto.
Qed.

Lemma history_step_outcome self id (mk : Z -> exn -> message) (w : world) :
  history_configured self = true ->
  (forall e, history_warning id (mk id e)) ->
  exists w',
    try_except
      (bind (save_to_history self id) (fun _ => ret tt))
      (fun e => logger WARNING (mk id e)) w = (Ok tt, w')
    /\ annotations (db w') = annotations (db w)
    /\ identity (db w') = identity (db w)
    /\ history_appended_or_logged self id w w'.
Proof.
  intros Hc Hmk.
  destruct (save_to_history_outcome self id w Hc)
    as (res & w1 & Hrun & Ha & Hi & Hh).
  unfold try_except, bind. rewrite Hrun.
  destruct res as [[hid|]|e].
  - exists w1. cbn. repeat split; try assumption. left. exact Hh.
  - exists w1. cbn. repeat split; try assumption.
    destruct Hh as [Hh Hlog]. right. split; [exact Hh|]. right.
    exists (CannotSaveToHistory id). split; [|exact Hlog].
    right. right. reflexivity.
  - eexists. split; [reflexivity|]. cbn. repeat split; try assumption.
    right. split; [exact Hh|]. right.
    exists (mk id e). split; [apply Hmk|].
    apply in_or_app. right. left. reflexivity.
Qed.

Lemma rowcount_positive id (d : database) :
  exists_record id d ->
  (0 <? Z.of_nat (List.length
                    (filter (fun r => (ID r =? id)%Z) (annotations d))))%Z
  = true.
Proof.
  intros (r & Hin & Hid).
  assert (H : In r (filter (fun r => (ID r =? id)%Z) (annotations d))).
  { apply filter_In. split; [exact Hin|]. apply Z.eqb_eq. exact Hid. }
  destruct (filter _ _); [destruct H|]. reflexivity.
Qed.

Lemma rowcount_zero id (d : database) :
  ~ exists_record id d ->
  (0 <? Z.of_nat (List.length
                    (filter (fun r => (ID r =? id)%Z) (annotations d))))%Z
  = false.
Proof.
  intros Hno.
  destruct (filter _ _) as [|r l] eqn:E; [reflexivity|].
  exfalso. apply Hno. exists r.
  assert (H : In r (filter (fun r => (ID r =? id)%Z) (annotations d)))
    by (rewrite E; left; reflexivity).
  apply filter_In in H as [Hin Hid]. split; [exact Hin|].
  apply Z.eqb_eq. exact Hid.
Qed.

Lemma map_id_when_absent (f : row -> row) id (l : list row) :
  (forall r, In r l -> ID r <> id) ->
  List.map (fun r => if (ID r =? id)%Z then f r else r) l = l.
Proof.
  induction l as [|x l IH]; intros H; [reflexivity|].
  cbn [List.map]. rewrite IH by (intros r Hr; apply H; right; exact Hr).
  destruct (Z.eqb_spec (ID x) id) as [E|_]; [|reflexivity].
  exfalso. apply (H x); [left; reflexivity | exact E].
Qed.

Lemma update_unfold self id annot_data object_id field_id set_id l1 l2 :
  update self id annot_data object_id field_id set_id l1 l2
  = match update_clauses annot_data object_id field_id set_id l1 l2 with
    | [] => bind (logger WARNING NoUpdatesSpecified)
              (fun _ => ret false)
    | _ =>
        bind (now) (fun utc_now =>
        bind
          (get_connection
             (sql_update
                (update_clauses annot_data object_id field_id set_id l1 l2
                 ++ [SetUpdated utc_now]) id)) (fun rows_affected =>
        if (0 <? rows_affected)%Z then
          bind (logger INFO (UpdatedRecord id)) (fun _ =>
          bind
            (if history_configured self
             then try_except
                    (bind (save_to_history self id) (fun _ => ret tt))
                    (fun e => logger WARNING (HistoryFailedAfterUpdate id e))
             else ret tt) (fun _ =>
          ret true))
        else
          bind (logger WARNING (RecordNotFound id))
            (fun _ => ret false)))
    end.
Proof. reflexivity. Qed.

Lemma bind_ok {A B : Type} (c : M json A) (k : A -> M json B) w a w1 :
  c w = (Ok a, w1) -> bind c k w = k a w1.
Proof. intros H. unfold bind. rewrite H. reflexivity. Qed.

(** A connection that the datastore serves runs the body in the world
    where the connection is open. *)
Lemma get_connection_served {A : Type} (body : M json A) (w : world) :
  hd false (faults w) = false ->
  get_connection body w
  = match body (add_log DEBUG ConnectionEstablished
                  (set_faults (tl (faults w)) w)) with
    | (Ok a, w1) => (Ok a, add_log DEBUG ConnectionClosed w1)
    | (Raise e, w1) =>
        (Raise e,
         add_log DEBUG ConnectionClosed
           (add_log ERROR (DatabaseErrorMessage e)
              (set_db (db w) w1)))
    end.
Proof.
  intros H. unfold get_connection.
  destruct (faults w) as [|[|] fs]; [reflexivity | discriminate | reflexivity].
Qed.

Lemma update_existing self id annot_data object_id field_id set_id l1 l2
    (w : world) :
  hd false (faults w) = false ->
  some_field annot_data object_id field_id set_id l1 l2 ->
  exists_record id (db w) ->
  exists w',
    update self id annot_data object_id field_id set_id l1 l2 w = (Ok true, w')
    /\ annotations (db w')
       = updated_table annot_data object_id field_id set_id l1 l2
           (clock w) id (annotations (db w))
    /\ identity (db w') = identity (db w)
    /\ history_appended_or_logged self id w w'.
Proof.
  intros Hf Hsome Hex. rewrite update_unfold.
  pose proof (clauses_nonempty _ _ _ _ _ _ Hsome) as Hne.
  destruct (update_clauses _ _ _ _ _ _) as [|c0 cs] eqn:Ecl; [congruence|].
  rewrite <- Ecl. clear Ecl Hne c0 cs.
  erewrite bind_ok by reflexivity.
  erewrite bind_ok
    by (rewrite get_connection_served by exact Hf; reflexivity).
  cbn [db annotations set_db add_log set_faults].
  rewrite (rowcount_positive id (db w) Hex).
  erewrite bind_ok by reflexivity.
  assert (Htable :
    List.map (fun r => if (ID r =? id)%Z
                       then fold_left (assign)
                              (update_clauses annot_data object_id field_id
                                 set_id l1 l2
                               ++ [SetUpdated (clock w)]) r
                       else r) (annotations (db w))
    = updated_table annot_data object_id field_id set_id l1 l2
        (clock w) id (annotations (db w))).
  { apply map_ext. intros r. rewrite assign_clauses. reflexivity. }
  destruct (history_configured self) eqn:Hc.
  - match goal with
    | |- exists w', bind (try_except _ _) _ ?W = _ /\ _ =>
        destruct (history_step_outcome self id HistoryFailedAfterUpdate W Hc)
          as (w' & Hrun & Ha & Hi & Hh)
    end.
    { intros e. right. left. exists e. reflexivity. }
    erewrite bind_ok by exact Hrun.
    exists w'. split; [reflexivity|].
    cbn in Ha, Hi. rewrite Ha, Hi, Htable. repeat split.
    destruct Hh as [(h & Hh)|(Hh & Hw)]; cbn in Hh.
    + left. exists h. exact Hh.
    + right. split; [exact Hh | exact Hw].
  - erewrite bind_ok by reflexivity.
    eexists. split; [reflexivity|]. cbn. rewrite Htable. repeat split.
    right. split; [reflexivity | left; exact Hc].
Qed.

Lemma update_missing self id annot_data object_id field_id set_id l1 l2
    (w : world) :
  hd false (faults w) = false ->
  some_field annot_data object_id field_id set_id l1 l2 ->
  ~ exists_record id (db w) ->
  exists w',
    update self id annot_data object_id field_id set_id l1 l2 w = (Ok false, w')
    /\ annotations (db w') = annotations (db w)
    /\ annotation_history (db w')
       = annotation_history (db w)
    /\ In (WARNING, RecordNotFound id) (log w').
Proof.
  intros Hf Hsome Hno. rewrite update_unfold.
  pose proof (clauses_nonempty _ _ _ _ _ _ Hsome) as Hne.
  destruct (update_clauses _ _ _ _ _ _) as [|c0 cs] eqn:Ecl; [congruence|].
  rewrite <- Ecl. clear Ecl Hne c0 cs.
  erewrite bind_ok by reflexivity.
  erewrite bind_ok
    by (rewrite get_connection_served by exact Hf; reflexivity).
  cbn [db annotations set_db add_log set_faults].
  rewrite (rowcount_zero id (db w) Hno).
  erewrite bind_ok by reflexivity.
  eexists. split; [reflexivity|]. cbn. split; [|split; [reflexivity|]].
  - apply map_id_when_absent. intros r Hr E. apply Hno. exists r. auto.
  - apply in_or_app. right. left. reflexivity.
Qed.

Lemma update_nothing self id (w : world) :
  update self id None None None None None None w
  = (Ok false, add_log WARNING NoUpdatesSpecified w).
Proof. reflexivity. Qed.

Lemma find_app_fresh (l : list row) (r : row) :
  Forall (fun x => (ID x < ID r)%Z) l ->
  find (fun x => (ID x =? ID r)%Z) (l ++ [r]) = Some r.
Proof.
  induction l as [|x l IH]; intros H; cbn.
  - rewrite Z.eqb_refl. reflexivity.
  - inversion H as [|? ? Hx Hl]; subst.
    destruct (Z.eqb_spec (ID x) (ID r)) as [E|_]; [lia|].
    apply IH. exact Hl.
Qed.

Lemma insert_served self a oid fid sid l1 l2 (w : world) :
  hd false (faults w) = false ->
  exists w',
    insert self a oid fid sid l1 l2 w = (Ok (identity (db w)), w')
    /\ annotations (db w')
       = annotations (db w)
         ++ [inserted_row a oid fid sid l1 l2 w]
    /\ identity (db w') = (identity (db w) + 1)%Z
    /\ history_appended_or_logged self (identity (db w)) w w'.
Proof.
  intros Hf. unfold AnnotationDBManager.insert.
  erewrite bind_ok by reflexivity.
  erewrite bind_ok
    by (rewrite get_connection_served by exact Hf; reflexivity).
  cbn [db annotations identity set_db add_log set_faults].
  destruct (history_configured self) eqn:Hc.
  - match goal with
    | |- exists w', bind (try_except _ _) _ ?W = _ /\ _ =>
        destruct (history_step_outcome self (identity (db w))
                    HistoryFailedAfterInsert W Hc)
          as (w' & Hrun & Ha & Hi & Hh)
    end.
    { intros e. left. exists e. reflexivity. }
    erewrite bind_ok by exact Hrun.
    exists w'. split; [reflexivity|].
    cbn in Ha, Hi. rewrite Ha, Hi. repeat split.
    destruct Hh as [(h & Hh)|(Hh & Hw)]; cbn in Hh.
    + left. exists h. exact Hh.
    + right. split; [exact Hh | exact Hw].
  - erewrite bind_ok by reflexivity.
    eexists. split; [reflexivity|]. cbn. repeat split.
    right. split; [reflexivity | left; exact Hc].
Qed.

(** *** The path on which nothing fails *)

Lemma save_to_history_ok self id (w : world) r :
  history_configured self = true ->
  faults w = [] ->
  find (fun x => (ID x =? id)%Z) (annotations (db w)) = Some r ->
  decodable r ->
  exists w',
    save_to_history self id w
    = (Ok (Some (history_identity (db w))), w')
    /\ annotations (db w') = annotations (db w)
    /\ identity (db w') = identity (db w)
    /\ annotation_history (db w')
       = annotation_history (db w)
         ++ [history_copy (history_identity (db w)) r
               (clock w)]
    /\ faults w' = [].
Proof.
  intros Hc Hf Hfind (a & Hdec). destruct w as [d c f l]. cbn in Hf, Hfind.
  subst f. unfold AnnotationDBManager.save_to_history. rewrite Hc. cbn.
  unfold AnnotationDBManager.read, get_connection, bind, sql_select_by_id,
    decode_row, lift. cbn.
  rewrite Hfind. cbn. rewrite Hdec. cbn.
  eexists. split; [reflexivity|]. cbn. repeat split.
Qed.

Lemma history_step_ok self id (mk : Z -> exn -> message) (w : world) r :
  history_configured self = true ->
  faults w = [] ->
  find (fun x => (ID x =? id)%Z) (annotations (db w)) = Some r ->
  decodable r ->
  exists w',
    try_except
      (bind (save_to_history self id) (fun _ => ret tt))
      (fun e => logger WARNING (mk id e)) w = (Ok tt, w')
    /\ annotations (db w') = annotations (db w)
    /\ identity (db w') = identity (db w)
    /\ annotation_history (db w')
       = annotation_history (db w)
         ++ [history_copy (history_identity (db w)) r
               (clock w)]
    /\ faults w' = [].
Proof.
  intros Hc Hf Hfind Hdec.
  destruct (save_to_history_ok self id w r Hc Hf Hfind Hdec)
    as (w' & Hrun & Hrest).
  exists w'. split; [|exact Hrest].
  unfold try_except, bind. rewrite Hrun. reflexivity.
Qed.

Lemma insert_ok self a oid fid sid l1 l2 (w : world) :
  history_configured self = true ->
  faults w = [] ->
  identity_fresh (db w) ->
  (exists a', decode (encode a) = Ok a') ->
  exists w',
    insert self a oid fid sid l1 l2 w = (Ok (identity (db w)), w')
    /\ annotations (db w')
       = annotations (db w)
         ++ [inserted_row a oid fid sid l1 l2 w]
    /\ identity (db w') = (identity (db w) + 1)%Z
    /\ List.length (annotation_history (db w'))
       = S (List.length (annotation_history (db w)))
    /\ faults w' = [].
Proof.
  intros Hc Hf Hfresh Hdec. unfold AnnotationDBManager.insert.
  erewrite bind_ok by reflexivity.
  erewrite bind_ok
    by (rewrite get_connection_served by (cbn; rewrite Hf; reflexivity);
        reflexivity).
  rewrite Hc.
  match goal with
  | |- exists w', bind (try_except _ _) _ ?W = _ /\ _ =>
      destruct (history_step_ok self (identity (db w))
                  HistoryFailedAfterInsert W
                  (inserted_row a oid fid sid l1 l2 w)
                  Hc)
        as (w' & Hrun & Ha & Hi & Hh & Hf')
  end.
  { cbn. rewrite Hf. reflexivity. }
  { cbn. apply (find_app_fresh (annotations (db w))
                  (inserted_row a oid fid sid l1 l2 w)).
    exact Hfresh. }
  { exact Hdec. }
  erewrite bind_ok by exact Hrun.
  exists w'. split; [reflexivity|].
  cbn in Ha, Hi, Hh. rewrite Ha, Hi, Hh. repeat split.
  - rewrite length_app. cbn. lia.
  - exact Hf'.
Qed.



Lemma decode_rows_ok (rows : list row) (w : world) :
  Forall decodable rows ->
  exists recs,
    decode_rows rows w = (Ok recs, w)
    /\ List.map (columns) recs = rows.
Proof.
  induction rows as [|r rows IH]; intros H.
  - exists []. split; reflexivity.
  - inversion H as [|? ? (a & Hr) Hrows]; subst.
    destruct (IH Hrows) as (recs & Hrun & Hcols).
    eexists. cbn [decode_rows]. unfold decode_row, lift.
    unfold bind at 1. unfold bind at 1. rewrite Hr. unfold ret at 1.
    erewrite bind_ok by exact Hrun. split; [reflexivity|].
    cbn. rewrite Hcols. reflexivity.
Qed.

Lemma query_ok self object_id field_id set_id l1 l2 limit (w : world) :
  faults w = [] ->
  Forall decodable
    (fetch_next limit
       (order_by_id_desc
          (filter (where_clauses object_id field_id set_id l1 l2)
             (annotations (db w))))) ->
  exists recs w',
    query self object_id field_id set_id l1 l2 limit w = (Ok recs, w')
    /\ List.map (columns) recs
       = fetch_next limit
           (order_by_id_desc
              (filter (where_clauses object_id field_id set_id l1 l2)
                 (annotations (db w))))
    /\ db w' = db w
    /\ clock w' = clock w
    /\ faults w' = [].
Proof.
  intros Hf Hdec. unfold AnnotationDBManager.query.
  rewrite get_connection_served by (rewrite Hf; reflexivity).
  erewrite bind_ok by reflexivity.
  set (W := add_log DEBUG ConnectionEstablished
              (set_faults (tl (faults w)) w)).
  change (annotations (db W)) with (annotations (db w)).
  destruct (decode_rows_ok _ W Hdec) as (recs & Hrun & Hcols).
  erewrite bind_ok by exact Hrun.
  erewrite bind_ok by reflexivity.
  eexists _, _. split; [reflexivity|]. cbn. rewrite Hf. repeat split.
  exact Hcols.
Qed.

Abbreviation key_rows oid fid sid l1 l2 :=
  (current_records oid fid sid l1 l2).




Lemma map_columns_one (recs : list record) r :
  List.map (columns) recs = [r] ->
  exists x, recs = [x] /\ columns x = r.
Proof.
  destruct recs as [|x [|y recs]]; try discriminate.
  intros H. inversion H. exists x. split; reflexivity.
Qed.


(** C8, as the code has it. On a connection that the datastore serves:
    when at least one field is given and the record exists, [update]
    returns true and the rows with that identifier hold the given
    fields, their other fields as before, and the time of the call as
    timestamp, every other row being untouched; when at least one field
    is given and no record has the identifier, it returns false, raises
    nothing and leaves the table as it was; when no field is given it
    returns false at once, whether the record exists or not, and writes
    nothing but a warning. *)
Theorem update_applies_given_fields :
  forall self record_id annot_data object_id field_id set_id
         lookup_info1 lookup_info2 (w : world),
    hd false (faults w) = false ->
    (some_field annot_data object_id field_id set_id lookup_info1 lookup_info2 ->
     exists_record record_id (db w) ->
     exists w',
       update self record_id annot_data object_id field_id set_id
         lookup_info1 lookup_info2 w = (Ok true, w')
       /\ annotations (db w')
          = updated_table annot_data object_id field_id set_id
              lookup_info1 lookup_info2 (clock w) record_id
              (annotations (db w)))
    /\ (some_field annot_data object_id field_id set_id lookup_info1
          lookup_info2 ->
        ~ exists_record record_id (db w) ->
        exists w',
          update self record_id annot_data object_id field_id set_id
            lookup_info1 lookup_info2 w = (Ok false, w')
          /\ annotations (db w') = annotations (db w))
    /\ update self record_id None None None None None None w
       = (Ok false, add_log WARNING NoUpdatesSpecified w).
Proof.
  intros self id annot_data object_id field_id set_id l1 l2 w Hf.
  split; [|split].
  - intros Hsome Hex.
    destruct (update_existing self id annot_data object_id field_id set_id
                l1 l2 w Hf Hsome Hex) as (w' & Hrun & Ha & _).
    exists w'. split; assumption.
  - intros Hsome Hno.
    destruct (update_missing self id annot_data object_id field_id set_id
                l1 l2 w Hf Hsome Hno) as (w' & Hrun & Ha & _).
    exists w'. split; assumption.
  - apply update_nothing.
Qed.

(** C9. Once the connection of the primary write is served, whatever
    the datastore does afterwards, [insert] returns the new identifier
    and [update] returns true, and the annotations table holds exactly
    what the primary write committed. The history table either received
    its copy, or it is as it was and the failure was logged as a
    warning (unless no history table is configured). *)
Theorem history_failure_is_not_propagated :
  forall self (w : world),
    hd false (faults w) = false ->
    (forall annot_data object_id field_id set_id lookup_info1 lookup_info2,
       exists w',
         insert self annot_data object_id field_id set_id lookup_info1
           lookup_info2 w = (Ok (identity (db w)), w')
         /\ annotations (db w')
            = annotations (db w)
              ++ [inserted_row annot_data object_id field_id set_id
                    lookup_info1 lookup_info2 w]
         /\ history_appended_or_logged self (identity (db w)) w w')
    /\ (forall record_id annot_data object_id field_id set_id lookup_info1
               lookup_info2,
          some_field annot_data object_id field_id set_id lookup_info1
            lookup_info2 ->
          exists_record record_id (db w) ->
          exists w',
            update self record_id annot_data object_id field_id set_id
              lookup_info1 lookup_info2 w = (Ok true, w')
            /\ annotations (db w')
               = updated_table annot_data object_id field_id set_id
                   lookup_info1 lookup_info2 (clock w) record_id
                   (annotations (db w))
            /\ history_appended_or_logged self record_id w w').
Proof.
  intros self w Hf. split.
  - intros a oid fid sid l1 l2.
    destruct (insert_served self a oid fid sid l1 l2 w Hf)
      as (w' & Hrun & Ha & _ & Hh).
    exists w'. repeat split; assumption.
  - intros id annot_data object_id field_id set_id l1 l2 Hsome Hex.
    destruct (update_existing self id annot_data object_id field_id set_id
                l1 l2 w Hf Hsome Hex) as (w' & Hrun & Ha & _ & Hh).
    exists w'. repeat split; assumption.
Qed.


End StoreFacts.

Section StoreRuns.

Import AnnotationDBManager StoreExample.

Abbreviation update_s := (update string string payload_write payload_read).
Abbreviation insert_s := (insert string string payload_write payload_read).
Abbreviation upsert_s := (upsert string string payload_write payload_read).

(** An existing record and a call that gives no field: [update] returns
    false, and the stored row keeps its old timestamp. *)
Lemma update_without_fields_returns_false :
  exists_record 1 (db (world_of one_record_database []))
  /\ exists w',
       update_s manager_with_history 1 None None None None None None
         (world_of one_record_database []) = (Ok false, w')
       /\ annotations (db w') = [stored_row]
       /\ List.map UPDATED (annotations (db w')) = [5%Z].
Proof.
  split.
  - exists stored_row. split; [left; reflexivity | reflexivity].
  - eexists. split; [reflexivity|]. split; reflexivity.
Qed.

Lemma update_applies_given_fields_witness :
  (hd false (faults (world_of one_record_database [])) = false
   /\ some_field (Some "page-0-v2") None None None None None
   /\ exists_record 1 (db (world_of one_record_database [])))
  /\ exists w',
       update_s manager_with_history 1 (Some "page-0-v2") None None None None
         None (world_of one_record_database []) = (Ok true, w')
       /\ annotations (db w')
          = [ {| ID := 1; OBJECT_ID := 16709; FIELD_ID := 382; SET_ID := -1;
                 LOOKUP_INFO1 := "invoice.pdf:abc123"; LOOKUP_INFO2 := "0";
                 UPDATED := 10; ANNOT_DATA := "page-0-v2" |} ].
Proof.
  assert (Hs : some_field (Some "page-0-v2") (@None Z) (@None Z) (@None Z)
                 (@None string) (@None string))
    by (left; discriminate).
  assert (He : exists_record 1 (db (world_of one_record_database [])))
    by (exists stored_row; split; [left; reflexivity | reflexivity]).
  split; [repeat split; assumption|].
  exact (proj1 (update_applies_given_fields string string payload_write
                  payload_read manager_with_history 1 (Some "page-0-v2")
                  None None None None None
                  (world_of one_record_database []) eq_refl) Hs He).
Defined.

(** The datastore serves the insert and refuses the next connection,
    the one that reads the row back for the history copy: the call
    still returns the identifier, the row is stored, the history table
    is empty and the warning is in the log. *)
Lemma history_failure_is_not_propagated_witness :
  hd false (faults (world_of empty_database [false; true])) = false
  /\ (exists w',
        insert_s manager_with_history "page-0-v1" 16709 382 (-1)
          "invoice.pdf:abc123" "0" (world_of empty_database [false; true])
        = (Ok 1%Z, w')
        /\ annotations (db w')
           = [ {| ID := 1; OBJECT_ID := 16709; FIELD_ID := 382; SET_ID := -1;
                  LOOKUP_INFO1 := "invoice.pdf:abc123"; LOOKUP_INFO2 := "0";
                  UPDATED := 10; ANNOT_DATA := "page-0-v1" |} ]
        /\ history_appended_or_logged manager_with_history 1
             (world_of empty_database [false; true]) w')
  /\ (exists w',
        insert_s manager_with_history "page-0-v1" 16709 382 (-1)
          "invoice.pdf:abc123" "0" (world_of empty_database [false; true])
        = (Ok 1%Z, w')
        /\ annotation_history (db w') = []
        /\ In (WARNING, HistoryFailedAfterInsert 1 DatabaseError) (log w')).
Proof.
  split; [reflexivity|]. split.
  - exact (proj1 (history_failure_is_not_propagated string string payload_write
                    payload_read manager_with_history
                    (world_of empty_database [false; true]) eq_refl)
             "page-0-v1" 16709%Z 382%Z (-1)%Z "invoice.pdf:abc123" "0").
  - eexists. split; [reflexivity|]. split; [reflexivity|].
    cbn. intuition.
Defined.


End StoreRuns.

(** * Further properties of the code *)

(** ** Coordinate normalizer: errors, orientation, validation, batches *)

Section ConverterMore.

Import CoordinateConverter.


Lemma pixel_bbox_raise_inv bbox page_width page_height e :
  pixel_bbox_to_normalized bbox page_width page_height = Raise e ->
  e = ValueError.
Proof.
  unfold pixel_bbox_to_normalized.
  destruct bbox as [|x1 [|y1 [|x2 [|y2 [|z l]]]]];
    try (intros He; inversion He; reflexivity).
  destruct ((page_width <=? 0) || (page_height <=? 0))%Z;
    [intros He; inversion He; reflexivity|].
  destruct (x2 <? x1)%Z, (y2 <? y1)%Z; discriminate.
Qed.


(** X2. A box given with its corners exchanged, in x, in y or in both, is
    converted to the same rectangle as the box in the right order. *)
Theorem pixel_bbox_orientation :
  forall x1 y1 x2 y2 page_width page_height,
    pixel_bbox_to_normalized [x2; y1; x1; y2] page_width page_height
    = pixel_bbox_to_normalized [x1; y1; x2; y2] page_width page_height
    /\ pixel_bbox_to_normalized [x1; y2; x2; y1] page_width page_height
       = pixel_bbox_to_normalized [x1; y1; x2; y2] page_width page_height
    /\ pixel_bbox_to_normalized [x2; y2; x1; y1] page_width page_height
       = pixel_bbox_to_normalized [x1; y1; x2; y2] page_width page_height.
Proof.
  intros x1 y1 x2 y2 W H. unfold pixel_bbox_to_normalized.
  destruct ((W <=? 0) || (H <=? 0))%Z; [repeat split|].
  destruct (Z.ltb_spec x2 x1), (Z.ltb_spec x1 x2),
           (Z.ltb_spec y2 y1), (Z.ltb_spec y1 y2);
    try lia; repeat split;
    repeat match goal with
           | Hle : (?a <= ?b)%Z, Hge : (?b <= ?a)%Z |- _ =>
               assert (a = b) by lia; subst a; clear Hle Hge
           end; reflexivity.
Qed.

Lemma validate_sound l t w h :
  validate_normalized_coords l t w h = true ->
  normalized_rect_invariant (l, t, w, h).
Proof.
  unfold validate_normalized_coords, Qlt_bool, normalized_rect_invariant.
  destruct (Qle_bool 0 l) eqn:A1; [|discriminate].
  destruct (Qle_bool l 1) eqn:A2; [|discriminate].
  destruct (Qle_bool 0 t) eqn:A3; [|discriminate].
  destruct (Qle_bool t 1) eqn:A4; [|discriminate].
  destruct (Qle_bool 0 w) eqn:A5; [|discriminate].
  destruct (Qle_bool w 1) eqn:A6; [|discriminate].
  destruct (Qle_bool 0 h) eqn:A7; [|discriminate].
  destruct (Qle_bool h 1) eqn:A8; [|discriminate].
  cbn [andb negb].
  destruct (Qle_bool (l + w) 1) eqn:A9; [|discriminate].
  destruct (Qle_bool (t + h) 1) eqn:A10; [|discriminate].
  cbn [negb].
  destruct (Qle_bool w 0) eqn:A11; [discriminate|].
  destruct (Qle_bool h 0) eqn:A12; [discriminate|].
  intros _.
  rewrite Qle_bool_iff in A1, A2, A3, A4, A5, A6, A7, A8, A9, A10.
  repeat split; try assumption.
  - apply Qnot_le_lt. intros Hle. apply Qle_bool_iff in Hle. congruence.
  - apply Qnot_le_lt. intros Hle. apply Qle_bool_iff in Hle. congruence.
Qed.

(** X3. The validation accepts a rectangle exactly when the rectangle
    satisfies the whole invariant: every field in [0,1], the right and
    bottom edges on the page, width and height positive. *)
Theorem validate_iff_invariant :
  forall l t w h,
    validate_normalized_coords l t w h = true
    <-> normalized_rect_invariant (l, t, w, h).
Proof.
  intros l t w h. split; [apply validate_sound | apply validate_of_invariant].
Qed.



End ConverterMore.


(** ** Annotation builder: numbering, constants, errors, entity types *)

Section BuilderMore.

Import AnnotationBuilder.

Variable creator_name : string.
Variables annotRedaction massActionCreated : Z.
Variable json : Type.
Variable thrift_write : AnnotationData -> json.

Let create := create_pii_annotation creator_name annotRedaction massActionCreated.
Let build := build_from_pii_detections creator_name annotRedaction
               massActionCreated json thrift_write.

(** What [create_pii_annotation] puts in each field when it returns. *)
Lemma create_fields timestamp ty value coords confidence id order mask a :
  create timestamp ty value coords confidence id order mask = Ok a ->
  coords = Some [dXPos a; dYPos a; dWidth a; dHeight a]
  /\ eType a = annotRedaction /\ eSource a = massActionCreated
  /\ sFillColour a = "#000000" /\ sLineColour a = "#000000"
  /\ dFillOpacity a = 1 /\ dLineOpacity a = 1
  /\ sCreatedBy a = creator_name /\ sModifiedBy a = creator_name
  /\ sTimeCreated a = timestamp /\ sModifiedTime a = timestamp
  /\ iPageLevelID a = id
  /\ iOrder a = match order with Some o => o | None => id end
  /\ iConfidence a = confidence
  /\ sReasonCategory a = normalize_entity_type ty.
Proof.
  unfold create, create_pii_annotation, unpack4.
  destruct coords as [[|l [|t [|w [|h [|z rest]]]]]|]; try discriminate.
  intros H. inversion H; subst a. cbn. repeat split.
Qed.

Lemma create_raise_inv timestamp ty value coords confidence id order mask e :
  create timestamp ty value coords confidence id order mask = Raise e ->
  (coords = None /\ e = TypeError)
  \/ ((exists l, coords = Some l /\ List.length l <> 4%nat) /\ e = ValueError).
Proof.
  unfold create, create_pii_annotation, unpack4.
  destruct coords as [[|l [|t [|w [|h [|z rest]]]]]|]; intros H;
    try discriminate H; inversion H; subst e;
    try (left; split; reflexivity);
    right; (split; [eexists; split; [reflexivity | cbn; lia] | reflexivity]).
Qed.

(** Whenever the loop returns, it has appended one annotation per
    detection, entry [k] being built with identifier and order [i + k]. *)
Lemma build_loop_ok_inv utcnow :
  forall dets i acc anns,
    build_loop creator_name annotRedaction massActionCreated utcnow i dets acc
      = Ok anns ->
    exists new,
      anns = acc ++ new
      /\ List.length new = List.length dets
      /\ forall k a, nth_error new k = Some a ->
           exists pii, nth_error dets k = Some pii
             /\ create (utcnow (i + Z.of_nat k)%Z)
                  (get (d_type pii) "UNKNOWN") (get (d_value pii) "")
                  (d_normalized_coords pii) (get (d_confidence pii) 0%Z)
                  (i + Z.of_nat k)%Z (Some (i + Z.of_nat k)%Z) true = Ok a.
Proof.
  induction dets as [|pii rest IH]; intros i acc anns H; cbn [build_loop] in H.
  - inversion H; subst. exists []. rewrite app_nil_r.
    repeat split. intros [|k] a Hk; discriminate Hk.
  - fold create in H.
    destruct (create (utcnow i) (get (d_type pii) "UNKNOWN")
                (get (d_value pii) "") (d_normalized_coords pii)
                (get (d_confidence pii) 0%Z) i (Some i) true) as [a0|e] eqn:Ha;
      [|discriminate].
    destruct (IH _ _ _ H) as (new & -> & Hlen & Hnth).
    exists (a0 :: new). rewrite <- app_assoc. split; [reflexivity|].
    split; [cbn; congruence|].
    intros [|k] a Hk; cbn in Hk.
    + inversion Hk; subst a. exists pii. split; [reflexivity|].
      rewrite Z.add_0_r. exact Ha.
    + destruct (Hnth k a Hk) as (pii' & Hp & Hc).
      exists pii'. split; [exact Hp|].
      replace (i + Z.of_nat (S k))%Z with (i + 1 + Z.of_nat k)%Z by lia.
      exact Hc.
Qed.

(** Whenever the loop raises, some detection has no four coordinates. *)
Lemma build_loop_raise_inv utcnow :
  forall dets i acc e,
    build_loop creator_name annotRedaction massActionCreated utcnow i dets acc
      = Raise e ->
    (e = TypeError \/ e = ValueError) /\ ~ Forall has_coords dets.
Proof.
  induction dets as [|pii rest IH]; intros i acc e H; cbn [build_loop] in H;
    [discriminate|].
  fold create in H.
  destruct (create (utcnow i) (get (d_type pii) "UNKNOWN")
              (get (d_value pii) "") (d_normalized_coords pii)
              (get (d_confidence pii) 0%Z) i (Some i) true) as [a0|e0] eqn:Ha.
  - destruct (IH _ _ _ H) as [He Hno]. split; [exact He|].
    intros Hall. inversion Hall; subst. contradiction.
  - inversion H; subst e0.
    destruct (create_raise_inv _ _ _ _ _ _ _ _ _ Ha)
      as [[Hc ->]|[(l & Hc & Hl) ->]].
    + split; [left; reflexivity|]. intros Hall. inversion Hall as [|? ? Hp _]; subst.
      destruct Hp as (? & ? & ? & ? & Hp). congruence.
    + split; [right; reflexivity|]. intros Hall.
      inversion Hall as [|? ? Hp _]; subst.
      destruct Hp as (? & ? & ? & ? & Hp). rewrite Hp in Hc.
      inversion Hc; subst l. apply Hl. reflexivity.
Qed.

(** X5. Whenever a page is built: the encoded form is that of the page; the
    page number is the one given; the count is the number of
    annotations, which is the number of detections; and the annotation
    at position [k] (from 0) has identifier and order [k + 1], is an
    opaque black redaction from the batch source, carries the same
    creator and modifier and the same creation and modification time,
    and takes its coordinates, confidence and normalized type from the
    detection at position [k]. *)
Theorem build_page_invariants :
  forall utcnow pii_detections page_number annot_data json_str,
    build utcnow pii_detections page_number = Ok (annot_data, json_str) ->
    json_str = thrift_write annot_data
    /\ lPageNumber annot_data = page_number
    /\ iPageLevelIDCount annot_data
       = Z.of_nat (List.length (aAnnots annot_data))
    /\ List.length (aAnnots annot_data) = List.length pii_detections
    /\ forall k a, nth_error (aAnnots annot_data) k = Some a ->
         exists pii, nth_error pii_detections k = Some pii
           /\ iPageLevelID a = (Z.of_nat k + 1)%Z
           /\ iOrder a = (Z.of_nat k + 1)%Z
           /\ eType a = annotRedaction /\ eSource a = massActionCreated
           /\ sFillColour a = "#000000" /\ sLineColour a = "#000000"
           /\ dFillOpacity a = 1 /\ dLineOpacity a = 1
           /\ sCreatedBy a = creator_name /\ sModifiedBy a = creator_name
           /\ sTimeCreated a = sModifiedTime a
           /\ d_normalized_coords pii
              = Some [dXPos a; dYPos a; dWidth a; dHeight a]
           /\ iConfidence a = get (d_confidence pii) 0%Z
           /\ sReasonCategory a
              = normalize_entity_type (get (d_type pii) "UNKNOWN").
Proof.
  intros utcnow dets page ad js H.
  unfold build, build_from_pii_detections in H.
  destruct (build_loop _ _ _ _ _ _ _) as [anns|e] eqn:Hloop; [|discriminate].
  inversion H; subst ad js. clear H.
  destruct (build_loop_ok_inv _ _ _ _ _ Hloop) as (new & Hanns & Hlen & Hnth).
  cbn in Hanns. subst anns. cbn.
  split; [reflexivity|]. split; [reflexivity|]. split; [reflexivity|].
  split; [exact Hlen|].
  intros k a Hk. destruct (Hnth k a Hk) as (pii & Hp & Hc).
  exists pii. split; [exact Hp|].
  destruct (create_fields _ _ _ _ _ _ _ _ _ Hc)
    as (C & T & S & F1 & F2 & O1 & O2 & B1 & B2 & T1 & T2 & I & Or & Cf & R).
  repeat split; try assumption; try lia; congruence.
Qed.

(** X6. A page is built exactly when every detection carries four
    normalized coordinates; otherwise the call raises [TypeError] (a
    detection without coordinates) or [ValueError] (coordinates that are
    not four), and nothing else. *)
Theorem build_returns_iff_coords :
  forall utcnow pii_detections page_number,
    ((exists r, build utcnow pii_detections page_number = Ok r)
     <-> Forall has_coords pii_detections)
    /\ (forall e, build utcnow pii_detections page_number = Raise e ->
          e = TypeError \/ e = ValueError).
Proof.
  intros utcnow dets page. unfold build, build_from_pii_detections.
  destruct (build_loop creator_name annotRedaction massActionCreated utcnow
              1%Z dets []) as [anns|e] eqn:Hloop.
  - split; [|intros e He; discriminate He].
    split; [|intros _; eexists; reflexivity]. intros _.
    destruct (build_loop_ok_inv _ _ _ _ _ Hloop) as (new & _ & Hlen & Hnth).
    apply Forall_forall. intros pii Hin.
    apply In_nth_error in Hin as (k & Hk).
    assert (Hlt : (k < List.length new)%nat).
    { rewrite Hlen. apply nth_error_Some. congruence. }
    destruct (nth_error new k) as [a|] eqn:Ha;
      [|apply nth_error_None in Ha; lia].
    destruct (Hnth k a Ha) as (pii' & Hp & Hc).
    rewrite Hk in Hp. inversion Hp; subst pii'.
    destruct (create_fields _ _ _ _ _ _ _ _ _ Hc) as (C & _).
    eexists _, _, _, _. exact C.
  - destruct (build_loop_raise_inv _ _ _ _ _ Hloop) as [He Hno].
    split.
    + split; [intros [r Hr]; discriminate Hr | intros Hall; contradiction].
    + intros e' He'. inversion He'; subst e'. exact He.
Qed.

End BuilderMore.

Section EntityTypeFacts.

Import PyStr AnnotationBuilder.













End EntityTypeFacts.

Lemma build_page_invariants_witness :
  exists annot_data json_str,
    AnnotationBuilder.build_from_pii_detections "pii_pipeline" 2 3 string
      (fun _ => "payload") (fun _ => "2026-01-01T00:00:00")
      [ssn_detection; ssn_detection] 7
    = Ok (annot_data, json_str)
    /\ AnnotationBuilder.lPageNumber annot_data = 7%Z
    /\ AnnotationBuilder.iPageLevelIDCount annot_data = 2%Z
    /\ List.map AnnotationBuilder.iPageLevelID
         (AnnotationBuilder.aAnnots annot_data) = [1; 2]%Z.
Proof.
  eexists _, _. split; [reflexivity|].
  destruct (build_page_invariants "pii_pipeline" 2 3 string (fun _ => "payload")
              (fun _ => "2026-01-01T00:00:00") [ssn_detection; ssn_detection]
              7%Z _ _ eq_refl) as (_ & Hp & Hc & _).
  split; [exact Hp|]. split; [exact Hc | reflexivity].
Defined.

(** ** Span aligner: what is returned, and when it raises *)

Section AlignerMore.

Import PyStr Pipeline.

Variable match_case : bool.
Variable nt : string.

(** The window returned by the inner loop ends at a position where the
    accumulated text matches. *)
Lemma grow_some_inv :
  forall rest cur win w,
    grow match_case nt cur win rest = Some w ->
    exists k, (k < List.length rest)%nat
      /\ w = win ++ firstn (S k) rest
      /\ normalize match_case (cur ++ window_text (firstn (S k) rest))%string
         = nt.
Proof.
  induction rest as [|tok rest IH]; intros cur win w H; [discriminate|].
  rewrite grow_cons in H.
  destruct (String.eqb_spec (normalize match_case (cur ++ text tok)%string) nt)
    as [E|N].
  - inversion H; subst w. exists 0%nat. cbn [firstn window_text].
    rewrite append_nil_r. repeat split; [cbn; lia | exact E].
  - destruct (_ <? _)%nat; [discriminate|].
    destruct (IH _ _ _ H) as (k & Hk & Hw & Hn).
    exists (S k). cbn [firstn window_text]. split; [cbn; lia|].
    split; [rewrite Hw, <- app_assoc; reflexivity|].
    rewrite <- append_assoc. exact Hn.
Qed.

(** The merged box is returned exactly when some token of the window has
    four coordinates; otherwise the conversion of the infinity raises. *)
Lemma merged_box_cases window :
  (exists b, merged_box window = Ok b /\ union_rect b window)
  \/ (merged_box window = Raise OverflowError /\ ~ has_box window).
Proof.
  destruct (boxes4 window) as [|q qs] eqn:E.
  - right. split.
    + unfold merged_box. rewrite merge_loop_folds, E. reflexivity.
    + intros (tok & x1 & y1 & x2 & y2 & Hin & Hb).
      assert (H : In (x1, y1, x2, y2) (boxes4 window))
        by (apply in_boxes4; exists tok; split; assumption).
      rewrite E in H. destruct H.
  - left. apply merged_box_union.
    assert (H : In q (boxes4 window)) by (rewrite E; left; reflexivity).
    apply in_boxes4 in H as (tok & Hin & Hb).
    exists tok, (bx1 q), (by1 q), (bx2 q), (by2 q). split; assumption.
Qed.

Lemma window_box_cons tok tokens b :
  window_box match_case nt tokens b ->
  window_box match_case nt (tok :: tokens) b.
Proof.
  intros (i & j & Hij & Hn & Hu). exists (S i), (S j).
  rewrite slice_cons. split; [cbn; lia|]. split; assumption.
Qed.

Lemma window_box_head tokens w b :
  (exists k, (k < List.length tokens)%nat /\ w = firstn (S k) tokens
             /\ normalize match_case (window_text w) = nt) ->
  union_rect b w ->
  window_box match_case nt tokens b.
Proof.
  intros (k & Hk & -> & Hn) Hu. exists 0%nat, k.
  split; [lia|]. split; assumption.
Qed.

(** What the outer loop can end with. *)
Lemma scan_outcomes return_all :
  forall tokens found,
    (exists new,
        scan match_case return_all nt tokens found
        = Ok (if return_all then PyList (found ++ new)
              else match new with [] => PyNone | b :: _ => PyBox b end)
        /\ Forall (window_box match_case nt tokens) new
        /\ (List.length new <= List.length tokens)%nat
        /\ (return_all = false -> (List.length new <= 1)%nat))
    \/ scan match_case return_all nt tokens found = Raise OverflowError.
Proof.
  induction tokens as [|tok rest IH]; intros found.
  - left. exists []. cbn. rewrite app_nil_r.
    split; [destruct return_all; reflexivity|]. repeat split; auto.
  - assert (Hskip :
      forall f, scan match_case return_all nt rest f
                = scan match_case return_all nt rest f ->
      (exists new,
          scan match_case return_all nt rest f
          = Ok (if return_all then PyList (f ++ new)
                else match new with [] => PyNone | b :: _ => PyBox b end)
          /\ Forall (window_box match_case nt (tok :: rest)) new
          /\ (List.length new <= List.length (tok :: rest))%nat
          /\ (return_all = false -> (List.length new <= 1)%nat))
      \/ scan match_case return_all nt rest f = Raise OverflowError).
    { intros f _. destruct (IH f) as [(new & Hrun & Hall & Hlen & Hone)|Hr];
        [left|right; exact Hr].
      exists new. split; [exact Hrun|]. split.
      - eapply Forall_impl; [|exact Hall]. intros b. apply window_box_cons.
      - split; [cbn; lia | exact Hone]. }
    cbn [scan].
    destruct (negb (truthy (normalize match_case (text tok))));
      [apply Hskip; reflexivity|].
    destruct (grow match_case nt "" [] (tok :: rest)) as [w|] eqn:Hg;
      [|apply Hskip; reflexivity].
    destruct (grow_some_inv _ _ _ _ Hg) as (k & Hk & Hw & Hn).
    cbn [app append] in Hw, Hn.
    destruct (merged_box_cases w) as [(b & Hb & Hu)|[Hb _]]; rewrite Hb;
      [|right; reflexivity].
    assert (Hwb : window_box match_case nt (tok :: rest) b).
    { apply (window_box_head (tok :: rest) w b); [|exact Hu].
      exists k. rewrite Hw. repeat split; [exact Hk | exact Hn]. }
    destruct return_all.
    + destruct (IH (found ++ [b])) as [(new & Hrun & Hall & Hlen & _)|Hr];
        [left|right; exact Hr].
      exists (b :: new). rewrite Hrun, <- app_assoc. split; [reflexivity|].
      split; [constructor; [exact Hwb|]|].
      * eapply Forall_impl; [|exact Hall]. intros b'. apply window_box_cons.
      * split; [cbn; lia | discriminate].
    + left. exists [b]. split; [reflexivity|].
      split; [constructor; [exact Hwb | constructor]|].
      split; [cbn; lia | intros _; cbn; lia].
Qed.

End AlignerMore.

Section AlignerShape.

Import PyStr Pipeline.

(** X8. The aligner raises nothing but [OverflowError]. When it returns
    with [return_all = false] the value is [None] or one box, with
    [return_all = true] it is a list of at most as many boxes as there
    are tokens; and every box returned is the union bounding rectangle
    of a window of tokens whose normalized text equals the normalized
    target. *)
Theorem find_returns_only_window_boxes :
  forall target ocr match_case return_all,
    (exists boxes,
        find_target_bboxes target ocr match_case return_all
        = Ok (if return_all then PyList boxes
              else match boxes with [] => PyNone | b :: _ => PyBox b end)
        /\ Forall (window_box match_case (normalize match_case target)
                     (tokens_of ocr)) boxes
        /\ (List.length boxes <= List.length (tokens_of ocr))%nat)
    \/ find_target_bboxes target ocr match_case return_all
       = Raise OverflowError.
Proof.
  intros target ocr match_case return_all. rewrite find_unfold.
  assert (Hempty :
    exists boxes,
      Ok (empty_result return_all)
      = Ok (if return_all then PyList boxes
            else match boxes with [] => PyNone | b :: _ => PyBox b end)
      /\ Forall (window_box match_case (normalize match_case target)
                   (tokens_of ocr)) boxes
      /\ (List.length boxes <= List.length (tokens_of ocr))%nat).
  { exists []. split; [destruct return_all; reflexivity|].
    split; [constructor | cbn; lia]. }
  destruct (is_empty (tokens_of ocr)); [left; exact Hempty|].
  destruct (negb (truthy (normalize match_case target))); [left; exact Hempty|].
  destruct (scan_outcomes match_case (normalize match_case target) return_all
              (tokens_of ocr) [])
    as [(new & Hrun & Hall & Hlen & _)|Hr]; [left|right; exact Hr].
  exists new. split; [exact Hrun|]. split; assumption.
Qed.

(** X9. When the first window that matches has no token with a box of four
    coordinates, the call raises [OverflowError], whether one box or all
    boxes are asked for. *)
Theorem find_raises_without_box :
  forall target ocr match_case return_all i j,
    first_match match_case target (tokens_of ocr) i j ->
    ~ has_box (slice (tokens_of ocr) i j) ->
    find_target_bboxes target ocr match_case return_all = Raise OverflowError.
Proof.
  intros target ocr match_case return_all i j Hfm Hnobox. rewrite find_unfold.
  remember (tokens_of ocr) as tokens eqn:Et. clear Et.
  destruct Hfm as ([[Hij Hj] Hm] & Hnt & Hfirst & Hbefore & Hshorter).
  set (nt := normalize match_case target) in *.
  assert (Hne : is_empty tokens = false)
    by (destruct tokens; [simpl in Hj; lia | reflexivity]).
  rewrite Hne, (truthy_nonempty nt Hnt). cbn [negb].
  rewrite (scan_drop match_case nt return_all i).
  2:{ intros i' j' Hi' Hj' E. apply (Hbefore i' j' Hi').
      split; assumption. }
  assert (Hg : grow match_case nt "" [] (skipn i tokens)
               = Some (slice tokens i j)).
  { rewrite (grow_some match_case nt (skipn i tokens) "" [] (j - i)).
    - unfold slice. replace (S j - i)%nat with (S (j - i)) by lia. reflexivity.
    - rewrite length_skipn. lia.
    - intros k' Hk'. cbn [append]. rewrite <- slice_skipn.
      destruct (Hshorter (i + k')%nat) as [Hno Hlen]; [lia|].
      split; [|exact Hlen].
      intros E. apply Hno. split; [lia | exact E].
    - cbn [append]. rewrite <- slice_skipn.
      replace (i + (j - i))%nat with j by lia. exact Hm. }
  destruct (skipn_nth tokens i) as (tok & Hn & Hs); [lia|].
  rewrite Hs in *. cbn [scan].
  rewrite (truthy_nonempty _ (Hfirst tok Hn)). cbn [negb].
  rewrite Hg.
  destruct (merged_box_cases (slice tokens i j)) as [(b & Hb & Hu)|[Hb _]].
  - exfalso. apply Hnobox.
    destruct Hu as (a1 & b1 & a2 & b2 & _ & _ & (tok' & x1 & y1 & x2 & y2 & Hin & Hbx & _) & _).
    exists tok', x1, y1, x2, y2. split; assumption.
  - rewrite Hb. reflexivity.
Qed.

Lemma find_raises_without_box_witness :
  let ocr := one_line ["John "; "Doe"] [[0; 0; 40]%Z; []] in
  (first_match false "John Doe" (tokens_of ocr) 0 1
   /\ ~ has_box (slice (tokens_of ocr) 0 1))
  /\ find_target_bboxes "John Doe" ocr false true = Raise OverflowError.
Proof.
  intros ocr.
  assert (Hfm : first_match false "John Doe" (tokens_of ocr) 0 1).
  { split; [split; [simpl; lia | reflexivity]|].
    split; [discriminate|].
    split; [intros tok H; inversion H; subst; discriminate|].
    split.
    - intros i' j' Hi. lia.
    - intros j' Hj. assert (j' = 0)%nat by lia. subst j'. split.
      + intros [_ E]. vm_compute in E. discriminate E.
      + vm_compute. lia. }
  assert (Hb : ~ has_box (slice (tokens_of ocr) 0 1)).
  { intros (tok & x1 & y1 & x2 & y2 & Hin & Hbx).
    destruct Hin as [<-|[<-|[]]]; discriminate Hbx. }
  split; [split; assumption|].
  exact (find_raises_without_box "John Doe" ocr false true 0 1 Hfm Hb).
Defined.

End AlignerShape.


(** ** Span aligner: flattening and letter case *)

Section FlattenFacts.

Import PyStr Pipeline.

Lemma flatten_line_spec :
  forall line_tokens line_boxes line token,
    List.map text (flatten_line line token line_tokens line_boxes)
    = firstn (List.length line_boxes) line_tokens
    /\ List.map box (flatten_line line token line_tokens line_boxes)
       = firstn (List.length line_tokens) line_boxes
    /\ List.map token_idx (flatten_line line token line_tokens line_boxes)
       = seq token (Nat.min (List.length line_tokens) (List.length line_boxes))
    /\ Forall (fun t => line_idx t = line)
         (flatten_line line token line_tokens line_boxes).
Proof.
  induction line_tokens as [|t ts IH]; intros bs line token.
  - destruct bs; repeat split; constructor.
  - destruct bs as [|b bs]; [repeat split; constructor|].
    destruct (IH bs line (S token)) as (H1 & H2 & H3 & H4).
    cbn [flatten_line List.map List.length firstn Nat.min seq].
    rewrite H1, H2, H3. repeat split. constructor; [reflexivity | exact H4].
Qed.

(** X10. The token stream pairs the words of each line with their boxes in
    order; where a line has more words than boxes, or more boxes than
    words, the entries beyond the shorter of the two are dropped, and
    lines beyond the shorter of the two lists of lines are dropped. *)
Theorem flatten_drops_unpaired :
  forall ocr,
    List.map text (tokens_of ocr)
    = concat (List.map (fun p => firstn (List.length (snd p)) (fst p))
                (combine (text_word ocr) (text_word_boxes ocr)))
    /\ List.map box (tokens_of ocr)
       = concat (List.map (fun p => firstn (List.length (fst p)) (snd p))
                   (combine (text_word ocr) (text_word_boxes ocr)))
    /\ List.length (tokens_of ocr)
       = list_sum (List.map (fun p => Nat.min (List.length (fst p))
                                        (List.length (snd p)))
                     (combine (text_word ocr) (text_word_boxes ocr))).
Proof.
  intros ocr. unfold tokens_of.
  generalize 0%nat as line.
  generalize (text_word_boxes ocr) as box_lines.
  induction (text_word ocr) as [|lt tl IH]; intros box_lines line.
  - repeat split.
  - destruct box_lines as [|lb bl]; [repeat split|].
    destruct (IH bl (S line)) as (H1 & H2 & H3).
    destruct (flatten_line_spec lt lb line 0) as (L1 & L2 & L3 & _).
    cbn [flatten_lines combine List.map concat fst snd list_sum].
    rewrite !map_app, length_app, H1, H2, H3, L1, L2.
    repeat split. f_equal.
    rewrite <- (length_map token_idx), L3, length_seq. reflexivity.
Qed.

End FlattenFacts.

Section CaseFacts.

Import PyStr Pipeline.

Variable f : ascii -> ascii.
Hypothesis f_space : forall c, isspace (f c) = isspace c.
Hypothesis f_blank : f " "%char = " "%char.
Hypothesis f_lower : forall c, to_lower (f c) = to_lower c.






End CaseFacts.

Section CaseInsensitive.

Import PyStr Pipeline.




End CaseInsensitive.

(** ** The detection loop of the page processor *)

Section ProcessImageFacts.

Import PyStr Pipeline.

Variable ocr : ocr_dict.
Variables page_width page_height : Z.

Lemma find_raise_inv target match_case return_all e :
  find_target_bboxes target ocr match_case return_all = Raise e ->
  e = OverflowError.
Proof.
  rewrite find_unfold.
  destruct (is_empty (tokens_of ocr)); [discriminate|].
  destruct (negb (truthy (normalize match_case target))); [discriminate|].
  destruct (scan_outcomes match_case (normalize match_case target) return_all
              (tokens_of ocr) []) as [(new & Hrun & _)|Hr].
  - rewrite Hrun. discriminate.
  - rewrite Hr. intros H. inversion H. reflexivity.
Qed.

Abbreviation made_from := (Pipeline.made_from ocr page_width page_height).

Lemma process_entity_inv entity_name e :
  (forall d,
     process_entity ocr page_width page_height entity_name e = Ok (Some d) ->
     made_from entity_name e d)
  /\ (forall ex,
        process_entity ocr page_width page_height entity_name e = Raise ex ->
        ex = OverflowError \/ ex = ValueError).
Proof.
  unfold process_entity.
  destruct (entity_value e) as [v|] eqn:Hv; cbn [or_default];
    [|split; intros; discriminate].
  destruct v as [|c v]; cbn [truthy negb]; [split; intros; discriminate|].
  destruct (find_target_bboxes (String c v) ocr false false) as [val|e0] eqn:Hf.
  2:{ split; [intros; discriminate|]. intros ex H. inversion H; subst ex.
      left. exact (find_raise_inv _ _ _ _ Hf). }
  destruct val as [|[|x b]|bs]; try (split; intros; discriminate).
  destruct (CoordinateConverter.pixel_bbox_to_normalized (x :: b) page_width
              page_height) as [[[[l t] w] h]|e1] eqn:Hp.
  2:{ split; [intros; discriminate|]. intros ex H. inversion H; subst ex.
      right. exact (pixel_bbox_raise_inv _ _ _ _ Hp). }
  destruct (CoordinateConverter.validate_rect (l, t, w, h)) eqn:Hval;
    [|split; intros; discriminate].
  split; [|intros; discriminate].
  intros d H. inversion H; subst d. unfold Pipeline.made_from. cbn.
  repeat split; try assumption; try discriminate.
  all: apply validate_sound in Hval; apply Hval.
Qed.

Lemma process_entities_inv entity_name :
  forall entities acc,
    (forall out,
       process_entities ocr page_width page_height entity_name entities acc
       = Ok out ->
       exists new, out = acc ++ new
         /\ Forall (fun d => exists e, In e entities /\ made_from entity_name e d)
              new)
    /\ (forall ex,
          process_entities ocr page_width page_height entity_name entities acc
          = Raise ex -> ex = OverflowError \/ ex = ValueError).
Proof.
  induction entities as [|e rest IH]; intros acc; cbn [process_entities].
  - split; [|discriminate]. intros out H. inversion H; subst.
    exists []. rewrite app_nil_r. split; [reflexivity | constructor].
  - destruct (process_entity_inv entity_name e) as [Hok Hraise].
    destruct (process_entity ocr page_width page_height entity_name e)
      as [[d|]|e0].
    + destruct (IH (acc ++ [d])) as [IHok IHraise]. split; [|exact IHraise].
      intros out H. destruct (IHok out H) as (new & -> & Hall).
      exists (d :: new). rewrite <- app_assoc. split; [reflexivity|].
      constructor.
      * exists e. split; [left; reflexivity | apply Hok; reflexivity].
      * eapply Forall_impl; [|exact Hall].
        intros d' (e' & Hin & Hm). exists e'. split; [right; exact Hin | exact Hm].
    + destruct (IH acc) as [IHok IHraise]. split; [|exact IHraise].
      intros out H. destruct (IHok out H) as (new & -> & Hall).
      exists new. split; [reflexivity|].
      eapply Forall_impl; [|exact Hall].
      intros d' (e' & Hin & Hm). exists e'. split; [right; exact Hin | exact Hm].
    + split; [discriminate|]. intros ex H. inversion H; subst ex.
      apply Hraise. reflexivity.
Qed.

Lemma process_classified_inv :
  forall classified acc,
    (forall out,
       process_classified ocr page_width page_height classified acc = Ok out ->
       exists new, out = acc ++ new
         /\ Forall (fun d => exists entities e,
                      In (p_type d, entities) classified /\ In e entities
                      /\ made_from (p_type d) e d) new)
    /\ (forall ex,
          process_classified ocr page_width page_height classified acc
          = Raise ex -> ex = OverflowError \/ ex = ValueError).
Proof.
  induction classified as [|[entity_name entities] rest IH]; intros acc;
    cbn [process_classified].
  - split; [|discriminate]. intros out H. inversion H; subst.
    exists []. rewrite app_nil_r. split; [reflexivity | constructor].
  - destruct (process_entities_inv entity_name entities acc) as [Hok Hraise].
    destruct (process_entities ocr page_width page_height entity_name entities
                acc) as [mid|e0].
    + destruct (Hok mid eq_refl) as (new1 & -> & Hall1).
      destruct (IH (acc ++ new1)) as [IHok IHraise]. split; [|exact IHraise].
      intros out H. destruct (IHok out H) as (new2 & -> & Hall2).
      exists (new1 ++ new2). rewrite app_assoc. split; [reflexivity|].
      apply Forall_app. split.
      * eapply Forall_impl; [|exact Hall1].
        intros d (e & Hin & Hm). exists entities, e.
        assert (Ht : p_type d = entity_name) by apply Hm. rewrite Ht.
        split; [left; reflexivity|]. split; [exact Hin | exact Hm].
      * eapply Forall_impl; [|exact Hall2].
        intros d (es & e & Hin & Hine & Hm). exists es, e.
        split; [right; exact Hin|]. split; assumption.
    + split; [discriminate|]. intros ex H. inversion H; subst ex.
      apply Hraise. reflexivity.
Qed.

(** X12. Every detection that the page processor returns comes from an
    entity of the classifier's result with a non-empty value, carries
    the box that the aligner returned for that value, the rectangle
    that the conversion of this box returned, which satisfies the whole
    invariant, and the entity's confidence (50 when it has none). The
    loop raises nothing but [OverflowError] (from the aligner) and
    [ValueError] (from the conversion). A page can always be built from
    what it returns. *)
Theorem process_image_detections_valid :
  forall classified_entities,
    (forall pii_detections,
       process_image_detections ocr classified_entities page_width page_height
       = Ok pii_detections ->
       Forall (detection_ok ocr classified_entities page_width page_height)
         pii_detections
       /\ Forall AnnotationBuilder.has_coords
            (List.map as_builder_input pii_detections))
    /\ (forall ex,
          process_image_detections ocr classified_entities page_width
            page_height = Raise ex ->
          ex = OverflowError \/ ex = ValueError).
Proof.
  intros classified. unfold process_image_detections.
  destruct (process_classified_inv classified []) as [Hok Hraise].
  split; [|exact Hraise].
  intros dets H. destruct (Hok dets H) as (new & -> & Hall). cbn [app]. split.
  - eapply Forall_impl; [|exact Hall].
    intros d (es & e & Hin & Hine & Ht & Hv & Hev & Hc & Hf & Hp & Hinv).
    unfold detection_ok. split; [exact Hv|].
    split; [exists es, e; repeat split; assumption|].
    repeat split; assumption.
  - apply Forall_map. apply Forall_forall. intros d _.
    unfold as_builder_input, AnnotationBuilder.has_coords.
    destruct (p_normalized_coords d) as [[[l t] w] h]. cbn.
    exists l, t, w, h. reflexivity.
Qed.

End ProcessImageFacts.

Lemma process_image_detections_valid_witness :
  let ocr := Pipeline.one_line ["SSN:"; "123-45-6789"]
               [[10; 10; 50; 20]%Z; [60; 10; 160; 20]%Z] in
  let classified :=
    [ ("SSN", [ {| Pipeline.entity_value := Some "123-45-6789";
                   Pipeline.confidence_score := Some 98%Z |};
                {| Pipeline.entity_value := Some "000-00-0000";
                   Pipeline.confidence_score := None |} ]) ] in
  exists d,
    Pipeline.process_image_detections ocr classified 200 100 = Ok [d]
    /\ Pipeline.p_bbox_pixels d = [60; 10; 160; 20]%Z
    /\ Pipeline.detection_ok ocr classified 200 100 d.
Proof.
  intros ocr classified. eexists. split; [reflexivity|]. split; [reflexivity|].
  pose proof (proj1 (proj1 (process_image_detections_valid ocr 200 100
                              classified) _ eq_refl)) as H.
  inversion H; subst. assumption.
Defined.

(** ** The datastore manager *)

Section StoreMore.

Import AnnotationDBManager.

Variables AnnotationData json : Type.
Variable encode : AnnotationData -> json.
Variable decode : json -> result AnnotationData.
Variables DeletedRecord RecordNotFoundForDeletion : Z -> message.
Variable DeletedRecords : Z -> message.

Abbreviation row := (row json).
Abbreviation world := (world json).
Abbreviation database := (database json).
Abbreviation record := (record AnnotationData json).
Abbreviation decodable := (decodable AnnotationData json decode).
Abbreviation decode_rows := (decode_rows AnnotationData json decode).
Abbreviation read := (read AnnotationData json decode).
Abbreviation query := (query AnnotationData json decode).
Abbreviation save_to_history := (save_to_history AnnotationData json decode).
Abbreviation insert := (insert AnnotationData json encode decode).
Abbreviation update := (update AnnotationData json encode decode).
Abbreviation upsert := (upsert AnnotationData json encode decode).
Abbreviation inserted_row := (inserted_row AnnotationData json encode).
Abbreviation updated_row := (updated_row AnnotationData json encode).
Abbreviation updated_table := (updated_table AnnotationData json encode).
Abbreviation delete :=
  (delete json DeletedRecord RecordNotFoundForDeletion).
Abbreviation delete_by_filters := (delete_by_filters json DeletedRecords).
Abbreviation perform_all :=
  (perform_all AnnotationData json encode decode DeletedRecord
     RecordNotFoundForDeletion DeletedRecords).
Abbreviation perform :=
  (perform AnnotationData json encode decode DeletedRecord
     RecordNotFoundForDeletion DeletedRecords).

(** A connection that the datastore refuses raises before the body
    runs. *)
Lemma get_connection_refused {A : Type} (body : M json A) (w : world) :
  hd false (faults w) = true ->
  get_connection body w
  = (Raise DatabaseError,
     add_log ERROR (DatabaseErrorMessage DatabaseError)
       (set_faults (tl (faults w)) w)).
Proof.
  intros H. unfold get_connection.
  destruct (faults w) as [|[|] fs]; [discriminate | reflexivity | discriminate].
Qed.

Lemma rowcount_iff id (d : database) :
  (0 <? Z.of_nat (List.length
                    (filter (fun r => (ID r =? id)%Z) (annotations d))))%Z
  = true <-> exists_record id d.
Proof.
  split.
  - intros H. destruct (filter _ _) as [|r l] eqn:E; [discriminate|].
    assert (Hin : In r (filter (fun r => (ID r =? id)%Z) (annotations d)))
      by (rewrite E; left; reflexivity).
    apply filter_In in Hin as [Hin Hid]. exists r. split; [exact Hin|].
    apply Z.eqb_eq. exact Hid.
  - apply rowcount_positive.
Qed.

(** X13. [delete] on a served connection returns whether a record had the
    identifier and leaves the other records, in their order; on a
    refused connection it raises the datastore error and the datastore
    is as it was. The history table is never touched. *)
Theorem delete_removes_record :
  forall self record_id (w : world),
  exists res w',
    delete self record_id w = (res, w')
    /\ annotation_history (db w') = annotation_history (db w)
    /\ match res with
       | Ok deleted =>
           hd false (faults w) = false
           /\ (deleted = true <-> exists_record record_id (db w))
           /\ annotations (db w')
              = filter (fun r => negb (ID r =? record_id)%Z)
                  (annotations (db w))
       | Raise e =>
           hd false (faults w) = true /\ e = DatabaseError /\ db w' = db w
       end.
Proof.
  intros self id w. unfold AnnotationDBManager.delete.
  destruct (hd false (faults w)) eqn:Hf.
  - rewrite get_connection_refused by exact Hf.
    eexists _, _. split; [reflexivity|]. cbn. repeat split.
  - rewrite get_connection_served by exact Hf.
    erewrite bind_ok by reflexivity.
    cbn [db annotations set_db add_log set_faults].
    destruct (0 <? _)%Z eqn:Hn.
    + eexists _, _. split; [reflexivity|]. cbn. repeat split.
      intros _. apply rowcount_iff. exact Hn.
    + eexists _, _. split; [reflexivity|]. cbn. repeat split.
      * discriminate.
      * intros Hex. apply rowcount_iff in Hex. congruence.
Qed.

(** X14. [delete_by_filters] without any filter raises [ValueError]
    before anything happens: no connection is opened and nothing is
    logged. With a filter, on a served connection, it returns the number
    of records that satisfy every given filter and leaves the others, in
    their order. The history table is never touched. *)
Theorem delete_by_filters_needs_a_filter :
  forall self object_id field_id set_id (w : world),
  exists res w',
    delete_by_filters self object_id field_id set_id w = (res, w')
    /\ annotation_history (db w') = annotation_history (db w)
    /\ match res with
       | Ok n =>
           (object_id <> None \/ field_id <> None \/ set_id <> None)
           /\ hd false (faults w) = false
           /\ n = Z.of_nat
                    (List.length
                       (filter (where_clauses object_id field_id set_id
                                  None None) (annotations (db w))))
           /\ annotations (db w')
              = filter (fun r => negb (where_clauses object_id field_id
                                         set_id None None r))
                  (annotations (db w))
       | Raise e =>
           (object_id = None /\ field_id = None /\ set_id = None
            /\ e = ValueError /\ w' = w)
           \/ ((object_id <> None \/ field_id <> None \/ set_id <> None)
               /\ hd false (faults w) = true
               /\ e = DatabaseError /\ db w' = db w)
       end.
Proof.
  intros self oid fid sid w.
  assert (Hgiven :
    (oid <> None \/ fid <> None \/ sid <> None) ->
    exists res w',
      get_connection
        (bind (sql_delete (where_clauses oid fid sid None None))
           (fun rows_affected =>
            bind (logger INFO (DeletedRecords rows_affected))
              (fun _ => ret rows_affected))) w = (res, w')
      /\ annotation_history (db w') = annotation_history (db w)
      /\ match res with
         | Ok n =>
             (oid <> None \/ fid <> None \/ sid <> None)
             /\ hd false (faults w) = false
             /\ n = Z.of_nat
                      (List.length
                         (filter (where_clauses oid fid sid None None)
                            (annotations (db w))))
             /\ annotations (db w')
                = filter (fun r => negb (where_clauses oid fid sid
                                           None None r))
                    (annotations (db w))
         | Raise e =>
             (oid = None /\ fid = None /\ sid = None
              /\ e = ValueError /\ w' = w)
             \/ ((oid <> None \/ fid <> None \/ sid <> None)
                 /\ hd false (faults w) = true
                 /\ e = DatabaseError /\ db w' = db w)
         end).
  { intros Hg. destruct (hd false (faults w)) eqn:Hf.
    - rewrite get_connection_refused by exact Hf.
      eexists _, _. split; [reflexivity|]. cbn. split; [reflexivity|].
      right. repeat split. exact Hg.
    - rewrite get_connection_served by exact Hf.
      erewrite bind_ok by reflexivity.
      eexists _, _. split; [reflexivity|]. cbn. repeat split. exact Hg. }
  unfold AnnotationDBManager.delete_by_filters.
  destruct oid as [o|]; [apply Hgiven; left; discriminate|].
  destruct fid as [f|]; [apply Hgiven; right; left; discriminate|].
  destruct sid as [s|]; [apply Hgiven; right; right; discriminate|].
  eexists _, _. split; [reflexivity|]. cbn. split; [reflexivity|].
  left. repeat split.
Qed.

(** *** What every method keeps *)

Section Keeps.

(** A relation between the datastore before and after, which every
    statement sent to the datastore respects. *)
Variable R : database -> database -> Prop.
Hypothesis R_refl : forall d, R d d.
Hypothesis R_trans : forall d1 d2 d3, R d1 d2 -> R d2 d3 -> R d1 d3.
Hypothesis R_insert :
  forall o f s l1 l2 t j (w : world),
    R (db w) (db (snd (sql_insert o f s l1 l2 t j w))).
Hypothesis R_update :
  forall updates id (w : world),
    R (db w) (db (snd (sql_update updates id w))).
Hypothesis R_delete :
  forall cond (w : world), R (db w) (db (snd (sql_delete cond w))).
Hypothesis R_history :
  forall s o f l1 l2 u n j t (w : world),
    R (db w) (db (snd (sql_insert_history s o f l1 l2 u n j t w))).

Abbreviation keeps c :=
  (forall (w : world) res w', c w = (res, w') -> R (db w) (db w')).

Lemma keeps_same {A : Type} (c : M json A) :
  (forall w, db (snd (c w)) = db w) -> keeps c.
Proof.
  intros H w res w' E. specialize (H w). rewrite E in H. cbn in H.
  rewrite H. apply R_refl.
Qed.

Lemma keeps_step {A : Type} (c : M json A) :
  (forall w, R (db w) (db (snd (c w)))) -> keeps c.
Proof. intros H w res w' E. specialize (H w). rewrite E in H. exact H. Qed.

Lemma keeps_bind {A B : Type} (c : M json A) (k : A -> M json B) :
  keeps c -> (forall a, keeps (k a)) -> keeps (bind c k).
Proof.
  intros Hc Hk w res w'. unfold bind.
  destruct (c w) as [[a|e] w1] eqn:E; intros H.
  - apply R_trans with (db w1); [exact (Hc _ _ _ E) | exact (Hk _ _ _ _ H)].
  - inversion H; subst. exact (Hc _ _ _ E).
Qed.

Lemma keeps_try {A : Type} (c : M json A) (h : exn -> M json A) :
  keeps c -> (forall e, keeps (h e)) -> keeps (try_except c h).
Proof.
  intros Hc Hh w res w'. unfold try_except.
  destruct (c w) as [[a|e] w1] eqn:E; intros H.
  - inversion H; subst. exact (Hc _ _ _ E).
  - apply R_trans with (db w1); [exact (Hc _ _ _ E) | exact (Hh _ _ _ _ H)].
Qed.

Lemma keeps_connection {A : Type} (body : M json A) :
  keeps body -> keeps (get_connection body).
Proof.
  intros Hb w res w'. unfold get_connection.
  destruct (faults w) as [|[|] fs].
  - destruct (body _) as [[a|e] w1] eqn:E; intros H; inversion H; subst; cbn.
    + exact (Hb _ _ _ E).
    + apply R_refl.
  - intros H; inversion H; subst; cbn. apply R_refl.
  - destruct (body _) as [[a|e] w1] eqn:E; intros H; inversion H; subst; cbn.
    + exact (Hb _ _ _ E).
    + apply R_refl.
Qed.

Lemma keeps_ret {A : Type} (a : A) : keeps (ret (json := json) a).
Proof. apply keeps_same. reflexivity. Qed.

Lemma keeps_logger l m : keeps (logger (json := json) l m).
Proof. apply keeps_same. reflexivity. Qed.

Lemma keeps_decode_row r : keeps (decode_row AnnotationData json decode r).
Proof.
  apply keeps_same. intros w. unfold decode_row, bind, lift, ret.
  destruct (decode _); reflexivity.
Qed.

Lemma keeps_decode_rows rows : keeps (decode_rows rows).
Proof.
  induction rows as [|r rows IH]; [apply keeps_ret|].
  cbn [AnnotationDBManager.decode_rows].
  apply keeps_bind; [apply keeps_decode_row|]. intros x.
  apply keeps_bind; [exact IH|]. intros xs. apply keeps_ret.
Qed.

Lemma keeps_read self id : keeps (read self id).
Proof.
  apply keeps_connection, keeps_bind; [apply keeps_same; reflexivity|].
  intros [r|].
  - apply keeps_bind; [apply keeps_decode_row|]. intros x.
    apply keeps_bind; [apply keeps_logger|]. intros _. apply keeps_ret.
  - apply keeps_bind; [apply keeps_logger|]. intros _. apply keeps_ret.
Qed.

Lemma keeps_query self o f s l1 l2 limit :
  keeps (query self o f s l1 l2 limit).
Proof.
  apply keeps_connection, keeps_bind; [apply keeps_same; reflexivity|].
  intros rows. apply keeps_bind; [apply keeps_decode_rows|]. intros xs.
  apply keeps_bind; [apply keeps_logger|]. intros _. apply keeps_ret.
Qed.

Lemma keeps_save_to_history self id : keeps (save_to_history self id).
Proof.
  unfold AnnotationDBManager.save_to_history.
  destruct (negb _); [apply keeps_same; reflexivity|].
  apply keeps_bind; [apply keeps_read|]. intros [src|].
  - apply keeps_bind; [apply keeps_same; reflexivity|]. intros t.
    apply keeps_connection, keeps_bind;
      [apply keeps_step; intros w; apply R_history|].
    intros h. apply keeps_bind; [apply keeps_logger|]. intros _.
    apply keeps_ret.
  - apply keeps_bind; [apply keeps_logger|]. intros _. apply keeps_ret.
Qed.

Lemma keeps_history_step self id (mk : exn -> message) :
  keeps (if history_configured self
         then try_except
                (bind (save_to_history self id) (fun _ => ret tt))
                (fun e => logger WARNING (mk e))
         else ret tt).
Proof.
  destruct (history_configured self); [|apply keeps_ret].
  apply keeps_try.
  - apply keeps_bind; [apply keeps_save_to_history|]. intros _.
    apply keeps_ret.
  - intros e. apply keeps_logger.
Qed.

Lemma keeps_insert self a o f s l1 l2 : keeps (insert self a o f s l1 l2).
Proof.
  apply keeps_bind; [apply keeps_same; reflexivity|]. intros t.
  apply keeps_bind.
  - apply keeps_connection, keeps_bind;
      [apply keeps_step; intros w; apply R_insert|].
    intros id. apply keeps_bind; [apply keeps_logger|]. intros _.
    apply keeps_ret.
  - intros id. apply keeps_bind; [apply keeps_history_step|]. intros _.
    apply keeps_ret.
Qed.

Lemma keeps_update self id a o f s l1 l2 :
  keeps (update self id a o f s l1 l2).
Proof.
  rewrite update_unfold.
  destruct (AnnotationDBManager.update_clauses _ _ _ _ _ _ _ _ _).
  - apply keeps_bind; [apply keeps_logger|]. intros _. apply keeps_ret.
  - apply keeps_bind; [apply keeps_same; reflexivity|]. intros t.
    apply keeps_bind.
    + apply keeps_connection, keeps_step. intros w. apply R_update.
    + intros n. destruct (0 <? n)%Z.
      * apply keeps_bind; [apply keeps_logger|]. intros _.
        apply keeps_bind; [apply keeps_history_step|]. intros _.
        apply keeps_ret.
      * apply keeps_bind; [apply keeps_logger|]. intros _. apply keeps_ret.
Qed.

Lemma keeps_upsert self a o f s l1 l2 : keeps (upsert self a o f s l1 l2).
Proof.
  apply keeps_bind; [apply keeps_query|]. intros [|first rest].
  - apply keeps_bind; [apply keeps_logger|]. intros _.
    apply keeps_bind; [apply keeps_insert|]. intros id. apply keeps_ret.
  - apply keeps_bind; [apply keeps_logger|]. intros _.
    apply keeps_bind; [apply keeps_update|]. intros b. apply keeps_ret.
Qed.

Lemma keeps_delete self id : keeps (delete self id).
Proof.
  apply keeps_connection, keeps_bind;
    [apply keeps_step; intros w; apply R_delete|].
  intros n. destruct (0 <? n)%Z;
    (apply keeps_bind; [apply keeps_logger|]); intros _; apply keeps_ret.
Qed.

Lemma keeps_delete_by_filters self o f s :
  keeps (delete_by_filters self o f s).
Proof.
  assert (H : keeps (get_connection
            (bind (sql_delete (where_clauses o f s None None))
               (fun rows_affected =>
                bind (logger INFO (DeletedRecords rows_affected))
                  (fun _ => ret rows_affected))))).
  { apply keeps_connection, keeps_bind;
      [apply keeps_step; intros w; apply R_delete|].
    intros n. apply keeps_bind; [apply keeps_logger|]. intros _.
    apply keeps_ret. }
  unfold AnnotationDBManager.delete_by_filters.
  destruct o; [exact H|]. destruct f; [exact H|]. destruct s; [exact H|].
  apply keeps_same. reflexivity.
Qed.

Lemma keeps_after {A : Type} (c : M json A) (w : world) :
  keeps c -> R (db w) (db (after c w)).
Proof.
  intros H. unfold after. destruct (c w) as [res w'] eqn:E.
  exact (H _ _ _ E).
Qed.

Lemma keeps_perform self c (w : world) : R (db w) (db (perform self c w)).
Proof.
  destruct c; cbn [AnnotationDBManager.perform]; apply keeps_after.
  - apply keeps_insert.
  - apply keeps_update.
  - apply keeps_read.
  - apply keeps_query.
  - apply keeps_delete.
  - apply keeps_delete_by_filters.
  - apply keeps_save_to_history.
  - apply keeps_upsert.
Qed.

Lemma keeps_perform_all self calls (w : world) :
  R (db w) (db (perform_all self calls w)).
Proof.
  revert w. induction calls as [|c calls IH]; intros w; [apply R_refl|].
  cbn. apply R_trans with (db (perform self c w));
    [apply keeps_perform | apply IH].
Qed.

End Keeps.

(** X15. Whatever calls are made, with whatever arguments and however
    the datastore fails, the rows that the history table held are still
    there, unchanged and in their place: history rows are only ever
    added at the end. *)
Theorem history_is_append_only :
  forall self calls (w : world),
    history_extends (db w) (db (perform_all self calls w)).
Proof.
  intros self calls w. apply keeps_perform_all.
  - intros d. exists []. symmetry. apply app_nil_r.
  - intros d1 d2 d3 [a Ha] [b Hb]. exists (a ++ b).
    rewrite Hb, Ha. symmetry. apply app_assoc.
  - intros. exists []. symmetry. apply app_nil_r.
  - intros. exists []. symmetry. apply app_nil_r.
  - intros. exists []. symmetry. apply app_nil_r.
  - intros. eexists. reflexivity.
Qed.

Lemma assign_keeps_id (r : row) a : ID (assign r a) = ID r.
Proof. destruct a; reflexivity. Qed.

Lemma assigns_keep_id updates (r : row) :
  ID (fold_left assign updates r) = ID r.
Proof.
  revert r. induction updates as [|a l IH]; intros r; [reflexivity|].
  cbn. rewrite IH. apply assign_keeps_id.
Qed.

Lemma NoDup_map_filter (f : row -> bool) (l : list row) :
  NoDup (List.map ID l) -> NoDup (List.map ID (filter f l)).
Proof.
  induction l as [|x l IH]; intros H; [constructor|].
  inversion H as [|? ? Hx Hl]; subst. cbn. destruct (f x).
  - cbn. constructor; [|apply IH; exact Hl].
    intros Hin. apply Hx. apply in_map_iff in Hin as (y & Hy & Hin).
    apply in_map_iff. exists y. split; [exact Hy|].
    apply filter_In in Hin. apply Hin.
  - apply IH. exact Hl.
Qed.

(** X16. Whatever calls are made and however the datastore fails, no two
    records come to share an identifier: if identifiers are unique and
    below the identity counter before, they are so after. *)
Theorem identifiers_stay_unique :
  forall self calls (w : world),
    unique_ids (db w) -> unique_ids (db (perform_all self calls w)).
Proof.
  intros self calls w.
  apply (keeps_perform_all (fun d d' => unique_ids d -> unique_ids d')).
  - auto.
  - auto.
  - intros o f s l1 l2 t j w0 [Hnd Hfresh]. cbn. split; cbn.
    + rewrite map_app. cbn.
      apply NoDup_app_remove_l with (l := []). cbn.
      apply Permutation_NoDup with (l := identity (db w0)
                                          :: List.map ID (annotations (db w0))).
      { apply Permutation_cons_append. }
      constructor; [|exact Hnd].
      intros Hin. apply in_map_iff in Hin as (y & Hy & Hin).
      unfold identity_fresh in Hfresh. rewrite Forall_forall in Hfresh.
      specialize (Hfresh y Hin). lia.
    + unfold identity_fresh in *. cbn. apply Forall_app. split.
      * eapply Forall_impl; [|exact Hfresh]. cbn. intros; lia.
      * constructor; [cbn; lia | constructor].
  - intros updates id w0 [Hnd Hfresh]. split; cbn.
    + rewrite map_map.
      erewrite map_ext; [exact Hnd|]. intros r. cbn.
      destruct (ID r =? id)%Z; [apply assigns_keep_id | reflexivity].
    + unfold identity_fresh in *. cbn. rewrite Forall_map.
      eapply Forall_impl; [|exact Hfresh]. cbn. intros r Hr.
      destruct (ID r =? id)%Z; [rewrite assigns_keep_id|]; exact Hr.
  - intros cond w0 [Hnd Hfresh]. split; cbn.
    + apply NoDup_map_filter. exact Hnd.
    + unfold identity_fresh in *. cbn. rewrite Forall_forall in *.
      intros r Hr. apply filter_In in Hr. apply Hfresh, Hr.
  - intros s o f l1 l2 u n j t w0 H. exact H.
Qed.

(** *** Reading back *)

Lemma find_filter_other id (l : list row) :
  find (fun r => (ID r =? id)%Z)
    (filter (fun r => negb (ID r =? id)%Z) l) = None.
Proof.
  induction l as [|x l IH]; [reflexivity|].
  cbn. destruct (ID x =? id)%Z eqn:E; cbn; [exact IH|].
  rewrite E. exact IH.
Qed.

Lemma read_served self id (w : world) :
  hd false (faults w) = false ->
  read self id w
  = match find (fun r => (ID r =? id)%Z) (annotations (db w)) with
    | None =>
        (Ok None,
         add_log DEBUG ConnectionClosed
           (add_log WARNING (RecordNotFound id)
              (add_log DEBUG ConnectionEstablished
                 (set_faults (tl (faults w)) w))))
    | Some r =>
        match decode (ANNOT_DATA r) with
        | Ok a =>
            (Ok (Some {| columns := r; Annot_data := a |}),
             add_log DEBUG ConnectionClosed
               (add_log INFO (RetrievedRecord id)
                  (add_log DEBUG ConnectionEstablished
                     (set_faults (tl (faults w)) w))))
        | Raise e =>
            (Raise e,
             add_log DEBUG ConnectionClosed
               (add_log ERROR (DatabaseErrorMessage e)
                  (set_db (db w)
                     (add_log DEBUG ConnectionEstablished
                        (set_faults (tl (faults w)) w)))))
        end
    end.
Proof.
  intros Hf. unfold AnnotationDBManager.read.
  rewrite get_connection_served by exact Hf.
  erewrite bind_ok by reflexivity.
  cbn [db annotations set_db add_log set_faults].
  destruct (find _ _) as [r|]; [|reflexivity].
  unfold decode_row, lift. unfold bind at 1. unfold bind at 1.
  destruct (decode _); reflexivity.
Qed.

(** X17. A record that [delete] was called for cannot be read back:
    when both connections are served, [read] of the same identifier
    returns [None] and raises nothing, whether or not [delete] found a
    record. *)
Theorem read_after_delete :
  forall self record_id (w : world),
    hd false (faults w) = false ->
    hd false (tl (faults w)) = false ->
    exists deleted w1 w2,
      delete self record_id w = (Ok deleted, w1)
      /\ read self record_id w1 = (Ok None, w2)
      /\ db w2 = db w1.
Proof.
  intros self id w Hf Hf'. unfold AnnotationDBManager.delete.
  rewrite get_connection_served by exact Hf.
  erewrite bind_ok by reflexivity.
  destruct (0 <? _)%Z;
    (eexists _, _, _; split; [reflexivity|];
     rewrite read_served by exact Hf';
     cbn [db annotations set_db add_log set_faults sql_delete snd];
     rewrite find_filter_other; split; reflexivity).
Qed.

Lemma insert_unrecorded self a oid fid sid l1 l2 (w : world) :
  history_configured self = false ->
  hd false (faults w) = false ->
  exists w',
    insert self a oid fid sid l1 l2 w = (Ok (identity (db w)), w')
    /\ annotations (db w')
       = annotations (db w) ++ [inserted_row a oid fid sid l1 l2 w]
    /\ annotation_history (db w') = annotation_history (db w)
    /\ faults w' = tl (faults w).
Proof.
  intros Hc Hf. unfold AnnotationDBManager.insert.
  erewrite bind_ok by reflexivity.
  erewrite bind_ok
    by (rewrite get_connection_served by exact Hf; reflexivity).
  rewrite Hc. eexists. split; [reflexivity|]. cbn. repeat split.
Qed.

(** X18. What [insert] stored is what [read] returns: with a datastore
    that does not fail and fresh identifiers, [read] of the identifier
    that [insert] returned gives the inserted columns, stamped with the
    time of the call, and the payload as it decodes. *)
Theorem read_after_insert :
  forall self annot_data object_id field_id set_id lookup_info1 lookup_info2
         (w : world) decoded,
    faults w = [] ->
    identity_fresh (db w) ->
    decode (encode annot_data) = Ok decoded ->
    exists record_id w1 w2,
      insert self annot_data object_id field_id set_id lookup_info1
        lookup_info2 w = (Ok record_id, w1)
      /\ read self record_id w1
         = (Ok (Some {| columns :=
                          {| ID := record_id; OBJECT_ID := object_id;
                             FIELD_ID := field_id; SET_ID := set_id;
                             LOOKUP_INFO1 := lookup_info1;
                             LOOKUP_INFO2 := lookup_info2;
                             UPDATED := clock w;
                             ANNOT_DATA := encode annot_data |};
                        Annot_data := decoded |}), w2).
Proof.
  intros self a oid fid sid l1 l2 w a' Hf Hfresh Hdec.
  assert (Hins : exists w1,
    insert self a oid fid sid l1 l2 w = (Ok (identity (db w)), w1)
    /\ annotations (db w1)
       = annotations (db w) ++ [inserted_row a oid fid sid l1 l2 w]
    /\ faults w1 = []).
  { destruct (history_configured self) eqn:Hc.
    - destruct (insert_ok AnnotationData json encode decode self a oid fid sid
                  l1 l2 w Hc Hf Hfresh (ex_intro _ a' Hdec))
        as (w1 & Hrun & Ha & _ & _ & Hf1).
      exists w1. repeat split; assumption.
    - destruct (insert_unrecorded self a oid fid sid l1 l2 w Hc)
        as (w1 & Hrun & Ha & _ & Hf1); [rewrite Hf; reflexivity|].
      exists w1. repeat split; try assumption. rewrite Hf1, Hf. reflexivity. }
  destruct Hins as (w1 & Hrun & Ha & Hf1).
  exists (identity (db w)), w1. eexists. split; [exact Hrun|].
  rewrite read_served by (rewrite Hf1; reflexivity).
  rewrite Ha.
  change (identity (db w))
    with (ID (inserted_row a oid fid sid l1 l2 w)) at 1.
  rewrite find_app_fresh by exact Hfresh.
  cbn [ANNOT_DATA AnnotationDBManager.inserted_row]. rewrite Hdec.
  reflexivity.
Qed.

(** *** Query results *)

Abbreviation newer_first := (fun r r' : row => (ID r' <= ID r)%Z).

Lemma insert_desc_perm (r : row) l :
  Permutation (insert_desc json r l) (r :: l).
Proof.
  induction l as [|x l IH]; [reflexivity|].
  cbn. destruct (ID x <=? ID r)%Z; [reflexivity|].
  rewrite IH. apply perm_swap.
Qed.

Lemma order_perm (l : list row) : Permutation (order_by_id_desc l) l.
Proof.
  induction l as [|x l IH]; [reflexivity|].
  cbn. rewrite insert_desc_perm. constructor. exact IH.
Qed.

Lemma insert_desc_sorted (r : row) l :
  StronglySorted newer_first l ->
  StronglySorted newer_first (insert_desc json r l).
Proof.
  induction l as [|x l IH]; intros H; cbn.
  - repeat constructor.
  - inversion H as [|? ? Hl Hx]; subst.
    destruct (Z.leb_spec (ID x) (ID r)) as [Hle|Hgt].
    + constructor; [exact H|]. constructor; [exact Hle|].
      eapply Forall_impl; [|exact Hx]. cbn. intros; lia.
    + constructor; [apply IH; exact Hl|].
      eapply Permutation_Forall;
        [symmetry; apply insert_desc_perm|].
      constructor; [lia | exact Hx].
Qed.

Lemma order_sorted (l : list row) :
  StronglySorted newer_first (order_by_id_desc l).
Proof.
  induction l as [|x l IH]; [constructor|].
  cbn. apply insert_desc_sorted. exact IH.
Qed.

Lemma decode_rows_spec (rows : list row) (w : world) :
  Forall decodable rows ->
  exists recs,
    decode_rows rows w = (Ok recs, w)
    /\ List.map columns recs = rows
    /\ Forall (fun x => decode (ANNOT_DATA (columns x)) = Ok (Annot_data x))
         recs.
Proof.
  induction rows as [|r rows IH]; intros H.
  - exists []. repeat split. constructor.
  - inversion H as [|? ? (a & Hr) Hrows]; subst.
    destruct (IH Hrows) as (recs & Hrun & Hcols & Hall).
    eexists. cbn [AnnotationDBManager.decode_rows]. unfold decode_row, lift.
    unfold bind at 1. unfold bind at 1. rewrite Hr. unfold ret at 1.
    erewrite bind_ok by exact Hrun. split; [reflexivity|]. split.
    + cbn. rewrite Hcols. reflexivity.
    + constructor; [exact Hr | exact Hall].
Qed.

(** X19. [query] returns the newest matching records: on a served
    connection and with payloads that decode, the records returned,
    followed by the matching records left out, are the records that
    satisfy every given filter, in the order of decreasing identifier.
    Without a limit none is left out; with a limit of [n] rows the
    first [n] are returned, or all when there are fewer. Each record
    carries its decoded payload and the datastore is not changed. *)
Theorem query_returns_newest_matching :
  forall self object_id field_id set_id lookup_info1 lookup_info2 limit
         (w : world),
    hd false (faults w) = false ->
    Forall decodable (annotations (db w)) ->
    limit <> Some 0%nat ->
    exists recs left_out w',
      query self object_id field_id set_id lookup_info1 lookup_info2 limit w
      = (Ok recs, w')
      /\ db w' = db w
      /\ Permutation (List.map columns recs ++ left_out)
           (filter (where_clauses object_id field_id set_id lookup_info1
                      lookup_info2) (annotations (db w)))
      /\ StronglySorted newer_first (List.map columns recs ++ left_out)
      /\ List.length recs
         = match limit with
           | Some n =>
               Nat.min n
                 (List.length
                    (filter (where_clauses object_id field_id set_id
                               lookup_info1 lookup_info2)
                       (annotations (db w))))
           | None =>
               List.length
                 (filter (where_clauses object_id field_id set_id
                            lookup_info1 lookup_info2) (annotations (db w)))
           end
      /\ Forall (fun x => decode (ANNOT_DATA (columns x)) = Ok (Annot_data x))
           recs.
Proof.
  intros self oid fid sid l1 l2 limit w Hf Hdec _.
  unfold AnnotationDBManager.query.
  rewrite get_connection_served by exact Hf.
  erewrite bind_ok by reflexivity.
  set (W := add_log DEBUG ConnectionEstablished
              (set_faults (tl (faults w)) w)).
  change (annotations (db W)) with (annotations (db w)).
  set (matching := filter (where_clauses oid fid sid l1 l2)
                     (annotations (db w))).
  set (sorted := order_by_id_desc matching).
  assert (Hsel : Forall decodable (fetch_next limit sorted)).
  { apply Forall_forall. intros r Hr.
    rewrite Forall_forall in Hdec. apply Hdec.
    assert (Hin : In r sorted).
    { destruct limit as [n|]; [|exact Hr].
      cbn in Hr. rewrite <- (firstn_skipn n sorted).
      apply in_or_app. left. exact Hr. }
    apply (Permutation_in _ (order_perm matching)) in Hin.
    apply filter_In in Hin. apply Hin. }
  destruct (decode_rows_spec _ W Hsel) as (recs & Hrun & Hcols & Hall).
  erewrite bind_ok by exact Hrun.
  erewrite bind_ok by reflexivity.
  exists recs,
    (match limit with Some n => skipn n sorted | None => [] end).
  eexists. split; [reflexivity|]. split; [reflexivity|].
  assert (Hjoin :
    List.map columns recs
    ++ match limit with Some n => skipn n sorted | None => [] end = sorted).
  { rewrite Hcols. destruct limit as [n|]; cbn.
    - apply firstn_skipn.
    - apply app_nil_r. }
  rewrite Hjoin. split; [apply order_perm|]. split; [apply order_sorted|].
  split; [|exact Hall].
  rewrite <- (length_map columns), Hcols.
  assert (Hlen : List.length sorted = List.length matching)
    by (apply Permutation_length, order_perm).
  destruct limit as [n|]; cbn; [|exact Hlen].
  rewrite length_firstn, Hlen. reflexivity.
Qed.

(** *** History copies *)

Lemma save_to_history_run self id (w : world) :
  history_configured self = true ->
  faults w = [] ->
  exists res w',
    save_to_history self id w = (res, w')
    /\ annotations (db w') = annotations (db w)
    /\ identity (db w') = identity (db w)
    /\ faults w' = []
    /\ match find (fun r => (ID r =? id)%Z) (annotations (db w)) with
       | None =>
           res = Ok None
           /\ annotation_history (db w') = annotation_history (db w)
           /\ In (WARNING, CannotSaveToHistory id) (log w')
       | Some r =>
           match decode (ANNOT_DATA r) with
           | Ok _ =>
               res = Ok (Some (history_identity (db w)))
               /\ annotation_history (db w')
                  = annotation_history (db w)
                    ++ [history_copy (history_identity (db w)) r (clock w)]
           | Raise e =>
               res = Raise e
               /\ annotation_history (db w') = annotation_history (db w)
           end
       end.
Proof.
  intros Hc Hf. unfold AnnotationDBManager.save_to_history. rewrite Hc.
  cbn [negb]. unfold bind at 1.
  rewrite read_served by (rewrite Hf; reflexivity).
  destruct (find _ _) as [r|].
  - destruct (decode _) as [a|e].
    + erewrite bind_ok by reflexivity.
      rewrite get_connection_served by (cbn; rewrite Hf; reflexivity).
      erewrite bind_ok by reflexivity.
      eexists _, _. split; [reflexivity|]. cbn. rewrite Hf. repeat split.
    + eexists _, _. split; [reflexivity|]. cbn. rewrite Hf. repeat split.
  - eexists _, _. split; [reflexivity|]. cbn. rewrite Hf. repeat split.
    rewrite !in_app_iff. cbn. auto.
Qed.

(** X20. [save_to_history] without a configured history table raises
    [ValueError] before anything happens. With one, and a datastore
    that does not fail: for an identifier that no record has it returns
    [None], logs a warning and adds nothing; for a record whose payload
    decodes it adds one row, the copy of the record's key and payload
    under user 0, [System], stamped with the time of the call, and
    returns the new history identifier; for a record whose payload does
    not decode it raises the decoding error and adds nothing. The
    annotations table is never changed. *)
Theorem save_to_history_copies_record :
  forall self record_id (w : world),
    faults w = [] ->
    exists res w',
      save_to_history self record_id w = (res, w')
      /\ annotations (db w') = annotations (db w)
      /\ if history_configured self then
           match find (fun r => (ID r =? record_id)%Z)
                   (annotations (db w)) with
           | None =>
               res = Ok None
               /\ annotation_history (db w') = annotation_history (db w)
               /\ In (WARNING, CannotSaveToHistory record_id) (log w')
           | Some r =>
               match decode (ANNOT_DATA r) with
               | Ok _ =>
                   res = Ok (Some (history_identity (db w)))
                   /\ annotation_history (db w')
                      = annotation_history (db w)
                        ++ [{| HISTID := history_identity (db w);
                               H_SET_ID := SET_ID r;
                               H_OBJECT_ID := OBJECT_ID r;
                               H_FIELD_ID := FIELD_ID r;
                               H_LOOKUP_INFO1 := LOOKUP_INFO1 r;
                               H_LOOKUP_INFO2 := LOOKUP_INFO2 r;
                               USERID := 0; USERNAME := "System";
                               H_ANNOT_DATA := ANNOT_DATA r;
                               MODIFIED := clock w |}]
               | Raise e =>
                   res = Raise e
                   /\ annotation_history (db w') = annotation_history (db w)
               end
           end
         else res = Raise ValueError /\ w' = w.
Proof.
  intros self id w Hf. destruct (history_configured self) eqn:Hc.
  - destruct (save_to_history_run self id w Hc Hf)
      as (res & w' & Hrun & Ha & _ & _ & Hcases).
    exists res, w'. split; [exact Hrun|]. split; [exact Ha|].
    exact Hcases.
  - unfold AnnotationDBManager.save_to_history. rewrite Hc.
    eexists _, _. split; [reflexivity|]. repeat split.
Qed.

(** X21. The history copy that [insert] makes is read back from the
    datastore, so it is made only of a payload that decodes. With a
    history table and a datastore that does not fail, [insert] stores
    the record and returns its identifier in both cases; when the
    serialized payload decodes, the history table receives the copy of
    the new record, and when it does not, the history table is as it
    was and the decoding error is logged as a warning. *)
Theorem insert_history_follows_decoding :
  forall self annot_data object_id field_id set_id lookup_info1 lookup_info2
         (w : world),
    history_configured self = true ->
    faults w = [] ->
    identity_fresh (db w) ->
    exists w',
      insert self annot_data object_id field_id set_id lookup_info1
        lookup_info2 w = (Ok (identity (db w)), w')
      /\ annotations (db w')
         = annotations (db w)
           ++ [inserted_row annot_data object_id field_id set_id
                 lookup_info1 lookup_info2 w]
      /\ match decode (encode annot_data) with
         | Ok _ =>
             annotation_history (db w')
             = annotation_history (db w)
               ++ [history_copy (history_identity (db w))
                     (inserted_row annot_data object_id field_id set_id
                        lookup_info1 lookup_info2 w) (clock w + 1)]
         | Raise e =>
             annotation_history (db w') = annotation_history (db w)
             /\ In (WARNING, HistoryFailedAfterInsert (identity (db w)) e)
                  (log w')
         end.
Proof.
  intros self a oid fid sid l1 l2 w Hc Hf Hfresh.
  unfold AnnotationDBManager.insert.
  erewrite bind_ok by reflexivity.
  erewrite bind_ok
    by (rewrite get_connection_served by (cbn; rewrite Hf; reflexivity);
        reflexivity).
  cbn [db annotations identity set_db add_log set_faults].
  rewrite Hc.
  match goal with
  | |- exists w', bind (try_except _ _) _ ?W = _ /\ _ =>
      destruct (save_to_history_run self (identity (db w)) W Hc)
        as (res & w1 & Hrun & Ha & _ & _ & Hcases);
        [cbn; rewrite Hf; reflexivity|]
  end.
  cbn [db annotations annotation_history history_identity clock set_db
       add_log set_faults sql_insert snd now] in Ha, Hcases.
  change (identity (db w))
    with (ID (inserted_row a oid fid sid l1 l2 w)) in Hcases at 1.
  rewrite find_app_fresh in Hcases by exact Hfresh.
  cbn [ANNOT_DATA AnnotationDBManager.inserted_row] in Hcases.
  unfold bind at 1. unfold try_except. unfold bind at 1. rewrite Hrun.
  destruct (decode (encode a)) as [a'|e].
  - destruct Hcases as [-> Hh]. eexists. split; [reflexivity|].
    cbn. split; [exact Ha | exact Hh].
  - destruct Hcases as [-> Hh]. eexists. split; [reflexivity|].
    cbn. split; [exact Ha|]. split; [exact Hh|].
    apply in_or_app. right. left. reflexivity.
Qed.

Lemma find_updated_first annot_data object_id field_id set_id l1 l2 t id
    (l : list row) r :
  find (fun x => (ID x =? id)%Z) l = Some r ->
  find (fun x => (ID x =? id)%Z)
    (updated_table annot_data object_id field_id set_id l1 l2 t id l)
  = Some (updated_row annot_data object_id field_id set_id l1 l2 t r).
Proof.
  induction l as [|x l IH]; [discriminate|].
  cbn. destruct (ID x =? id)%Z eqn:E.
  - intros H. inversion H; subst x. cbn. rewrite E. reflexivity.
  - intros H. rewrite E. apply IH. exact H.
Qed.

(** X22. The history copy that [update] makes holds the record as
    updated, not as it was: with a history table and a datastore that
    does not fail, a call that gives some field for an existing record
    whose new payload decodes returns true and adds one history row,
    the copy of the updated record, stamped after the update. *)
Theorem update_history_holds_new_state :
  forall self record_id annot_data object_id field_id set_id lookup_info1
         lookup_info2 (w : world) r,
    history_configured self = true ->
    faults w = [] ->
    some_field annot_data object_id field_id set_id lookup_info1
      lookup_info2 ->
    find (fun x => (ID x =? record_id)%Z) (annotations (db w)) = Some r ->
    decodable (updated_row annot_data object_id field_id set_id lookup_info1
                 lookup_info2 (clock w) r) ->
    exists w',
      update self record_id annot_data object_id field_id set_id lookup_info1
        lookup_info2 w = (Ok true, w')
      /\ annotation_history (db w')
         = annotation_history (db w)
           ++ [history_copy (history_identity (db w))
                 (updated_row annot_data object_id field_id set_id
                    lookup_info1 lookup_info2 (clock w) r) (clock w + 1)].
Proof.
  intros self id a oid fid sid l1 l2 w r Hc Hf Hsome Hfind Hdec.
  assert (Hex : exists_record id (db w)).
  { apply find_some in Hfind as [Hin Hid]. exists r. split; [exact Hin|].
    apply Z.eqb_eq. exact Hid. }
  rewrite update_unfold.
  pose proof (clauses_nonempty AnnotationData json encode a oid fid sid
                l1 l2 Hsome) as Hne.
  destruct (AnnotationDBManager.update_clauses _ _ _ _ _ _ _ _ _)
    as [|c cs] eqn:Hclauses; [congruence|].
  rewrite <- Hclauses. clear Hne.
  erewrite bind_ok by reflexivity.
  erewrite bind_ok
    by (rewrite get_connection_served by (cbn; rewrite Hf; reflexivity);
        reflexivity).
  cbn [db annotations set_db add_log set_faults].
  rewrite (rowcount_positive json id (db w) Hex).
  erewrite bind_ok by reflexivity.
  rewrite Hc.
  match goal with
  | |- exists w', bind (try_except _ _) _ ?W = _ /\ _ =>
      destruct (history_step_ok AnnotationData json decode self id
                  HistoryFailedAfterUpdate W
                  (updated_row a oid fid sid l1 l2 (clock w) r) Hc)
        as (w' & Hrun & _ & _ & Hh & _)
  end.
  { cbn. rewrite Hf. reflexivity. }
  { cbn [db annotations set_db add_log set_faults sql_update snd now].
    erewrite map_ext; [apply find_updated_first; exact Hfind|].
    intros x. cbn. destruct (ID x =? id)%Z; [|reflexivity].
    apply assign_clauses. }
  { exact Hdec. }
  erewrite bind_ok by exact Hrun.
  exists w'. split; [reflexivity|]. exact Hh.
Qed.

(** *** Upsert on a key that holds records *)

Lemma sorted_head_newest (x : row) l (l0 : list row) :
  StronglySorted newer_first (x :: l) ->
  Permutation (x :: l) l0 ->
  In x l0 /\ forall r, In r l0 -> (ID r <= ID x)%Z.
Proof.
  intros Hs Hp. split.
  - apply (Permutation_in _ Hp). left. reflexivity.
  - intros r Hr. apply (Permutation_in _ (Permutation_sym Hp)) in Hr.
    inversion Hs as [|? ? _ Hall]; subst.
    destruct Hr as [<-|Hr]; [lia|].
    rewrite Forall_forall in Hall. apply Hall. exact Hr.
Qed.

(** X23. [upsert] never adds a record under a key that already holds
    one. With a datastore that does not fail and payloads that decode,
    when records are stored under the key, however many, it returns the
    greatest of their identifiers with [was_new_insert] false, and the
    table is the one that an update of the payload of that record
    leaves: no record is added or removed, and the records with other
    identifiers are as they were. *)
Theorem upsert_updates_newest_record :
  forall self annot_data object_id field_id set_id lookup_info1 lookup_info2
         (w : world),
    faults w = [] ->
    Forall decodable (annotations (db w)) ->
    current_records object_id field_id set_id lookup_info1 lookup_info2
      (db w) <> [] ->
    exists record_id w',
      upsert self annot_data object_id field_id set_id lookup_info1
        lookup_info2 w = (Ok (record_id, false), w')
      /\ (exists r,
            In r (current_records object_id field_id set_id lookup_info1
                    lookup_info2 (db w))
            /\ ID r = record_id)
      /\ (forall r,
            In r (current_records object_id field_id set_id lookup_info1
                    lookup_info2 (db w)) ->
            (ID r <= record_id)%Z)
      /\ annotations (db w')
         = updated_table (Some annot_data) None None None None None
             (clock w) record_id (annotations (db w)).
Proof.
  intros self a oid fid sid l1 l2 w Hf Hdec Hne.
  unfold current_records in *.
  set (matching := filter (where_clauses (Some oid) (Some fid) (Some sid)
                             (Some l1) (Some l2)) (annotations (db w))) in *.
  pose proof (order_perm matching) as Hperm.
  pose proof (order_sorted matching) as Hsorted.
  destruct (order_by_id_desc matching) as [|x rest] eqn:Hord.
  { apply Permutation_nil in Hperm. congruence. }
  destruct (sorted_head_newest x rest matching Hsorted Hperm)
    as [Hin Hmax].
  assert (Hx : In x (annotations (db w)))
    by (apply filter_In in Hin; apply Hin).
  destruct (query_ok AnnotationData json decode self (Some oid) (Some fid)
              (Some sid) (Some l1) (Some l2) (Some 1%nat) w Hf)
    as (recs & w0 & Hq & Hcols & Hdb & Hck & Hf0).
  { fold matching. rewrite Hord. cbn. constructor; [|constructor].
    rewrite Forall_forall in Hdec. apply Hdec. exact Hx. }
  fold matching in Hcols. rewrite Hord in Hcols. cbn in Hcols.
  apply map_columns_one in Hcols as (first & -> & Hfirst).
  unfold AnnotationDBManager.upsert.
  erewrite bind_ok by exact Hq. cbv beta iota zeta.
  erewrite bind_ok by reflexivity.
  rewrite Hfirst.
  match goal with
  | |- context [bind (AnnotationDBManager.update _ _ _ _ _ _ _ _ _ _ _ _)
                  _ ?W] =>
      destruct (update_existing AnnotationData json encode decode self (ID x)
                  (Some a) None None None None None W)
        as (w' & Hrun & Ha & _)
  end.
  { cbn. rewrite Hf0. reflexivity. }
  { left. discriminate. }
  { exists x. cbn. rewrite Hdb. split; [exact Hx | reflexivity]. }
  erewrite bind_ok by exact Hrun.
  exists (ID x), w'. split; [reflexivity|].
  split; [exists x; split; [exact Hin | reflexivity]|].
  split; [exact Hmax|].
  cbn in Ha. rewrite Hdb, Hck in Ha. exact Ha.
Qed.

(** *** A refused connection *)

(** X24. When the datastore refuses the first connection of a call,
    [insert], [update] of some field, [upsert], [read] and [query]
    raise the datastore error, the datastore is as it was, and no
    second connection is tried: no history copy is attempted and the
    call is not repeated. *)
Theorem refused_connection_changes_nothing :
  forall self (w : world),
    hd false (faults w) = true ->
    (forall annot_data object_id field_id set_id lookup_info1 lookup_info2,
       exists w',
         insert self annot_data object_id field_id set_id lookup_info1
           lookup_info2 w = (Raise DatabaseError, w')
         /\ db w' = db w /\ faults w' = tl (faults w))
    /\ (forall record_id annot_data object_id field_id set_id lookup_info1
               lookup_info2,
          some_field annot_data object_id field_id set_id lookup_info1
            lookup_info2 ->
          exists w',
            update self record_id annot_data object_id field_id set_id
              lookup_info1 lookup_info2 w = (Raise DatabaseError, w')
            /\ db w' = db w /\ faults w' = tl (faults w))
    /\ (forall annot_data object_id field_id set_id lookup_info1
               lookup_info2,
          exists w',
            upsert self annot_data object_id field_id set_id lookup_info1
              lookup_info2 w = (Raise DatabaseError, w')
            /\ db w' = db w /\ faults w' = tl (faults w))
    /\ (forall record_id,
          exists w',
            read self record_id w = (Raise DatabaseError, w')
            /\ db w' = db w /\ faults w' = tl (faults w))
    /\ (forall object_id field_id set_id lookup_info1 lookup_info2 limit,
          exists w',
            query self object_id field_id set_id lookup_info1 lookup_info2
              limit w = (Raise DatabaseError, w')
            /\ db w' = db w /\ faults w' = tl (faults w)).
Proof.
  intros self w Hf. repeat split.
  - intros a oid fid sid l1 l2. unfold AnnotationDBManager.insert.
    erewrite bind_ok by reflexivity. unfold bind at 1.
    rewrite get_connection_refused by exact Hf.
    eexists. split; [reflexivity|]. split; reflexivity.
  - intros id a oid fid sid l1 l2 Hsome. rewrite update_unfold.
    pose proof (clauses_nonempty AnnotationData json encode a oid fid sid
                  l1 l2 Hsome) as Hne.
    destruct (AnnotationDBManager.update_clauses _ _ _ _ _ _ _ _ _)
      as [|c cs]; [congruence|].
    erewrite bind_ok by reflexivity. unfold bind at 1.
    rewrite get_connection_refused by exact Hf.
    eexists. split; [reflexivity|]. split; reflexivity.
  - intros a oid fid sid l1 l2. unfold AnnotationDBManager.upsert.
    unfold bind at 1. unfold AnnotationDBManager.query.
    rewrite get_connection_refused by exact Hf.
    eexists. split; [reflexivity|]. split; reflexivity.
  - intros id. unfold AnnotationDBManager.read.
    rewrite get_connection_refused by exact Hf.
    eexists. split; [reflexivity|]. split; reflexivity.
  - intros oid fid sid l1 l2 limit. unfold AnnotationDBManager.query.
    rewrite get_connection_refused by exact Hf.
    eexists. split; [reflexivity|]. split; reflexivity.
Qed.

End StoreMore.

Section StoreMoreRuns.

Import AnnotationDBManager StoreExample.

Abbreviation read_s := (read string string payload_read).
Abbreviation query_s := (query string string payload_read).
Abbreviation insert_s := (insert string string payload_write payload_read).
Abbreviation update_s := (update string string payload_write payload_read).
Abbreviation upsert_s := (upsert string string payload_write payload_read).
Abbreviation save_to_history_s :=
  (save_to_history string string payload_read).
Abbreviation delete_s :=
  (delete string deleted_record record_not_found_for_deletion).
Abbreviation perform_all_s :=
  (perform_all string string payload_write payload_read deleted_record
     record_not_found_for_deletion deleted_records).

Lemma read_after_delete_witness :
  (hd false (faults (world_of one_record_database [])) = false
   /\ hd false (tl (faults (world_of one_record_database []))) = false)
  /\ exists deleted w1 w2,
       delete_s manager_with_history 1 (world_of one_record_database [])
       = (Ok deleted, w1)
       /\ read_s manager_with_history 1 w1 = (Ok None, w2)
       /\ db w2 = db w1.
Proof.
  split; [split; reflexivity|].
  exact (read_after_delete string string payload_read deleted_record
           record_not_found_for_deletion manager_with_history 1
           (world_of one_record_database []) eq_refl eq_refl).
Defined.

Lemma read_after_insert_witness :
  (faults (world_of one_record_database []) = []
   /\ identity_fresh (db (world_of one_record_database []))
   /\ payload_read (payload_write "page-1-v1") = Ok "page-1-v1")
  /\ exists record_id w1 w2,
       insert_s manager_with_history "page-1-v1" 16709 382 (-1)
         "invoice.pdf:abc123" "1" (world_of one_record_database [])
       = (Ok record_id, w1)
       /\ read_s manager_with_history record_id w1
          = (Ok (Some {| columns :=
                           {| ID := record_id; OBJECT_ID := 16709;
                              FIELD_ID := 382; SET_ID := -1;
                              LOOKUP_INFO1 := "invoice.pdf:abc123";
                              LOOKUP_INFO2 := "1"; UPDATED := 10;
                              ANNOT_DATA := "page-1-v1" |};
                         Annot_data := "page-1-v1" |}), w2).
Proof.
  assert (H : identity_fresh (db (world_of one_record_database [])))
    by (repeat constructor).
  split; [repeat split; exact H|].
  exact (read_after_insert string string payload_write payload_read
           manager_with_history "page-1-v1" 16709%Z 382%Z (-1)%Z
           "invoice.pdf:abc123" "1" (world_of one_record_database [])
           "page-1-v1" eq_refl H eq_refl).
Defined.

Lemma query_returns_newest_matching_witness :
  (hd false (faults (world_of one_record_database [])) = false
   /\ Forall (decodable string string payload_read)
        (annotations (db (world_of one_record_database [])))
   /\ Some 1%nat <> Some 0%nat)
  /\ exists recs left_out w',
       query_s manager_with_history (Some 16709%Z) None None None None
         (Some 1%nat) (world_of one_record_database []) = (Ok recs, w')
       /\ List.map columns recs ++ left_out = [stored_row]
       /\ List.length recs = 1%nat.
Proof.
  assert (H : Forall (decodable string string payload_read)
                (annotations (db (world_of one_record_database [])))).
  { constructor; [|constructor]. eexists. reflexivity. }
  assert (Hn : Some 1%nat <> Some 0%nat) by discriminate.
  split; [repeat split; assumption|].
  destruct (query_returns_newest_matching string string payload_read
              manager_with_history (Some 16709%Z) None None None None
              (Some 1%nat) (world_of one_record_database []) eq_refl H Hn)
    as (recs & left_out & w' & Hrun & _ & Hperm & _ & Hlen & _).
  exists recs, left_out, w'. split; [exact Hrun|]. split.
  - apply Permutation_length_1_inv. symmetry. exact Hperm.
  - exact Hlen.
Defined.

Lemma save_to_history_copies_record_witness :
  faults (world_of one_record_database []) = []
  /\ exists w',
       save_to_history_s manager_with_history 1
         (world_of one_record_database []) = (Ok (Some 1%Z), w')
       /\ annotations (db w') = [stored_row]
       /\ annotation_history (db w')
          = [ {| HISTID := 1; H_SET_ID := -1; H_OBJECT_ID := 16709;
                 H_FIELD_ID := 382; H_LOOKUP_INFO1 := "invoice.pdf:abc123";
                 H_LOOKUP_INFO2 := "0"; USERID := 0; USERNAME := "System";
                 H_ANNOT_DATA := "page-0-v1"; MODIFIED := 10 |} ].
Proof.
  split; [reflexivity|].
  destruct (save_to_history_copies_record string string payload_read
              manager_with_history 1 (world_of one_record_database [])
              eq_refl) as (res & w' & Hrun & Ha & Hcases).
  cbn in Hcases. destruct Hcases as [Hres Hh].
  exists w'. rewrite <- Hres. repeat split; assumption.
Defined.

Lemma insert_history_follows_decoding_witness :
  (history_configured manager_with_history = true
   /\ faults (world_of empty_database []) = []
   /\ identity_fresh (db (world_of empty_database [])))
  /\ exists w',
       insert_s manager_with_history "page-0-v1" 16709 382 (-1)
         "invoice.pdf:abc123" "0" (world_of empty_database [])
       = (Ok 1%Z, w')
       /\ annotation_history (db w')
          = [ {| HISTID := 1; H_SET_ID := -1; H_OBJECT_ID := 16709;
                 H_FIELD_ID := 382; H_LOOKUP_INFO1 := "invoice.pdf:abc123";
                 H_LOOKUP_INFO2 := "0"; USERID := 0; USERNAME := "System";
                 H_ANNOT_DATA := "page-0-v1"; MODIFIED := 11 |} ].
Proof.
  assert (H : identity_fresh (db (world_of empty_database [])))
    by constructor.
  split; [repeat split; exact H|].
  destruct (insert_history_follows_decoding string string payload_write
              payload_read manager_with_history "page-0-v1" 16709%Z 382%Z
              (-1)%Z "invoice.pdf:abc123" "0" (world_of empty_database [])
              eq_refl eq_refl H) as (w' & Hrun & _ & Hh).
  exists w'. split; [exact Hrun | exact Hh].
Defined.

Lemma update_history_holds_new_state_witness :
  (history_configured manager_with_history = true
   /\ faults (world_of one_record_database []) = []
   /\ some_field (Some "page-0-v2") None None None None None
   /\ find (fun x => (ID x =? 1)%Z)
        (annotations (db (world_of one_record_database [])))
      = Some stored_row
   /\ decodable string string payload_read
        (updated_row string string payload_write (Some "page-0-v2") None None
           None None None (clock (world_of one_record_database []))
           stored_row))
  /\ exists w',
       update_s manager_with_history 1 (Some "page-0-v2") None None None None
         None (world_of one_record_database []) = (Ok true, w')
       /\ annotation_history (db w')
          = [ {| HISTID := 1; H_SET_ID := -1; H_OBJECT_ID := 16709;
                 H_FIELD_ID := 382; H_LOOKUP_INFO1 := "invoice.pdf:abc123";
                 H_LOOKUP_INFO2 := "0"; USERID := 0; USERNAME := "System";
                 H_ANNOT_DATA := "page-0-v2"; MODIFIED := 11 |} ].
Proof.
  assert (Hs : some_field (Some "page-0-v2") (@None Z) (@None Z) (@None Z)
                 (@None string) (@None string))
    by (left; discriminate).
  assert (Hd : decodable string string payload_read
                 (updated_row string string payload_write (Some "page-0-v2")
                    None None None None None
                    (clock (world_of one_record_database [])) stored_row))
    by (eexists; reflexivity).
  split; [repeat split; assumption|].
  exact (update_history_holds_new_state string string payload_write
           payload_read manager_with_history 1 (Some "page-0-v2") None None
           None None None (world_of one_record_database []) stored_row
           eq_refl eq_refl Hs eq_refl Hd).
Defined.

Lemma upsert_updates_newest_record_witness :
  (faults (world_of one_record_database []) = []
   /\ Forall (decodable string string payload_read)
        (annotations (db (world_of one_record_database [])))
   /\ current_records 16709 382 (-1) "invoice.pdf:abc123" "0"
        (db (world_of one_record_database [])) <> [])
  /\ exists record_id w',
       upsert_s manager_with_history "page-0-v2" 16709 382 (-1)
         "invoice.pdf:abc123" "0" (world_of one_record_database [])
       = (Ok (record_id, false), w')
       /\ annotations (db w')
          = [ {| ID := 1; OBJECT_ID := 16709; FIELD_ID := 382; SET_ID := -1;
                 LOOKUP_INFO1 := "invoice.pdf:abc123"; LOOKUP_INFO2 := "0";
                 UPDATED := 10; ANNOT_DATA := "page-0-v2" |} ].
Proof.
  assert (Hd : Forall (decodable string string payload_read)
                 (annotations (db (world_of one_record_database [])))).
  { constructor; [|constructor]. eexists. reflexivity. }
  assert (Hne : current_records 16709 382 (-1) "invoice.pdf:abc123" "0"
                  (db (world_of one_record_database [])) <> [])
    by discriminate.
  split; [repeat split; assumption|].
  destruct (upsert_updates_newest_record string string payload_write
              payload_read manager_with_history "page-0-v2" 16709%Z 382%Z
              (-1)%Z "invoice.pdf:abc123" "0"
              (world_of one_record_database []) eq_refl Hd Hne)
    as (id & w' & Hrun & (r & Hin & Hid) & _ & Ha).
  exists id, w'. split; [exact Hrun|].
  destruct Hin as [<-|[]]. rewrite Ha, <- Hid. reflexivity.
Defined.

Lemma refused_connection_changes_nothing_witness :
  hd false (faults (world_of one_record_database [true])) = true
  /\ exists w',
       insert_s manager_with_history "page-1-v1" 16709 382 (-1)
         "invoice.pdf:abc123" "1" (world_of one_record_database [true])
       = (Raise DatabaseError, w')
       /\ db w' = one_record_database
       /\ faults w' = [].
Proof.
  split; [reflexivity|].
  exact (proj1 (refused_connection_changes_nothing string string
                  payload_write payload_read manager_with_history
                  (world_of one_record_database [true]) eq_refl)
           "page-1-v1" 16709%Z 382%Z (-1)%Z "invoice.pdf:abc123" "1").
Defined.

Lemma identifiers_stay_unique_witness :
  unique_ids (db (world_of one_record_database [false; true]))
  /\ unique_ids
       (db (perform_all_s manager_with_history
              [Upsert "page-1-v1" 16709 382 (-1) "invoice.pdf:abc123" "1";
               Insert "page-0-v2" 16709 382 (-1) "invoice.pdf:abc123" "0";
               Delete 1;
               Update 3 (Some "page-0-v3") None None None None None]
              (world_of one_record_database [false; true]))).
Proof.
  assert (H : unique_ids (db (world_of one_record_database [false; true]))).
  { split.
    - constructor; [intros []|constructor].
    - constructor; [reflexivity|constructor]. }
  split; [exact H|].
  exact (identifiers_stay_unique string string payload_write payload_read
           deleted_record record_not_found_for_deletion deleted_records
           manager_with_history _ _ H).
Defined.

End StoreMoreRuns.

(** ** Configuration loader *)

Section ConfigFacts.

Import Yaml ConfigEncryption ConfigLoader.

Variable fernet_encrypt : string -> string.

Lemma get_set_same key v (d : dict) : get key (set key v d) = Some v.
Proof.
  induction d as [|[k v'] d IH]; cbn.
  - rewrite String.eqb_refl. reflexivity.
  - destruct (String.eqb k key) eqn:E; cbn.
    + rewrite String.eqb_refl. reflexivity.
    + rewrite E. exact IH.
Qed.

Lemma get_set_other key key' v (d : dict) :
  key' <> key -> get key' (set key v d) = get key' d.
Proof.
  intros Hne. induction d as [|[k v'] d IH]; cbn.
  - destruct (String.eqb_spec key key'); [congruence | reflexivity].
  - destruct (String.eqb_spec k key) as [->|Hk]; cbn.
    + destruct (String.eqb_spec key key'); [congruence | reflexivity].
    + rewrite IH. reflexivity.
Qed.

Lemma get_del_same key (d : dict) : get key (del key d) = None.
Proof.
  induction d as [|[k v] d IH]; [reflexivity|].
  cbn. destruct (String.eqb k key) eqn:E; cbn; [exact IH|].
  rewrite E. exact IH.
Qed.

Lemma get_del_other key key' (d : dict) :
  key' <> key -> get key' (del key d) = get key' d.
Proof.
  intros Hne. induction d as [|[k v] d IH]; [reflexivity|].
  unfold del in *. cbn. destruct (String.eqb_spec k key) as [->|Hk]; cbn.
  - destruct (String.eqb_spec key key'); [congruence | exact IH].
  - rewrite IH. reflexivity.
Qed.

Lemma sql_auth_unfold (db_config : dict) :
  sql_auth db_config
  = match (match get "auth_method" db_config with
           | Some v => v
           | None => YStr "sql"
           end) with
    | YStr auth_method => String.eqb (PyStr.lower auth_method) "sql"
    | _ => false
    end.
Proof.
  unfold sql_auth. destruct (get "auth_method" db_config) as [[]|]; reflexivity.
Qed.

Lemma encrypt_password_some plaintext token :
  encrypt_password fernet_encrypt plaintext = Some token ->
  exists s, plaintext = YStr s /\ s <> "" /\ token = fernet_encrypt s.
Proof.
  unfold encrypt_password.
  destruct plaintext as [|b|n|s|l|d]; cbn;
    try discriminate;
    try (match goal with |- context [if ?c then _ else _] => destruct c end;
         discriminate).
  destruct s as [|c s]; cbn; [discriminate|].
  intros H. inversion H. eexists. repeat split. discriminate.
Qed.

(** X25. A configuration that [_load_config] returns for SQL Server
    authentication never carries the plaintext password: its database
    section has no [password] entry and has a [default_hash_id], and
    every other entry is as loaded. An encrypted entry that was loaded
    is kept and the file is then not written, even if the file also
    holds the plaintext; otherwise the password is a non-empty string,
    the new entry is its token, and the file is written with the
    returned configuration or the writing failed. For any other
    authentication method the configuration is returned as loaded,
    password included, and the file is not written. *)
Theorem load_config_drops_plaintext_password :
  forall config write_ok loaded effect,
    _load_config fernet_encrypt config write_ok = Ok (loaded, effect) ->
    exists db_config db_loaded,
      database_section config = Some db_config
      /\ database_section loaded = Some db_loaded
      /\ if sql_auth db_config then
           contains "password" db_loaded = false
           /\ contains "default_hash_id" db_loaded = true
           /\ (forall key, key <> "password" -> key <> "default_hash_id" ->
               get key db_loaded = get key db_config)
           /\ (contains "default_hash_id" db_config = true ->
               get "default_hash_id" db_loaded
               = get "default_hash_id" db_config
               /\ effect = Untouched)
           /\ (contains "default_hash_id" db_config = false ->
               exists password,
                 get "password" db_config = Some (YStr password)
                 /\ password <> ""
                 /\ get "default_hash_id" db_loaded
                    = Some (YStr (fernet_encrypt password))
                 /\ effect = (if write_ok then Saved loaded else SaveFailed))
         else loaded = config /\ effect = Untouched.
Proof.
  intros config write_ok loaded effect. unfold _load_config.
  destruct (load_body _ _ _) as [[c e]|] eqn:Hbody; [|discriminate].
  intros H. inversion H; subst c e. clear H.
  unfold load_body in Hbody.
  destruct config as [| | | | |top]; try discriminate.
  destruct (get "database" top) as [dbv|] eqn:Hdb; [|discriminate].
  destruct dbv as [| | | | |db]; try discriminate.
  exists db. unfold database_section at 1. rewrite Hdb.
  rewrite sql_auth_unfold.
  destruct (match get "auth_method" db with
            | Some v => v
            | None => YStr "sql"
            end) as [| | |auth| |]; try discriminate.
  destruct (String.eqb (PyStr.lower auth) "sql").
  - unfold contains in *.
    destruct (get "password" db) as [pwd|] eqn:Hp;
      destruct (get "default_hash_id" db) as [tok|] eqn:Ht;
      cbn [andb negb] in Hbody.
    + inversion Hbody; subst loaded effect. clear Hbody.
      exists (del "password" db). cbn [database_section].
      rewrite get_set_same. split; [reflexivity|]. split; [reflexivity|].
      rewrite get_del_same, get_del_other, Ht by discriminate.
      repeat split; try discriminate.
      intros key Hk _. apply get_del_other. exact Hk.
    + destruct (encrypt_password fernet_encrypt pwd) as [enc|] eqn:He;
        [|discriminate].
      apply encrypt_password_some in He as (s & -> & Hs & ->).
      inversion Hbody; subst loaded effect. clear Hbody.
      eexists. cbn [database_section]. rewrite get_set_same.
      split; [reflexivity|]. split; [reflexivity|].
      rewrite get_del_same, get_del_other, get_set_same by discriminate.
      repeat split; try discriminate.
      * intros key Hk Hk'. rewrite get_del_other by exact Hk.
        apply get_set_other. exact Hk'.
      * intros _. exists s. repeat split. exact Hs.
    + inversion Hbody; subst loaded effect. clear Hbody.
      exists db. cbn [database_section]. rewrite Hdb, Hp, Ht.
      repeat split. discriminate.
    + discriminate.
  - inversion Hbody; subst loaded effect. exists db.
    cbn [database_section]. rewrite Hdb. repeat split.
Qed.

End ConfigFacts.

Lemma load_config_drops_plaintext_password_witness :
  ConfigLoader._load_config ConfigLoader.example_encrypt
    ConfigLoader.plaintext_config true
  = Ok (Yaml.YDict
          [("database",
            Yaml.YDict [("server", Yaml.YStr "localhost");
                        ("username", Yaml.YStr "sa");
                        ("default_hash_id", Yaml.YStr "gAAAAABsecret")]);
           ("logging", Yaml.YDict [("enabled", Yaml.YBool true)])],
        ConfigLoader.Saved
          (Yaml.YDict
             [("database",
               Yaml.YDict [("server", Yaml.YStr "localhost");
                           ("username", Yaml.YStr "sa");
                           ("default_hash_id", Yaml.YStr "gAAAAABsecret")]);
              ("logging", Yaml.YDict [("enabled", Yaml.YBool true)])]))
  /\ exists db_loaded,
       ConfigLoader.database_section
         (Yaml.YDict
            [("database",
              Yaml.YDict [("server", Yaml.YStr "localhost");
                          ("username", Yaml.YStr "sa");
                          ("default_hash_id", Yaml.YStr "gAAAAABsecret")]);
             ("logging", Yaml.YDict [("enabled", Yaml.YBool true)])])
       = Some db_loaded
       /\ Yaml.contains "password" db_loaded = false
       /\ Yaml.contains "default_hash_id" db_loaded = true.
Proof.
  split; [reflexivity|].
  destruct (load_config_drops_plaintext_password ConfigLoader.example_encrypt
              ConfigLoader.plaintext_config true _ _ eq_refl)
    as (db_config & db_loaded & Hdb & Hloaded & Hcases).
  exists db_loaded. split; [exact Hloaded|].
  cbn in Hdb. inversion Hdb; subst db_config. cbn in Hcases.
  destruct Hcases as (Hp & Ht & _). split; assumption.
Defined.
